(** * VoiceFlow: job orchestration pipeline

    A shallow embedding of the orchestration core of VoiceFlow:
    the API gateway ([services/api-gateway/main.py]), the Celery task of the
    orchestrator ([services/orchestrator/tasks.py]), the two backend
    services it calls ([services/stt-service/main.py],
    [services/tts-service/main.py]), the cleanup worker
    ([services/cleanup-worker/main.py]) and the polling loop of the client
    library ([client-library/voiceflow/async_client.py]).

    External collaborators (MinIO, Redis, the Celery broker and result
    backend, Triton, the network) are modelled as explicit state ([World])
    plus a per-call fault oracle ([Env]). *)

From Stdlib Require Import ZArith String Ascii List Bool.
From stdpp Require Import gmap strings list fin_maps.
Import ListNotations.
Local Open Scope string_scope.

(** ** Python string operations used by the sources *)

(** A Python [str] is kept as its UTF-8 encoding, one [ascii] per byte
    (the way a string literal of this file reads).  On well-formed
    encodings, concatenation, prefix and substring tests and splitting at
    an ASCII separator give the encodings of what the same operations give
    on the characters; [strip] has to know which characters are white
    space and decodes them. *)

Module PyStr.

(** [needle in hay] on Python strings: some suffix of [hay] starts with
    [needle]. *)
Fixpoint contains (needle hay : string) : bool :=
  if String.prefix needle hay then true
  else match hay with
       | EmptyString => false
       | String _ rest => contains needle rest
       end.

Fixpoint drop (n : nat) (s : string) : string :=
  match n, s with
  | O, _ => s
  | S n', String _ rest => drop n' rest
  | S _, EmptyString => EmptyString
  end.

(** The text after the first occurrence of [sep], if there is one. *)
Fixpoint after_first (sep s : string) : option string :=
  if String.prefix sep s then Some (drop (String.length sep) s)
  else match s with
       | EmptyString => None
       | String _ rest => after_first sep rest
       end.

(** [s.split(sep, 1)[-1]] *)
Definition split1_last (sep s : string) : string :=
  match after_first sep s with
  | Some rest => rest
  | None => s
  end.

(** [s.split(sep, 1)[1]]; [None] stands for the IndexError. *)
Definition split1_snd (sep s : string) : option string := after_first sep s.

(** [s.startswith(p)] *)
Definition startswith (p s : string) : bool := String.prefix p s.

(** Truthiness of a string: [not s] is [true] exactly for the empty one. *)
Definition falsy (s : string) : bool :=
  match s with EmptyString => true | _ => false end.

(** [c.isspace()] for the character with code point [cp]: the characters
    [str.strip()] removes (the table of CPython's
    [_PyUnicode_IsWhitespace]). *)
Definition is_space (cp : N) : bool :=
  (((0x09 <=? cp) && (cp <=? 0x0D)) || ((0x1C <=? cp) && (cp <=? 0x20))
   || (cp =? 0x85) || (cp =? 0xA0) || (cp =? 0x1680)
   || ((0x2000 <=? cp) && (cp <=? 0x200A))
   || (cp =? 0x2028) || (cp =? 0x2029) || (cp =? 0x202F)
   || (cp =? 0x205F) || (cp =? 0x3000))%N.

(** A continuation byte of a UTF-8 sequence. *)
Definition is_cont (b : N) : bool := ((0x80 <=? b) && (b <=? 0xBF))%N.

(** The first character of [s], for characters up to U+FFFF: its code
    point and what follows it.  [None] for the empty string, for a byte
    that opens no well-formed sequence of one to three bytes, and for the
    four-byte sequences (characters above U+FFFF, none of them white
    space). *)
Definition first_char (s : string) : option (N * string) :=
  match s with
  | EmptyString => None
  | String c1 r1 =>
      let b1 := N_of_ascii c1 in
      if (b1 <? 0x80)%N then Some (b1, r1)
      else
        match r1 with
        | EmptyString => None
        | String c2 r2 =>
            let b2 := N_of_ascii c2 in
            if ((0xC2 <=? b1) && (b1 <=? 0xDF) && is_cont b2)%N
            then Some (((b1 - 0xC0) * 64 + (b2 - 0x80))%N, r2)
            else
              match r2 with
              | EmptyString => None
              | String c3 r3 =>
                  let b3 := N_of_ascii c3 in
                  let cp := (((b1 - 0xE0) * 4096 + (b2 - 0x80) * 64 + (b3 - 0x80)))%N in
                  if ((0xE0 <=? b1) && (b1 <=? 0xEF) && is_cont b2 && is_cont b3
                      && (0x800 <=? cp))%N
                  then Some (cp, r3)
                  else None
              end
        end
  end.

(** The loop of [lstrip]: drop characters while they are white space.
    [fuel] bounds the number of turns; the length of [s] is enough. *)
Fixpoint lstrip_from (fuel : nat) (s : string) : string :=
  match fuel with
  | O => s
  | S fuel' =>
      match first_char s with
      | Some (cp, rest) => if is_space cp then lstrip_from fuel' rest else s
      | None => s
      end
  end.

Definition lstrip (s : string) : string := lstrip_from (String.length s) s.

(** [s] is made of white space only (or empty). *)
Definition blank (s : string) : bool := falsy (lstrip s).

(** [s.rstrip()]: [s] up to the first position from which only white
    space follows. *)
Fixpoint rstrip (s : string) : string :=
  match s with
  | EmptyString => EmptyString
  | String c rest => if blank s then EmptyString else String c (rstrip rest)
  end.

Definition strip (s : string) : string := rstrip (lstrip s).

(** The character [c] occurs nowhere in [s]. *)
Fixpoint lacks (c : ascii) (s : string) : bool :=
  match s with
  | EmptyString => true
  | String x rest => negb (Ascii.eqb x c) && lacks c rest
  end.

End PyStr.

(** ** Shared models ([shared/shared/models.py]) *)

Inductive TaskStatus := PENDING | SUCCESS | FAILED.

Inductive JobMode := V2T | T2V.

(** [JobMode.X.value] *)
Definition JobMode_value (m : JobMode) : string :=
  match m with V2T => "v2t" | T2V => "t2v" end.

Record STTRequest := { stt_input_object_name : string }.
Record TTSRequest := { text_to_synthesize : string; tts_task_id : string }.

(** [TranscriptionResponse] and [SynthesisResponse] have the same two
    fields. *)
Record SubmitResponse := { sr_task_id : string; sr_status : TaskStatus }.

Record TaskResultResponse := {
  trr_task_id : string;
  trr_status : TaskStatus;
  transcribed_text : option string;
  audio_url : option string;
  error_message : option string
}.

(** ** Configuration constants *)

Definition MINIO_ENDPOINT : string := "minio:9000".
Definition CLEANUP_TTL_SECONDS : nat := 3600.
(** [@app.task(bind=True, max_retries=3, default_retry_delay=10)] *)
Definition max_retries : nat := 3.

Inductive Bucket := MINIO_BUCKET_UNPROCESSED | MINIO_BUCKET_PROCESSED.

Definition bytes := list Byte.byte.

(** ** The shared state of the deployment *)

(** States of a task in the Celery result backend. *)
Inductive CeleryState :=
  C_PENDING | C_STARTED | C_RETRY | C_SUCCESS | C_FAILURE | C_REVOKED.

(** What [AsyncResult.info] / [AsyncResult.result] can hold: nothing, a
    JSON object (the dict a task returned), or an exception instance
    (what the backend hands back for RETRY and FAILURE). *)
Inductive TaskInfo :=
| InfoNone
| InfoDict (d : gmap string string)
| InfoExc (msg : string).

Record TaskMeta := { meta_state : CeleryState; meta_info : TaskInfo }.

(** One message on the [orchestrator] queue: a call of
    [tasks.process_pipeline] with its Celery request id and retry count. *)
Record WorkItem := {
  wi_task_id : string;
  wi_mode : string;
  wi_input : gmap string string;
  wi_retries : nat
}.

Record World := {
  minio_unprocessed : gmap string bytes;
  minio_processed : gmap string bytes;
  celery_backend : gmap string TaskMeta;
  celery_queue : list WorkItem;
  redis_lists : gmap string (list string);
  redis_ttl_keys : gmap string (string * nat)
}.

Definition empty_world : World :=
  {| minio_unprocessed := ∅; minio_processed := ∅; celery_backend := ∅;
     celery_queue := []; redis_lists := ∅; redis_ttl_keys := ∅ |}.

Definition put_object (b : Bucket) (name : string) (data : bytes) (w : World) : World :=
  match b with
  | MINIO_BUCKET_UNPROCESSED =>
      {| minio_unprocessed := <[name := data]> (minio_unprocessed w);
         minio_processed := minio_processed w;
         celery_backend := celery_backend w; celery_queue := celery_queue w;
         redis_lists := redis_lists w; redis_ttl_keys := redis_ttl_keys w |}
  | MINIO_BUCKET_PROCESSED =>
      {| minio_unprocessed := minio_unprocessed w;
         minio_processed := <[name := data]> (minio_processed w);
         celery_backend := celery_backend w; celery_queue := celery_queue w;
         redis_lists := redis_lists w; redis_ttl_keys := redis_ttl_keys w |}
  end.

Definition remove_object (b : Bucket) (name : string) (w : World) : World :=
  match b with
  | MINIO_BUCKET_UNPROCESSED =>
      {| minio_unprocessed := delete name (minio_unprocessed w);
         minio_processed := minio_processed w;
         celery_backend := celery_backend w; celery_queue := celery_queue w;
         redis_lists := redis_lists w; redis_ttl_keys := redis_ttl_keys w |}
  | MINIO_BUCKET_PROCESSED =>
      {| minio_unprocessed := minio_unprocessed w;
         minio_processed := delete name (minio_processed w);
         celery_backend := celery_backend w; celery_queue := celery_queue w;
         redis_lists := redis_lists w; redis_ttl_keys := redis_ttl_keys w |}
  end.

(** [celery_app.send_task(...)]: a new message at the tail of the queue. *)
Definition send_task (item : WorkItem) (w : World) : World :=
  {| minio_unprocessed := minio_unprocessed w; minio_processed := minio_processed w;
     celery_backend := celery_backend w;
     celery_queue := (celery_queue w ++ [item])%list;
     redis_lists := redis_lists w; redis_ttl_keys := redis_ttl_keys w |}.

(** The result backend stores one meta per task id: last write wins. *)
Definition store_result (task_id : string) (m : TaskMeta) (w : World) : World :=
  {| minio_unprocessed := minio_unprocessed w; minio_processed := minio_processed w;
     celery_backend := <[task_id := m]> (celery_backend w);
     celery_queue := celery_queue w;
     redis_lists := redis_lists w; redis_ttl_keys := redis_ttl_keys w |}.

(** [redis_client.lrange(key, 0, -1)]: a missing key reads as the empty list. *)
Definition lrange (key : string) (w : World) : list string :=
  default [] (redis_lists w !! key).

(** [redis_client.rpush(key, *values)] appends to the list under [key]. *)
Definition rpush (key : string) (values : list string) (w : World) : World :=
  {| minio_unprocessed := minio_unprocessed w; minio_processed := minio_processed w;
     celery_backend := celery_backend w; celery_queue := celery_queue w;
     redis_lists := <[key := (lrange key w ++ values)%list]> (redis_lists w);
     redis_ttl_keys := redis_ttl_keys w |}.

(** [redis_client.setex(key, ttl, value)] *)
Definition setex (key : string) (ttl : nat) (value : string) (w : World) : World :=
  {| minio_unprocessed := minio_unprocessed w; minio_processed := minio_processed w;
     celery_backend := celery_backend w; celery_queue := celery_queue w;
     redis_lists := redis_lists w;
     redis_ttl_keys := <[key := (value, ttl)]> (redis_ttl_keys w) |}.

(** [redis_client.delete(key)] on a list key. *)
Definition redis_delete (key : string) (w : World) : World :=
  {| minio_unprocessed := minio_unprocessed w; minio_processed := minio_processed w;
     celery_backend := celery_backend w; celery_queue := celery_queue w;
     redis_lists := delete key (redis_lists w);
     redis_ttl_keys := redis_ttl_keys w |}.

(** ** HTTP plumbing *)

(** What a FastAPI handler gives its caller: the response model, or an
    error status with its [detail]. *)
Inductive HttpResult (A : Type) :=
| Ok200 (a : A)
| HttpError (status_code : nat) (detail : string).
Arguments Ok200 {A} a.
Arguments HttpError {A} status_code detail.

Definition is_http_error {A} (r : HttpResult A) : bool :=
  match r with Ok200 _ => false | HttpError _ _ => true end.

(** A response as [httpx] shows it to the orchestrator: status, the body
    parsed as a JSON object when it is one, and the raw text. *)
Record HttpResponse := {
  resp_status : nat;
  resp_json : option (gmap string string);
  resp_text : string
}.

Definition dquote : string := String (ascii_of_nat 34) EmptyString.

(** The body FastAPI sends for [raise HTTPException(status_code, detail)]. *)
Definition http_exception (status : nat) (detail : string) : HttpResponse :=
  {| resp_status := status;
     resp_json := Some {[ "detail" := detail ]};
     resp_text := "{" +:+ dquote +:+ "detail" +:+ dquote +:+ ":" +:+ dquote +:+ detail +:+ dquote +:+ "}" |}.

(** The body sent when a handler dies with an unhandled exception. *)
Definition internal_server_error : HttpResponse :=
  {| resp_status := 500; resp_json := None; resp_text := "Internal Server Error" |}.

Definition json_response (body : gmap string string) : HttpResponse :=
  {| resp_status := 200; resp_json := Some body; resp_text := "" |}.

(** [response.raise_for_status()] raises unless the status is 2xx. *)
Definition is_success (r : HttpResponse) : bool :=
  (200 <=? resp_status r)%nat && (resp_status r <=? 299)%nat.

(** ** Fault oracle of one step *)

(** Result of a Triton [infer] call. *)
Inductive Triton (A : Type) :=
| TritonOk (output : A)
| TritonError (msg : string).
Arguments TritonOk {A} output.
Arguments TritonError {A} msg.

(** Everything outside the repository that can go one way or the other
    while one request or one task attempt runs.  An [option string] is the
    message of the exception the call raises, [None] when it succeeds. *)
Record Env := {
  connect_error : option string;   (* client.post fails before reaching the service *)
  read_error : option string;      (* client.post fails after the service ran *)
  whisper : bytes -> Triton (list string);
  chatterbox : string -> Triton bytes;
  put_object_error : option string;
  rpush_error : option string;
  setex_error : option string;
  remove_object_error : Bucket -> string -> option string
}.



(** ** API gateway ([services/api-gateway/main.py]) *)

Record UploadFile := { filename : string; file : bytes; content_type : string }.

Module Gateway.

(** [task_id] is the value of [str(uuid.uuid4())]. *)
Definition transcribe_audio (e : Env) (task_id : string) (audio_file : UploadFile)
    (w : World) : World * HttpResult SubmitResponse :=
  let input_object_name := task_id +:+ "_" +:+ filename audio_file in
  match put_object_error e with
  | Some err => (w, HttpError 500 ("Failed to upload file: " +:+ err))
  | None =>
      let w1 := put_object MINIO_BUCKET_UNPROCESSED input_object_name (file audio_file) w in
      let w2 := send_task {| wi_task_id := task_id;
                             wi_mode := JobMode_value V2T;
                             wi_input := {[ "input_object_name" := input_object_name ]};
                             wi_retries := 0 |} w1 in
      (w2, Ok200 {| sr_task_id := task_id; sr_status := PENDING |})
  end.

Definition synthesize_text (task_id : string) (text : string)
    (w : World) : World * HttpResult SubmitResponse :=
  if PyStr.falsy (PyStr.strip text) then
    (w, HttpError 400 "Text content is required")
  else
    let w1 := send_task {| wi_task_id := task_id;
                           wi_mode := JobMode_value T2V;
                           wi_input := {[ "text" := PyStr.strip text ]};
                           wi_retries := 0 |} w in
    (w1, Ok200 {| sr_task_id := task_id; sr_status := PENDING |}).

(** [AsyncResult(task_id, app=celery_app)]: an id the backend has no
    meta for reads as PENDING. *)
Definition AsyncResult (task_id : string) (w : World) : TaskMeta :=
  default {| meta_state := C_PENDING; meta_info := InfoNone |} (celery_backend w !! task_id).

Definition ready (task : TaskMeta) : bool :=
  match meta_state task with
  | C_SUCCESS | C_FAILURE | C_REVOKED => true
  | _ => false
  end.

Definition failed (task : TaskMeta) : bool :=
  match meta_state task with C_FAILURE => true | _ => false end.

Definition successful (task : TaskMeta) : bool :=
  match meta_state task with C_SUCCESS => true | _ => false end.

Definition response (task_id : string) (st : TaskStatus)
    (text url err : option string) : TaskResultResponse :=
  {| trr_task_id := task_id; trr_status := st;
     transcribed_text := text; audio_url := url; error_message := err |}.

(** [presigned_get_object bucket object_name expires] is MinIO's URL
    signer ([expires] in seconds).  The handler only reads the shared
    state. *)
Definition get_task_result (presigned_get_object : Bucket -> string -> nat -> string)
    (task_id : string) (w : World) : HttpResult TaskResultResponse :=
  let task := AsyncResult task_id w in
  if negb (ready task) then
    Ok200 (response task_id PENDING None None None)
  else if failed task then
    match meta_info task with
    | InfoNone => Ok200 (response task_id FAILED None None (Some "Task failed"))
    | InfoDict info =>
        Ok200 (response task_id FAILED None None
                 (Some (default "Task failed" (info !! "error"))))
    | InfoExc _ =>
        (* an exception instance has no [get]: AttributeError *)
        HttpError 500 "Internal Server Error"
    end
  else if negb (successful task) then
    Ok200 (response task_id FAILED None None (Some "Task was not successful"))
  else
    match meta_info task with
    | InfoDict result =>
        let audio_url :=
          match result !! "output_object_name" with
          | Some name =>
              let signed_url := presigned_get_object MINIO_BUCKET_PROCESSED name (15 * 60) in
              Some (PyStr.split1_last MINIO_ENDPOINT signed_url)
          | None => None
          end in
        let transcribed_text := result !! "transcribed_text" in
        Ok200 (response task_id SUCCESS transcribed_text audio_url None)
    | _ =>
        (* [key in result] on something that is not a dict: TypeError *)
        HttpError 500 "Internal Server Error"
    end.

End Gateway.

(** ** STT service ([services/stt-service/main.py]) *)

Module SttService.

Definition transcribe_audio (e : Env) (request : STTRequest) (w : World) : HttpResponse :=
  match minio_unprocessed w !! stt_input_object_name request with
  | None =>
      (* get_object raises; the [finally] block then touches the unbound
         [audio_object], and that error replaces the 404 *)
      internal_server_error
  | Some audio_bytes =>
      match whisper e audio_bytes with
      | TritonOk output_data =>
          let transcription :=
            match output_data with
            | first :: _ => first
            | [] => ""
            end in
          json_response {[ "text" := transcription ]}
      | TritonError msg =>
          http_exception 503 ("Triton inference failed: " +:+ msg)
      end
  end.

End SttService.

(** ** TTS service ([services/tts-service/main.py]) *)

Module TtsService.

Definition synthesize_speech (e : Env) (request : TTSRequest) (w : World)
    : World * HttpResponse :=
  match chatterbox e (text_to_synthesize request) with
  | TritonError msg => (w, http_exception 503 ("Triton inference failed: " +:+ msg))
  | TritonOk raw_audio =>
      let output_object_name := tts_task_id request +:+ ".wav" in
      match put_object_error e with
      | Some msg => (w, http_exception 500 ("Failed to upload audio: " +:+ msg))
      | None =>
          (put_object MINIO_BUCKET_PROCESSED output_object_name raw_audio w,
           json_response {[ "output_object_name" := output_object_name ]})
      end
  end.

End TtsService.

(** ** Orchestrator ([services/orchestrator/tasks.py]) *)

Module Orchestrator.

(** How one run of the task body ends: it returns its result dict, it
    leaves through [raise self.retry(exc=...)], or an exception escapes
    without going through [self.retry]. *)
Inductive Outcome :=
| Return (final_result : gmap string string)
| SelfRetry (exc : string)
| Escaped (exc : string).

Definition files_to_delete (input_data result_data : gmap string string) : list string :=
  (match input_data !! "input_object_name" with Some n => [n] | None => [] end ++
   match result_data !! "output_object_name" with Some n => [n] | None => [] end)%list.

(** Any exception inside is caught and only printed. *)
Definition _schedule_cleanup (e : Env) (task_id : string)
    (input_data result_data : gmap string string) (w : World) : World :=
  match files_to_delete input_data result_data with
  | [] => w
  | files =>
      let files_key := "files:" +:+ task_id in
      let cleanup_trigger_key := "cleanup:" +:+ task_id in
      match rpush_error e with
      | Some _ => w
      | None =>
          let w1 := rpush files_key files w in
          match setex_error e with
          | Some _ => w1
          | None => setex cleanup_trigger_key CLEANUP_TTL_SECONDS "1" w1
          end
      end
  end.

(** [client.post(url, json=payload)]: either a transport exception
    ([inl]) or the service's response; the service may have run even when
    the response was lost. *)
Definition client_post (e : Env) (service : World -> World * HttpResponse) (w : World)
    : World * (string + HttpResponse) :=
  match connect_error e with
  | Some msg => (w, inl msg)
  | None =>
      let '(w1, r) := service w in
      match read_error e with
      | Some msg => (w1, inl msg)
      | None => (w1, inr r)
      end
  end.

(** Message of the error [response.json()] raises on a body that is not
    JSON. *)
Definition json_decode_error : string := "Expecting value: line 1 column 1 (char 0)".

(** The [except httpx.HTTPStatusError] handler. *)
Definition on_http_status_error (r : HttpResponse) : Outcome :=
  match resp_json r with
  | None => Escaped json_decode_error
  | Some body =>
      let error_details := default (resp_text r) (body !! "detail") in
      SelfRetry ("HTTP Error: " +:+ error_details)
  end.

(** The part of a branch after [client.post]: [raise_for_status], then
    [response.json()[key]]. *)
Definition read_field (posted : string + HttpResponse) (key : string) : Outcome + string :=
  match posted with
  | inl msg => inl (SelfRetry msg)
  | inr r =>
      if negb (is_success r) then inl (on_http_status_error r)
      else match resp_json r with
           | None => inl (SelfRetry json_decode_error)
           | Some body =>
               match body !! key with
               | None => inl (SelfRetry ("'" +:+ key +:+ "'"))
               | Some v => inr v
               end
           end
  end.

Definition process_pipeline (e : Env) (task_id : string) (mode : string)
    (input_data : gmap string string) (w : World) : World * Outcome :=
  if String.eqb mode (JobMode_value V2T) then
    match input_data !! "input_object_name" with
    | None => (w, SelfRetry "input_object_name is required for V2T mode")
    | Some name =>
        let stt_payload := {| stt_input_object_name := name |} in
        let '(w1, posted) :=
          client_post e (fun w0 => (w0, SttService.transcribe_audio e stt_payload w0)) w in
        match read_field posted "text" with
        | inl failure => (w1, failure)
        | inr transcribed_text =>
            let final_result : gmap string string :=
              {[ "transcribed_text" := transcribed_text ]} in
            (_schedule_cleanup e task_id input_data final_result w1, Return final_result)
        end
    end
  else if String.eqb mode (JobMode_value T2V) then
    match input_data !! "text" with
    | None => (w, SelfRetry "text is required for T2V mode")
    | Some text =>
        let tts_payload := {| text_to_synthesize := text; tts_task_id := task_id |} in
        let '(w1, posted) :=
          client_post e (TtsService.synthesize_speech e tts_payload) w in
        match read_field posted "output_object_name" with
        | inl failure => (w1, failure)
        | inr output_object_name =>
            let final_result : gmap string string :=
              {[ "output_object_name" := output_object_name ]} in
            (_schedule_cleanup e task_id input_data final_result w1, Return final_result)
        end
    end
  else (w, SelfRetry ("Unsupported mode: " +:+ mode)).

(** *** The Celery worker around the task *)

Definition set_queue (q : list WorkItem) (w : World) : World :=
  {| minio_unprocessed := minio_unprocessed w; minio_processed := minio_processed w;
     celery_backend := celery_backend w; celery_queue := q;
     redis_lists := redis_lists w; redis_ttl_keys := redis_ttl_keys w |}.

Definition retried (item : WorkItem) : WorkItem :=
  {| wi_task_id := wi_task_id item; wi_mode := wi_mode item;
     wi_input := wi_input item; wi_retries := S (wi_retries item) |}.

(** One delivery of a message.  [task_track_started] records STARTED;
    a returned dict is stored as SUCCESS; [self.retry] gives up, and the
    task fails with the exception it was handed, once [request.retries + 1]
    exceeds [max_retries], and otherwise stores RETRY and sends the
    message again with the retry count incremented; an escaped exception
    is stored as FAILURE. *)
Definition deliver (e : Env) (item : WorkItem) (w : World) : World * Outcome :=
  let task_id := wi_task_id item in
  let w0 := store_result task_id {| meta_state := C_STARTED; meta_info := InfoNone |} w in
  let '(w1, o) := process_pipeline e task_id (wi_mode item) (wi_input item) w0 in
  (match o with
   | Return final_result =>
       store_result task_id {| meta_state := C_SUCCESS; meta_info := InfoDict final_result |} w1
   | SelfRetry exc =>
       if (max_retries <? wi_retries item + 1)%nat then
         store_result task_id {| meta_state := C_FAILURE; meta_info := InfoExc exc |} w1
       else
         send_task (retried item)
           (store_result task_id {| meta_state := C_RETRY; meta_info := InfoExc exc |} w1)
   | Escaped exc =>
       store_result task_id {| meta_state := C_FAILURE; meta_info := InfoExc exc |} w1
   end, o).

(** The worker takes the message at the head of the queue. *)
Definition worker_step (e : Env) (w : World) : option (World * Outcome) :=
  match celery_queue w with
  | [] => None
  | item :: rest => Some (deliver e item (set_queue rest w))
  end.

(** The worker runs while there are messages, one oracle per delivery;
    the trace lists how each delivery's task body ended. *)
Fixpoint run_worker (envs : list Env) (w : World) : World * list Outcome :=
  match envs with
  | [] => (w, [])
  | e :: envs' =>
      match worker_step e w with
      | None => (w, [])
      | Some (w1, o) =>
          let '(w2, trace) := run_worker envs' w1 in
          (w2, o :: trace)
      end
  end.

End Orchestrator.

(** ** Cleanup worker ([services/cleanup-worker/main.py]) *)

Module CleanupWorker.

(** One [remove_object] call of the loop and how it went. *)
Record DeleteAttempt := {
  da_bucket : Bucket;
  da_object_name : string;
  da_deleted : bool
}.

(** [MINIO_BUCKET_UNPROCESSED if "input" in object_name else
    MINIO_BUCKET_PROCESSED] *)
Definition bucket_for (object_name : string) : Bucket :=
  if PyStr.contains "input" object_name then MINIO_BUCKET_UNPROCESSED
  else MINIO_BUCKET_PROCESSED.

(** The [for object_name in files_to_delete] loop; an exception of
    [remove_object] is caught inside the iteration. *)
Fixpoint delete_loop (e : Env) (files_to_delete : list string) (w : World)
    : World * list DeleteAttempt :=
  match files_to_delete with
  | [] => (w, [])
  | object_name :: rest =>
      let bucket := bucket_for object_name in
      match remove_object_error e bucket object_name with
      | Some _ =>
          let '(w1, log) := delete_loop e rest w in
          (w1, {| da_bucket := bucket; da_object_name := object_name;
                  da_deleted := false |} :: log)
      | None =>
          let '(w1, log) := delete_loop e rest (remove_object bucket object_name w) in
          (w1, {| da_bucket := bucket; da_object_name := object_name;
                  da_deleted := true |} :: log)
      end
  end.

(** What the loop's log must say about one attempt: the bucket is the
    one [bucket_for] picks for the name, and the attempt deleted the
    object exactly when [remove_object] did not raise. *)
Definition attempt_as_coded (e : Env) (a : DeleteAttempt) : Prop :=
  da_bucket a = bucket_for (da_object_name a)
  /\ da_deleted a
     = match remove_object_error e (da_bucket a) (da_object_name a) with
       | None => true
       | Some _ => false
       end.

Definition process_cleanup_task (e : Env) (task_id : string) (w : World)
    : World * list DeleteAttempt :=
  let files_key := "files:" +:+ task_id in
  match lrange files_key w with
  | [] => (w, [])
  | files_to_delete =>
      let '(w1, log) := delete_loop e files_to_delete w in
      (redis_delete files_key w1, log)
  end.

(** A pub/sub message: its [type] and its decoded [data]. *)
Record Message := { msg_type : string; msg_data : string }.

(** The body of [for message in pubsub.listen()]. *)
Definition on_message (e : Env) (message : Message) (w : World)
    : World * list DeleteAttempt :=
  if String.eqb (msg_type message) "message" then
    let expired_key := msg_data message in
    if PyStr.startswith "cleanup:" expired_key then
      match PyStr.split1_snd ":" expired_key with
      | Some task_id => process_cleanup_task e task_id w
      | None => (w, [])
      end
    else (w, [])
  else (w, []).

(** Redis drops an expired key and publishes its name on
    [__keyevent@0__:expired]. *)
Definition expire (key : string) (w : World) : World * Message :=
  ({| minio_unprocessed := minio_unprocessed w; minio_processed := minio_processed w;
      celery_backend := celery_backend w; celery_queue := celery_queue w;
      redis_lists := redis_lists w;
      redis_ttl_keys := delete key (redis_ttl_keys w) |},
   {| msg_type := "message"; msg_data := key |}).

End CleanupWorker.

(** ** Client library ([client-library/voiceflow]) *)

Module Client.

Inductive TaskResult :=
| TranscriptionResult (task_id : string) (status : TaskStatus)
    (transcribed_text : option string) (error_message : option string)
| SynthesisResult (task_id : string) (status : TaskStatus)
    (audio_url : option string) (error_message : option string).

Definition status (r : TaskResult) : TaskStatus :=
  match r with
  | TranscriptionResult _ s _ _ => s
  | SynthesisResult _ s _ _ => s
  end.

Definition result_error_message (r : TaskResult) : option string :=
  match r with
  | TranscriptionResult _ _ _ m => m
  | SynthesisResult _ _ _ m => m
  end.

(** The exception classes of [models.py], one constructor per class an
    exception is an instance of exactly ([TaskTimeoutError] and [APIError]
    derive from [VoiceFlowError]).  [TaskTimeoutError] keeps the parts of
    its message (which task, which budget) as fields; [APIError] keeps the
    status code and the response text. *)
Inductive ClientError :=
| VoiceFlowError (msg : string)
| TaskTimeoutError (what : string) (task_id : string) (timeout : Z)
| APIError (status_code : nat) (text : string).

(** [str(x)] for an optional string inside an f-string. *)
Definition fmt (x : option string) : string := default "None" x.

(** [get_task_result]: one GET on the gateway.  [request_error] is the
    transport failure of this request, if any. *)
Definition get_task_result (base_url : string)
    (presigned_get_object : Bucket -> string -> nat -> string)
    (request_error : option string) (task_id : string) (w : World)
    : ClientError + TaskResult :=
  match request_error with
  | Some msg => inl (VoiceFlowError ("Failed to get task result: " +:+ msg))
  | None =>
      match Gateway.get_task_result presigned_get_object task_id w with
      | HttpError code text => inl (APIError code text)
      | Ok200 data =>
          match transcribed_text data with
          | Some text =>
              inr (TranscriptionResult task_id (trr_status data) (Some text)
                     (error_message data))
          | None =>
              let audio_url :=
                match audio_url data with
                | Some u =>
                    if negb (PyStr.falsy u) && PyStr.startswith "/" u
                    then Some (base_url +:+ u) else Some u
                | None => None
                end in
              inr (SynthesisResult task_id (trr_status data) audio_url
                     (error_message data))
          end
      end
  end.

(** One turn of the polling loop as the environment decides it: the
    clock reading at the loop test (any fixed unit), the shared state the
    request of that turn meets, and the transport failure of that
    request. *)
Record Tick := { now : Z; world : World; request_error : option string }.

(** The loop shared by [_poll_transcription_result] and
    [_poll_synthesis_result]:
    [while time() - start_time < timeout: ...; sleep(poll_interval)],
    then [raise TaskTimeoutError].  [None]: the loop is still running
    when the given turns are used up. *)
Fixpoint poll (what : string) (base_url : string)
    (presigned_get_object : Bucket -> string -> nat -> string)
    (task_id : string) (start_time timeout : Z) (ticks : list Tick)
    : option (ClientError + TaskResult) :=
  match ticks with
  | [] => None
  | t :: rest =>
      if (now t - start_time <? timeout)%Z then
        match get_task_result base_url presigned_get_object (request_error t) task_id (world t) with
        | inl err => Some (inl err)
        | inr result =>
            match status result with
            | SUCCESS => Some (inr result)
            | FAILED =>
                Some (inl (VoiceFlowError
                             (what +:+ " failed: " +:+ fmt (result_error_message result))))
            | PENDING => poll what base_url presigned_get_object task_id start_time timeout rest
            end
        end
      else Some (inl (TaskTimeoutError what task_id timeout))
  end.

(** A turn inside the budget whose request the gateway answers with the
    given status. *)
Definition tick_shows (presigned_get_object : Bucket -> string -> nat -> string)
    (task_id : string) (start_time timeout : Z) (st : TaskStatus) (t : Tick) : Prop :=
  (now t - start_time < timeout)%Z
  /\ request_error t = None
  /\ exists r, Gateway.get_task_result presigned_get_object task_id (world t) = Ok200 r
               /\ trr_status r = st.

Definition _poll_transcription_result := poll "Transcription".
Definition _poll_synthesis_result := poll "Synthesis".

End Client.

(** ** Sample data for the concrete runs below *)

Module Sample.

(** A signer that produces URLs of the shape MinIO's does. *)
Definition presign (b : Bucket) (name : string) (expires : nat) : string :=
  "http://minio:9000/" +:+
  match b with
  | MINIO_BUCKET_UNPROCESSED => "unprocessed"
  | MINIO_BUCKET_PROCESSED => "processed"
  end +:+ "/" +:+ name +:+ "?X-Amz-Expires=900".

(** Every collaborator works. *)
Definition env_ok : Env :=
  {| connect_error := None; read_error := None;
     whisper := fun _ => TritonOk ["hello world"];
     chatterbox := fun _ => TritonOk [Byte.x52; Byte.x49; Byte.x46; Byte.x46];
     put_object_error := None; rpush_error := None; setex_error := None;
     remove_object_error := fun _ _ => None |}.

(** Every collaborator works; Chatterbox produces another audio. *)
Definition env_ok_again : Env :=
  {| connect_error := None; read_error := None;
     whisper := whisper env_ok;
     chatterbox := fun _ => TritonOk [Byte.x52; Byte.x49; Byte.x46; Byte.x46; Byte.x00];
     put_object_error := None; rpush_error := None; setex_error := None;
     remove_object_error := fun _ _ => None |}.

(** The backend services cannot be reached. *)
Definition env_down : Env :=
  {| connect_error := Some "connection refused"; read_error := None;
     whisper := whisper env_ok; chatterbox := chatterbox env_ok;
     put_object_error := None; rpush_error := None; setex_error := None;
     remove_object_error := fun _ _ => None |}.

(** Triton answers every inference with an error. *)
Definition env_triton_down : Env :=
  {| connect_error := None; read_error := None;
     whisper := fun _ => TritonError "model unavailable";
     chatterbox := fun _ => TritonError "model unavailable";
     put_object_error := None; rpush_error := None; setex_error := None;
     remove_object_error := fun _ _ => None |}.

(** MinIO refuses uploads. *)
Definition env_no_upload : Env :=
  {| connect_error := None; read_error := None;
     whisper := whisper env_ok; chatterbox := chatterbox env_ok;
     put_object_error := Some "bucket unavailable";
     rpush_error := None; setex_error := None;
     remove_object_error := fun _ _ => None |}.

(** MinIO refuses every delete in the processed bucket. *)
Definition env_no_delete : Env :=
  {| connect_error := None; read_error := None;
     whisper := whisper env_ok; chatterbox := chatterbox env_ok;
     put_object_error := None; rpush_error := None; setex_error := None;
     remove_object_error := fun b _ =>
       match b with
       | MINIO_BUCKET_PROCESSED => Some "access denied"
       | MINIO_BUCKET_UNPROCESSED => None
       end |}.

(** The result dict of the synthesis job-2. *)
Definition tts_result : gmap string string := {[ "output_object_name" := "job-2.wav" ]}.

Definition empty_audio : UploadFile :=
  {| filename := "a.wav"; file := []; content_type := "audio/wav" |}.

Definition speech : UploadFile :=
  {| filename := "input.wav"; file := [Byte.x52; Byte.x49]; content_type := "audio/wav" |}.

Definition tts_item : WorkItem :=
  {| wi_task_id := "job-2"; wi_mode := "t2v";
     wi_input := {[ "text" := "hello" ]}; wi_retries := 0 |}.

(** The state right after [synthesize_text] accepted "hello" as job-2. *)
Definition tts_submitted : World :=
  fst (Gateway.synthesize_text "job-2" "hello" empty_world).

(** The state after job-2 was processed once with everything working. *)
Definition tts_done : World :=
  fst (Orchestrator.deliver env_ok tts_item tts_submitted).

(** What a client polling job-2 from time 0 meets while the job waits on
    the queue: two turns inside a budget of 100, one after it. *)
Definition waiting (t : Z) : Client.Tick :=
  {| Client.now := t; Client.world := tts_submitted; Client.request_error := None |}.

(** A task store in which job-3 failed with an exception. *)
Definition failed_store : World :=
  store_result "job-3"
    {| meta_state := C_FAILURE; meta_info := InfoExc "HTTP Error: Triton inference failed" |}
    empty_world.

(** The state right after [transcribe_audio] accepted [speech] as job-1. *)
Definition stt_submitted : World :=
  fst (Gateway.transcribe_audio env_ok "job-1" speech empty_world).

(** A state in which job-9 has its output and its input listed for
    cleanup, both objects present. *)
Definition cleanup_pending : World :=
  {| minio_unprocessed := {[ "job-9_input.wav" := [Byte.x52] ]};
     minio_processed := {[ "job-9.wav" := [Byte.x49] ]};
     celery_backend := ∅; celery_queue := [];
     redis_lists := {[ "files:job-9" := ["job-9.wav"; "job-9_input.wav"] ]};
     redis_ttl_keys := {[ "cleanup:job-9" := ("1", CLEANUP_TTL_SECONDS) ]} |}.

End Sample.

(** ** Client utilities ([client-library/voiceflow/utils.py]) *)

Module Utils.

(** [s.split(c)[0]]: the text before the first [c], all of [s] when there
    is none. *)
Fixpoint before_first (c : ascii) (s : string) : string :=
  match s with
  | EmptyString => EmptyString
  | String x rest => if Ascii.eqb x c then EmptyString else String x (before_first c rest)
  end.

(** [s.split(c)[-1]]: the text after the last [c], all of [s] when there
    is none. *)
Fixpoint after_last (c : ascii) (s : string) : string :=
  match s with
  | EmptyString => EmptyString
  | String x rest =>
      if negb (PyStr.lacks c rest) then after_last c rest
      else if Ascii.eqb x c then rest else s
  end.

Definition extract_filename_from_url (audio_url : string) : string :=
  let url_without_params := before_first "?" audio_url in
  let filename := after_last "/" url_without_params in
  if negb (PyStr.contains "." filename) then filename +:+ ".wav" else filename.

End Utils.

(** ** Client operations ([client-library/voiceflow/async_client.py]) *)

Module ClientOps.

Import Client.

Inductive AudioOutputFormat := URL | NUMPY | FILE.

(** [_submit_synthesis]: one POST on [/v1/synthesize].  [new_id] is the
    id the gateway draws for the request. *)
Definition _submit_synthesis (request_error : option string) (new_id : string)
    (text : string) (w : World) : World * (ClientError + string) :=
  match request_error with
  | Some msg => (w, inl (VoiceFlowError ("Failed to submit synthesis: " +:+ msg)))
  | None =>
      match Gateway.synthesize_text new_id text w with
      | (w1, Ok200 result) => (w1, inr (sr_task_id result))
      | (w1, HttpError code body) => (w1, inl (APIError code body))
      end
  end.

(** [_submit_transcription], the branch for audio given as bytes: the
    upload is named [filename or "audio.wav"]. *)
Definition _submit_transcription (e : Env) (request_error : option string)
    (new_id : string) (audio_file : bytes) (filename : option string) (w : World)
    : World * (ClientError + string) :=
  match request_error with
  | Some msg => (w, inl (VoiceFlowError ("Failed to submit transcription: " +:+ msg)))
  | None =>
      let fname :=
        match filename with
        | Some f => if PyStr.falsy f then "audio.wav" else f
        | None => "audio.wav"
        end in
      match Gateway.transcribe_audio e new_id
              {| filename := fname; file := audio_file; content_type := "audio/wav" |} w with
      | (w1, Ok200 data) => (w1, inr (sr_task_id data))
      | (w1, HttpError code body) => (w1, inl (APIError code body))
      end
  end.

(** [synthesize].  The two conversions of a finished result (download and
    decode, download and save) are passed in; [None]: still polling when
    the given turns are used up. *)
Definition synthesize (base_url : string)
    (presigned_get_object : Bucket -> string -> nat -> string)
    (request_error : option string) (new_id : string)
    (text : string) (output_format : AudioOutputFormat)
    (_convert_to_numpy _save_to_file : TaskResult -> ClientError + TaskResult)
    (start_time poll_timeout : Z) (ticks : list Tick) (w : World)
    : World * option (ClientError + TaskResult) :=
  if PyStr.falsy (PyStr.strip text) then
    (w, Some (inl (VoiceFlowError "Text cannot be empty")))
  else
    match _submit_synthesis request_error new_id text w with
    | (w1, inl err) => (w1, Some (inl err))
    | (w1, inr task_id) =>
        match _poll_synthesis_result base_url presigned_get_object task_id
                start_time poll_timeout ticks with
        | None => (w1, None)
        | Some (inl err) => (w1, Some (inl err))
        | Some (inr result) =>
            (w1, Some match output_format with
                      | URL => inr result
                      | NUMPY => _convert_to_numpy result
                      | FILE => _save_to_file result
                      end)
        end
    end.

(** [transcribe], for audio given as bytes. *)
Definition transcribe (base_url : string)
    (presigned_get_object : Bucket -> string -> nat -> string)
    (e : Env) (request_error : option string) (new_id : string)
    (audio_file : bytes) (filename : option string)
    (start_time poll_timeout : Z) (ticks : list Tick) (w : World)
    : World * option (ClientError + TaskResult) :=
  match _submit_transcription e request_error new_id audio_file filename w with
  | (w1, inl err) => (w1, Some (inl err))
  | (w1, inr task_id) =>
      (w1, _poll_transcription_result base_url presigned_get_object task_id
             start_time poll_timeout ticks)
  end.

End ClientOps.

(** ** The listener of the cleanup worker *)

Module CleanupListener.

Import CleanupWorker.

(** [listen_for_cleanup_events]: the [for message in pubsub.listen()]
    loop over the messages that arrive; the log collects the delete
    attempts of all of them. *)
Fixpoint listen_for_cleanup_events (e : Env) (messages : list Message) (w : World)
    : World * list DeleteAttempt :=
  match messages with
  | [] => (w, [])
  | message :: rest =>
      let '(w1, log1) := on_message e message w in
      let '(w2, log2) := listen_for_cleanup_events e rest w1 in
      (w2, (log1 ++ log2)%list)
  end.

End CleanupListener.

(** ** Measures on the work queue *)

Module Backlog.

(** Deliveries a message can still get: this one and the retries left. *)
Definition attempts_left (item : WorkItem) : nat :=
  S (max_retries - wi_retries item).

Definition work_left (queue : list WorkItem) : nat :=
  list_sum (map attempts_left queue).

(** The task ids with a message on the queue. *)
Definition queued_ids (w : World) : list string := map wi_task_id (celery_queue w).

End Backlog.

(** ** The demo UI's poller ([services/demo-ui/main_simple.py]) *)

Module DemoUi.

(** A JSON object with string or null members. *)
Definition json := gmap string (option string).

Definition status_value (st : TaskStatus) : string :=
  match st with PENDING => "PENDING" | SUCCESS => "SUCCESS" | FAILED => "FAILED" end.

(** The body FastAPI sends for a [TaskResultResponse]. *)
Definition to_json (r : TaskResultResponse) : json :=
  <[ "task_id" := Some (trr_task_id r) ]>
  (<[ "status" := Some (status_value (trr_status r)) ]>
  (<[ "transcribed_text" := transcribed_text r ]>
  (<[ "audio_url" := audio_url r ]>
  (<[ "error_message" := error_message r ]> ∅)))).

(** [poll_task_result]: every exception inside the loop body (transport
    failure, error status) is swallowed and followed by a sleep. *)
Fixpoint poll_task_result (presigned_get_object : Bucket -> string -> nat -> string)
    (task_id : string) (start_time timeout : Z) (ticks : list Client.Tick)
    : option json :=
  match ticks with
  | [] => None
  | t :: rest =>
      if (Client.now t - start_time <? timeout)%Z then
        match Client.request_error t with
        | Some _ => poll_task_result presigned_get_object task_id start_time timeout rest
        | None =>
            match Gateway.get_task_result presigned_get_object task_id (Client.world t) with
            | HttpError _ _ =>
                poll_task_result presigned_get_object task_id start_time timeout rest
            | Ok200 r =>
                match trr_status r with
                | SUCCESS | FAILED => Some (to_json r)
                | PENDING =>
                    poll_task_result presigned_get_object task_id start_time timeout rest
                end
            end
        end
      else Some (<[ "status" := Some "FAILED" ]> (<[ "error_message" := Some "Timeout" ]> ∅))
  end.

End DemoUi.

(** ** Requests and oracles used in the statements below *)

Module Cases.

(** A call the task body turns away before it reaches a backend, with the
    message of the [ValueError] it raises. *)
Definition rejected (mode : string) (input_data : gmap string string) (exc : string) : Prop :=
  (mode = "v2t" /\ input_data !! "input_object_name" = None
   /\ exc = "input_object_name is required for V2T mode")
  \/ (mode = "t2v" /\ input_data !! "text" = None
      /\ exc = "text is required for T2V mode")
  \/ (mode <> "v2t" /\ mode <> "t2v" /\ exc = "Unsupported mode: " +:+ mode).

(** The oracle [e] with the outcome of the two Redis writes replaced. *)
Definition with_redis_errors (rpush_err setex_err : option string) (e : Env) : Env :=
  {| connect_error := connect_error e; read_error := read_error e;
     whisper := whisper e; chatterbox := chatterbox e;
     put_object_error := put_object_error e;
     rpush_error := rpush_err; setex_error := setex_err;
     remove_object_error := remove_object_error e |}.

(** No delete fails under [e]. *)
Definition deletes_work (e : Env) : Prop :=
  forall b name, remove_object_error e b name = None.

(** A transcription job whose input object was never stored. *)
Definition orphan_item : WorkItem :=
  {| wi_task_id := "job-4"; wi_mode := "v2t";
     wi_input := {[ "input_object_name" := "job-4_lost.wav" ]}; wi_retries := 0 |}.

(** A message with a mode the task body does not know. *)
Definition odd_item : WorkItem :=
  {| wi_task_id := "job-5"; wi_mode := "v2v";
     wi_input := {[ "text" := "hello" ]}; wi_retries := 0 |}.

Definition odd_queue : World := send_task odd_item empty_world.

(** Redis takes the list but refuses the trigger key. *)
Definition env_no_setex : Env :=
  with_redis_errors None (Some "READONLY") Sample.env_ok.

(** The object stored under [name] in bucket [b], if any. *)
Definition stored (b : Bucket) (name : string) (w : World) : option bytes :=
  match b with
  | MINIO_BUCKET_UNPROCESSED => minio_unprocessed w !! name
  | MINIO_BUCKET_PROCESSED => minio_processed w !! name
  end.

(** Signed URLs of the shape MinIO gives them: scheme, endpoint, bucket,
    object name, and the signature in the query string. *)
Definition minio_presign (query : string) (b : Bucket) (name : string) (expires : nat)
    : string :=
  "http://" +:+ MINIO_ENDPOINT +:+ "/" +:+
  match b with
  | MINIO_BUCKET_UNPROCESSED => "unprocessed"
  | MINIO_BUCKET_PROCESSED => "processed"
  end +:+ "/" +:+ name +:+ "?" +:+ query.

(** A polling turn inside the budget that brings no final state: the
    request fails, the gateway answers with an error status, or it answers
    PENDING. *)
Definition unanswered (presigned_get_object : Bucket -> string -> nat -> string)
    (task_id : string) (start_time timeout : Z) (t : Client.Tick) : Prop :=
  (Client.now t - start_time < timeout)%Z
  /\ (is_Some (Client.request_error t)
      \/ is_http_error (Gateway.get_task_result presigned_get_object task_id (Client.world t))
         = true
      \/ exists r, Gateway.get_task_result presigned_get_object task_id (Client.world t)
                   = Ok200 r /\ trr_status r = PENDING).

(** A finished synthesis job-7 in the task store, its object gone. *)
Definition done_store : World :=
  store_result "job-7"
    {| meta_state := C_SUCCESS;
       meta_info := InfoDict {[ "output_object_name" := "job-7.wav" ]} |}
    empty_world.

(** A polling turn at time [t] that meets the failed job-3. *)
Definition failed_turn (t : Z) : Client.Tick :=
  {| Client.now := t; Client.world := Sample.failed_store; Client.request_error := None |}.

(** The TTS service can be reached and works, but its answer is lost on
    the way back. *)
Definition env_lost_response : Env :=
  {| connect_error := None; read_error := Some "read timed out";
     whisper := whisper Sample.env_ok; chatterbox := chatterbox Sample.env_ok;
     put_object_error := None; rpush_error := None; setex_error := None;
     remove_object_error := fun _ _ => None |}.

(** A polling turn at time [t] whose request fails on the network. *)
Definition broken_turn (t : Z) : Client.Tick :=
  {| Client.now := t; Client.world := Sample.tts_submitted;
     Client.request_error := Some "connection reset" |}.

End Cases.

(** ** A run of the task cut short by a crash of the worker *)

Module Crash.

(** How far the run got, by the effects it has had: the message taken
    and nothing done; STARTED recorded; the backend service called; the
    file list written; the trigger key set, which is where the task body
    returns; the result stored, the message not yet acknowledged. *)
Inductive CrashPoint :=
| Taken | Started | ServiceCalled | ListWritten | TriggerSet | ResultStored.

(** The state a run of [item] under [e] on [w] leaves behind when it is
    cut at [p].  A run that dies between the service call and [rpush]
    leaves what a run whose [rpush] raises leaves ([_schedule_cleanup]
    catches the exception, and nothing else is written before the task
    body returns); likewise one that dies between [rpush] and [setex]. *)
Definition cut_short (e : Env) (item : WorkItem) (p : CrashPoint) (w : World) : World :=
  let task_id := wi_task_id item in
  let started :=
    store_result task_id {| meta_state := C_STARTED; meta_info := InfoNone |} w in
  let body (e' : Env) :=
    fst (Orchestrator.process_pipeline e' task_id (wi_mode item) (wi_input item) started) in
  match p with
  | Taken => w
  | Started => started
  | ServiceCalled => body (Cases.with_redis_errors (Some "killed") (Some "killed") e)
  | ListWritten => body (Cases.with_redis_errors (rpush_error e) (Some "killed") e)
  | TriggerSet => body e
  | ResultStored => fst (Orchestrator.deliver e item w)
  end.

End Crash.

(** * Properties *)

(** ** Strings *)

Section StringFacts.

Lemma prefix_across_separator needle c :
  PyStr.lacks c needle = true ->
  forall a b, String.prefix needle (a +:+ String c b) = String.prefix needle a.
Proof.
  induction needle as [|x needle IH]; intros Hc a b.
  - destruct a; reflexivity.
  - simpl in Hc. apply andb_true_iff in Hc as [Hx Hrest].
    destruct a as [|y a]; simpl.
    + destruct (ascii_dec x c) as [->|]; [|reflexivity].
      rewrite Ascii.eqb_refl in Hx. discriminate.
    + destruct (ascii_dec x y); [|reflexivity]. apply IH, Hrest.
Qed.

(** A separator foreign to [needle] splits the search: [needle] is in
    [a + c + b] exactly when it is in [a] or in [b]. *)
Lemma contains_across_separator needle c a b :
  PyStr.lacks c needle = true ->
  PyStr.contains needle (a +:+ String c b)
  = PyStr.contains needle a || PyStr.contains needle b.
Proof.
  intros Hc. induction a as [|y a IH].
  - change (EmptyString +:+ String c b) with (String c b).
    cbn [PyStr.contains].
    pose proof (prefix_across_separator needle c Hc EmptyString b) as Hp.
    change (EmptyString +:+ String c b) with (String c b) in Hp.
    rewrite Hp. destruct (String.prefix needle EmptyString); reflexivity.
  - change (String y a +:+ String c b) with (String y (a +:+ String c b)).
    cbn [PyStr.contains].
    pose proof (prefix_across_separator needle c Hc (String y a) b) as Hp.
    change (String y a +:+ String c b) with (String y (a +:+ String c b)) in Hp.
    rewrite Hp, IH. destruct (String.prefix needle (String y a)); reflexivity.
Qed.

Lemma after_first_cleanup task_id :
  PyStr.after_first ":" ("cleanup:" +:+ task_id) = Some task_id.
Proof. destruct task_id; reflexivity. Qed.

Lemma startswith_cleanup task_id :
  PyStr.startswith "cleanup:" ("cleanup:" +:+ task_id) = true.
Proof. destruct task_id; reflexivity. Qed.

End StringFacts.

(** ** Submission gateway *)

Section GatewayFacts.

Variable presigned_get_object : Bucket -> string -> nat -> string.

(** The sibling path: [synthesize_text] turns blank text away before an
    id is used or anything is sent to the queue. *)
Lemma synthesize_text_rejects_blank task_id text w :
  PyStr.strip text = EmptyString ->
  Gateway.synthesize_text task_id text w = (w, HttpError 400 "Text content is required").
Proof. intros H. unfold Gateway.synthesize_text. rewrite H. reflexivity. Qed.

(** C1 (what the code does): whenever the upload itself goes through,
    [transcribe_audio] accepts an audio file of zero bytes like any
    other: it answers PENDING with the job id, stores the empty object
    and puts the work item on the queue; no validation error is raised. *)
Theorem transcribe_audio_accepts_empty_audio e task_id name ctype w :
  put_object_error e = None ->
  let audio_file := {| filename := name; file := []; content_type := ctype |} in
  let object_name := task_id +:+ "_" +:+ name in
  let '(w', r) := Gateway.transcribe_audio e task_id audio_file w in
  r = Ok200 {| sr_task_id := task_id; sr_status := PENDING |}
  /\ minio_unprocessed w' !! object_name = Some []
  /\ celery_queue w'
     = (celery_queue w ++
        [{| wi_task_id := task_id; wi_mode := "v2t";
            wi_input := {[ "input_object_name" := object_name ]};
            wi_retries := 0 |}])%list.
Proof.
  intros Hput. cbn zeta. unfold Gateway.transcribe_audio. rewrite Hput.
  cbn [filename file]. repeat split.
  cbn [put_object send_task minio_unprocessed]. apply lookup_insert_eq.
Qed.

(** C5: when the upload of the audio to the object store fails,
    [transcribe_audio] answers with the storage error (HTTP 500, "Failed
    to upload file") and leaves the shared state as it was: nothing is
    put on the work queue and no object is stored. *)
Theorem transcribe_audio_upload_failure e task_id audio_file w err :
  put_object_error e = Some err ->
  Gateway.transcribe_audio e task_id audio_file w
  = (w, HttpError 500 ("Failed to upload file: " +:+ err))
  /\ celery_queue (fst (Gateway.transcribe_audio e task_id audio_file w)) = celery_queue w.
Proof.
  intros Hput. unfold Gateway.transcribe_audio. rewrite Hput. split; reflexivity.
Qed.

(** C2 (amended): for a job id the task store has no entry for,
    [get_task_result] does not fail; it answers with status PENDING and
    no transcription, no audio URL and no error message. *)
Theorem get_task_result_unknown_is_pending task_id w :
  celery_backend w !! task_id = None ->
  Gateway.get_task_result presigned_get_object task_id w
  = Ok200 {| trr_task_id := task_id; trr_status := PENDING;
             transcribed_text := None; audio_url := None; error_message := None |}.
Proof.
  intros Hnone. unfold Gateway.get_task_result, Gateway.AsyncResult.
  rewrite Hnone. reflexivity.
Qed.

(** C9: in every task state [get_task_result] answers with, a result
    (transcribed text or audio URL) is present only with status SUCCESS,
    an error message only with status FAILED, and the two are never
    present together. *)
Theorem get_task_result_result_xor_error task_id w r :
  Gateway.get_task_result presigned_get_object task_id w = Ok200 r ->
  (is_Some (transcribed_text r) \/ is_Some (audio_url r) -> trr_status r = SUCCESS)
  /\ (is_Some (error_message r) -> trr_status r = FAILED)
  /\ ~ ((is_Some (transcribed_text r) \/ is_Some (audio_url r))
        /\ is_Some (error_message r)).
Proof.
  unfold Gateway.get_task_result, Gateway.ready, Gateway.failed, Gateway.successful.
  destruct (Gateway.AsyncResult task_id w) as [st info].
  destruct st, info; cbn; intros Hr; try discriminate;
    injection Hr as <-; cbn;
    (split; [| split]);
    try reflexivity;
    try (intros [H|H]; destruct H; discriminate);
    try (intros H; destruct H; discriminate);
    try (intros [[H|H] _]; destruct H; discriminate);
    try (intros [_ H]; destruct H; discriminate);
    try (intros _; reflexivity).
Qed.

End GatewayFacts.

(** C1 at a concrete submission: the empty file [a.wav] as job-1. *)
Lemma transcribe_audio_accepts_empty_audio_witness :
  put_object_error Sample.env_ok = None
  /\ snd (Gateway.transcribe_audio Sample.env_ok "job-1" Sample.empty_audio empty_world)
     = Ok200 {| sr_task_id := "job-1"; sr_status := PENDING |}
  /\ length (celery_queue
       (fst (Gateway.transcribe_audio Sample.env_ok "job-1" Sample.empty_audio empty_world))) = 1.
Proof.
  split; [reflexivity|].
  pose proof (transcribe_audio_accepts_empty_audio Sample.env_ok "job-1" "a.wav" "audio/wav"
                empty_world eq_refl) as H.
  cbn zeta in H.
  change {| filename := "a.wav"; file := []; content_type := "audio/wav" |}
    with Sample.empty_audio in H.
  destruct (Gateway.transcribe_audio Sample.env_ok "job-1" Sample.empty_audio empty_world)
    as [w' r].
  destruct H as (Hr & _ & Hq). cbn [fst snd]. split; [exact Hr|].
  rewrite Hq. reflexivity.
Defined.

Lemma transcribe_audio_upload_failure_witness :
  put_object_error Sample.env_no_upload = Some "bucket unavailable"
  /\ Gateway.transcribe_audio Sample.env_no_upload "job-1" Sample.speech empty_world
     = (empty_world, HttpError 500 "Failed to upload file: bucket unavailable").
Proof.
  split; [reflexivity|].
  apply (transcribe_audio_upload_failure Sample.env_no_upload "job-1" Sample.speech
           empty_world "bucket unavailable" eq_refl).
Defined.

(** C2 as stated fails: the empty task store knows no job "ghost", and
    the lookup is answered, not refused. *)
Lemma get_task_result_unknown_not_an_error :
  celery_backend empty_world !! "ghost" = None
  /\ is_http_error (Gateway.get_task_result Sample.presign "ghost" empty_world) = false.
Proof. split; reflexivity. Qed.

Lemma get_task_result_unknown_is_pending_witness :
  celery_backend empty_world !! "ghost" = None
  /\ Gateway.get_task_result Sample.presign "ghost" empty_world
     = Ok200 {| trr_task_id := "ghost"; trr_status := PENDING;
                transcribed_text := None; audio_url := None; error_message := None |}.
Proof.
  split; [reflexivity|].
  apply (get_task_result_unknown_is_pending Sample.presign "ghost" empty_world eq_refl).
Defined.

(** ** Cleanup worker *)

Section CleanupFacts.

Import CleanupWorker.

Lemma remove_object_redis b name w :
  redis_lists (remove_object b name w) = redis_lists w.
Proof. destruct b; reflexivity. Qed.

(** The loop visits the whole list, in order, whatever fails on the way,
    and does not touch Redis. *)
Lemma delete_loop_spec e files :
  forall w,
    map da_object_name (snd (delete_loop e files w)) = files
    /\ Forall (attempt_as_coded e) (snd (delete_loop e files w))
    /\ redis_lists (fst (delete_loop e files w)) = redis_lists w.
Proof.
  induction files as [|object_name rest IH]; intros w; cbn [delete_loop].
  - repeat split. constructor.
  - destruct (remove_object_error e (bucket_for object_name) object_name) eqn:Herr.
    + specialize (IH w). destruct (delete_loop e rest w) as [w1 log].
      cbn [fst snd] in *. destruct IH as (Hnames & Hall & Hredis).
      repeat split; cbn [map da_object_name]; [congruence| |exact Hredis].
      constructor; [|exact Hall].
      split; cbn [da_bucket da_object_name da_deleted]; [reflexivity|].
      rewrite Herr. reflexivity.
    + specialize (IH (remove_object (bucket_for object_name) object_name w)).
      destruct (delete_loop e rest _) as [w1 log].
      cbn [fst snd] in *. destruct IH as (Hnames & Hall & Hredis).
      repeat split; cbn [map da_object_name]; [congruence| |].
      * constructor; [|exact Hall].
        split; cbn [da_bucket da_object_name da_deleted]; [reflexivity|].
        rewrite Herr. reflexivity.
      * rewrite Hredis. apply remove_object_redis.
Qed.

Lemma remove_object_gone b name w :
  Cases.stored b name (remove_object b name w) = None.
Proof. destruct b; apply lookup_delete_eq. Qed.

Lemma remove_object_other b name b' name' w :
  name' <> name ->
  Cases.stored b' name' (remove_object b name w) = Cases.stored b' name' w.
Proof.
  intros Hne. destruct b, b'; try reflexivity;
    cbn [Cases.stored remove_object minio_unprocessed minio_processed];
    apply lookup_delete_ne; congruence.
Qed.

Lemma remove_object_keeps_none b name b' name' w :
  Cases.stored b' name' w = None ->
  Cases.stored b' name' (remove_object b name w) = None.
Proof.
  intros Hnone. destruct b, b'; try exact Hnone;
    cbn [Cases.stored remove_object minio_unprocessed minio_processed] in *;
    rewrite lookup_delete; case_decide; [reflexivity|exact Hnone|reflexivity|exact Hnone].
Qed.

(** The loop only deletes, and only what is on its list. *)
Lemma delete_loop_stored e files :
  forall w b name,
    (~ In name files ->
     Cases.stored b name (fst (delete_loop e files w)) = Cases.stored b name w)
    /\ (Cases.stored b name w = None ->
        Cases.stored b name (fst (delete_loop e files w)) = None).
Proof.
  induction files as [|f files IH]; intros w b name; cbn [delete_loop].
  - split; intros; [reflexivity|assumption].
  - destruct (remove_object_error e (bucket_for f) f).
    + specialize (IH w b name). destruct (delete_loop e files w) as [w1 log].
      cbn [fst] in *. destruct IH as [IH1 IH2].
      split; [intros Hnot; apply IH1; intros Hin; apply Hnot; right; exact Hin|exact IH2].
    + specialize (IH (remove_object (bucket_for f) f w) b name).
      destruct (delete_loop e files _) as [w1 log]. cbn [fst] in *.
      destruct IH as [IH1 IH2]. split.
      * intros Hnot. rewrite IH1 by (intros Hin; apply Hnot; right; exact Hin).
        apply remove_object_other. intros ->. apply Hnot. left. reflexivity.
      * intros Hnone. apply IH2, remove_object_keeps_none, Hnone.
Qed.

Lemma delete_loop_other_fields e files :
  forall w,
    celery_backend (fst (delete_loop e files w)) = celery_backend w
    /\ celery_queue (fst (delete_loop e files w)) = celery_queue w
    /\ redis_lists (fst (delete_loop e files w)) = redis_lists w
    /\ redis_ttl_keys (fst (delete_loop e files w)) = redis_ttl_keys w.
Proof.
  induction files as [|f files IH]; intros w; cbn [delete_loop]; [repeat split|].
  destruct (remove_object_error e (bucket_for f) f).
  - specialize (IH w). destruct (delete_loop e files w) as [w1 log]. exact IH.
  - specialize (IH (remove_object (bucket_for f) f w)).
    destruct (delete_loop e files _) as [w1 log]. cbn [fst] in *.
    destruct IH as (-> & -> & -> & ->). destruct (bucket_for f); repeat split.
Qed.

Lemma on_cleanup_message e task_id w :
  on_message e {| msg_type := "message"; msg_data := "cleanup:" +:+ task_id |} w
  = process_cleanup_task e task_id w.
Proof.
  unfold on_message. cbn [msg_type msg_data].
  rewrite String.eqb_refl, startswith_cleanup. unfold PyStr.split1_snd.
  rewrite after_first_cleanup. reflexivity.
Qed.

Lemma remove_object_other_bucket b name b' name' w :
  b' <> b ->
  Cases.stored b' name' (remove_object b name w) = Cases.stored b' name' w.
Proof. intros Hne. destruct b, b'; try reflexivity; contradiction Hne; reflexivity. Qed.

(** A delete that is not refused takes the name out of the bucket picked
    for it, wherever the name stands in the list and whatever happens to
    the names around it. *)
Lemma delete_loop_removes_accepted e files :
  forall w f,
    In f files ->
    remove_object_error e (bucket_for f) f = None ->
    Cases.stored (bucket_for f) f (fst (delete_loop e files w)) = None.
Proof.
  induction files as [|g files IH]; intros w f Hin Hok; [destruct Hin|].
  cbn [delete_loop].
  destruct (String.string_dec g f) as [->|Hne].
  - rewrite Hok.
    pose proof (delete_loop_stored e files (remove_object (bucket_for f) f w)
                  (bucket_for f) f) as [_ Hnone].
    destruct (delete_loop e files _) as [w1 log]. cbn [fst] in *.
    apply Hnone, remove_object_gone.
  - destruct Hin as [Heq|Hin]; [contradiction|].
    destruct (remove_object_error e (bucket_for g) g).
    + specialize (IH w f Hin Hok). destruct (delete_loop e files w) as [w1 log]. exact IH.
    + specialize (IH (remove_object (bucket_for g) g w) f Hin Hok).
      destruct (delete_loop e files _) as [w1 log]. exact IH.
Qed.

(** A refused delete leaves the object where it is, and the bucket the
    worker did not pick for a name is never touched at that name. *)
Lemma delete_loop_keeps e files :
  forall w b name,
    b <> bucket_for name \/ remove_object_error e (bucket_for name) name <> None ->
    Cases.stored b name (fst (delete_loop e files w)) = Cases.stored b name w.
Proof.
  induction files as [|g files IH]; intros w b name Hkeep; [reflexivity|].
  cbn [delete_loop].
  destruct (remove_object_error e (bucket_for g) g) eqn:Herr.
  - specialize (IH w b name Hkeep). destruct (delete_loop e files w) as [w1 log]. exact IH.
  - specialize (IH (remove_object (bucket_for g) g w) b name Hkeep).
    destruct (delete_loop e files _) as [w1 log]. cbn [fst] in *. rewrite IH.
    destruct (String.string_dec name g) as [->|Hne].
    + destruct Hkeep as [Hb|Hrefused]; [|congruence].
      apply remove_object_other_bucket, Hb.
    + apply remove_object_other, Hne.
Qed.

(** C7: when the trigger key [cleanup:<id>] expires, the worker makes
    one delete attempt for every name in the list [files:<id>], in order
    and whatever the outcome of the attempts before it.  Every name whose
    delete is not refused is afterwards gone from the bucket picked for it,
    also when deletes of other names on the list were refused; a name
    whose delete is refused stays as it was (the failure is only logged);
    and afterwards the list [files:<id>] is gone from Redis. *)
Theorem cleanup_attempts_every_file e task_id w :
  redis_lists w !! ("files:" +:+ task_id) <> Some [] ->
  let files := lrange ("files:" +:+ task_id) w in
  let '(w0, message) := expire ("cleanup:" +:+ task_id) w in
  let '(w', log) := on_message e message w0 in
  map da_object_name log = files
  /\ Forall (attempt_as_coded e) log
  /\ (forall f, In f files ->
                remove_object_error e (bucket_for f) f = None ->
                Cases.stored (bucket_for f) f w' = None)
  /\ (forall f b, remove_object_error e (bucket_for f) f <> None ->
                  Cases.stored b f w' = Cases.stored b f w)
  /\ redis_lists w' !! ("files:" +:+ task_id) = None.
Proof.
  intros Hredis. cbn zeta. unfold expire.
  rewrite on_cleanup_message.
  set (w0 := Build_World _ _ _ _ _ _).
  assert (Hstored : forall b name, Cases.stored b name w0 = Cases.stored b name w)
    by (intros [] name; reflexivity).
  unfold process_cleanup_task.
  change (lrange ("files:" +:+ task_id) w0) with (lrange ("files:" +:+ task_id) w).
  destruct (lrange ("files:" +:+ task_id) w) as [|g files] eqn:Hl.
  - split; [reflexivity|]. split; [constructor|].
    split; [intros f []|]. split; [intros f b _; apply Hstored|].
    unfold lrange in Hl.
    destruct (redis_lists w !! ("files:" +:+ task_id)) as [l|] eqn:Hfiles; [|exact Hfiles].
    simpl in Hl. subst l. exfalso. apply Hredis. reflexivity.
  - pose proof (delete_loop_spec e (g :: files) w0) as (Hnames & Hall & _).
    pose proof (delete_loop_removes_accepted e (g :: files) w0) as Hgone.
    pose proof (delete_loop_keeps e (g :: files) w0) as Hkept.
    destruct (delete_loop e (g :: files) w0) as [w1 log]. cbn [fst snd] in *.
    assert (Hsame : forall b name,
               Cases.stored b name (redis_delete ("files:" +:+ task_id) w1)
               = Cases.stored b name w1)
      by (intros [] name; reflexivity).
    split; [exact Hnames|]. split; [exact Hall|].
    split; [intros f Hin Hok; rewrite Hsame; apply Hgone; assumption|].
    split; [intros f b Hrefused; rewrite Hsame, <- Hstored; apply Hkept; right; exact Hrefused|].
    cbn [redis_delete redis_lists]. apply lookup_delete_eq.
Qed.

End CleanupFacts.

(** C7 at a concrete run: job-9 has its output and its input listed, and
    MinIO refuses every delete in the processed bucket.  The delete of the
    output fails; the input, second on the list, is deleted all the same. *)
Lemma cleanup_attempts_every_file_witness :
  redis_lists Sample.cleanup_pending !! ("files:" +:+ "job-9") <> Some []
  /\ (let '(w0, message) := CleanupWorker.expire ("cleanup:" +:+ "job-9") Sample.cleanup_pending in
      let '(w', log) := CleanupWorker.on_message Sample.env_no_delete message w0 in
      map CleanupWorker.da_object_name log = ["job-9.wav"; "job-9_input.wav"]
      /\ minio_unprocessed w' !! "job-9_input.wav" = None
      /\ minio_processed w' !! "job-9.wav" = Some [Byte.x49]
      /\ redis_lists w' !! ("files:" +:+ "job-9") = None).
Proof.
  assert (H : redis_lists Sample.cleanup_pending !! ("files:" +:+ "job-9") <> Some [])
    by (vm_compute; discriminate).
  split; [exact H|].
  pose proof (cleanup_attempts_every_file Sample.env_no_delete "job-9" Sample.cleanup_pending H)
    as Hc.
  cbn zeta in Hc.
  destruct (CleanupWorker.expire ("cleanup:" +:+ "job-9") Sample.cleanup_pending)
    as [w0 message].
  destruct (CleanupWorker.on_message Sample.env_no_delete message w0) as [w' log].
  destruct Hc as (Hnames & _ & Hgone & Hkept & Hlist).
  split; [exact Hnames|].
  split; [apply (Hgone "job-9_input.wav"); [right; left; reflexivity|reflexivity]|].
  split; [|exact Hlist].
  exact (Hkept "job-9.wav" MINIO_BUCKET_PROCESSED ltac:(discriminate)).
Defined.

(** The run of the witness, spelled out: the delete of the output fails,
    the delete of the input is still attempted and succeeds. *)
Example cleanup_after_a_failed_delete :
  map (fun a => (CleanupWorker.da_object_name a, CleanupWorker.da_deleted a))
      (snd (CleanupWorker.on_message Sample.env_no_delete
              {| CleanupWorker.msg_type := "message";
                 CleanupWorker.msg_data := "cleanup:job-9" |}
              Sample.cleanup_pending))
  = [("job-9.wav", false); ("job-9_input.wav", true)].
Proof. vm_compute. reflexivity. Qed.

Section BucketFacts.

Import CleanupWorker.

Lemma bucket_for_unprocessed_iff object_name :
  bucket_for object_name = MINIO_BUCKET_UNPROCESSED
  <-> PyStr.contains "input" object_name = true.
Proof.
  unfold bucket_for. destruct (PyStr.contains "input" object_name); split; congruence.
Qed.

Lemma bucket_for_processed_iff object_name :
  bucket_for object_name = MINIO_BUCKET_PROCESSED
  <-> PyStr.contains "input" object_name = false.
Proof.
  unfold bucket_for. destruct (PyStr.contains "input" object_name); split; congruence.
Qed.

(** A string without the letter i does not contain "input"; the ids
    [uuid.uuid4()] produces are made of hexadecimal digits and dashes. *)
Lemma contains_input_needs_i s :
  PyStr.lacks "i" s = true -> PyStr.contains "input" s = false.
Proof.
  induction s as [|c s IH]; [reflexivity|].
  cbn [PyStr.lacks]. intros H. apply andb_true_iff in H as [Hc Hs].
  cbn [PyStr.contains String.prefix].
  destruct (ascii_dec "i" c) as [<-|_]; [discriminate|]. apply IH, Hs.
Qed.

Lemma input_object_name_contains task_id name :
  PyStr.contains "input" task_id = false ->
  PyStr.contains "input" (task_id +:+ "_" +:+ name) = PyStr.contains "input" name.
Proof.
  intros Hid.
  change (task_id +:+ "_" +:+ name) with (task_id +:+ String "_" name).
  rewrite contains_across_separator by reflexivity.
  rewrite Hid. reflexivity.
Qed.

(** C10: in a cleanup run over the list [files:<id>], every delete goes
    to the unprocessed bucket when the object name contains "input" and to
    the processed bucket otherwise, and the objects show it: a listed name
    with "input" in it, its delete not refused, is afterwards gone from the
    unprocessed bucket while the processed bucket is untouched at that
    name; any other listed name is gone from the processed bucket while the
    unprocessed bucket is untouched at that name.  With ids that do not
    contain "input" (uuid4 strings never do), an output [<id>.wav] is
    therefore removed from the processed bucket, where the TTS service put
    it; an upload, which [transcribe_audio] stores in the unprocessed bucket
    as [<id>_<filename>], is removed when the file name contains "input",
    and for every other file name it survives every cleanup run: its delete
    is sent to the processed bucket. *)
Theorem cleanup_bucket_follows_name e task_id w :
  let files := lrange ("files:" +:+ task_id) w in
  let '(w', log) := process_cleanup_task e task_id w in
  map da_object_name log = files
  /\ Forall (fun a => da_bucket a
                      = if PyStr.contains "input" (da_object_name a)
                        then MINIO_BUCKET_UNPROCESSED else MINIO_BUCKET_PROCESSED) log
  /\ (forall f, In f files ->
                (forall b, remove_object_error e b f = None) ->
                if PyStr.contains "input" f
                then minio_unprocessed w' !! f = None
                     /\ minio_processed w' !! f = minio_processed w !! f
                else minio_processed w' !! f = None
                     /\ minio_unprocessed w' !! f = minio_unprocessed w !! f)
  /\ (forall job, In (job +:+ ".wav") files ->
                  PyStr.contains "input" job = false ->
                  (forall b, remove_object_error e b (job +:+ ".wav") = None) ->
                  minio_processed w' !! (job +:+ ".wav") = None)
  /\ (forall job e0 upload w0,
        PyStr.contains "input" job = false ->
        put_object_error e0 = None ->
        let name := job +:+ "_" +:+ filename upload in
        let w1 := fst (Gateway.transcribe_audio e0 job upload w0) in
        minio_unprocessed w1 !! name = Some (file upload)
        /\ (In name (lrange ("files:" +:+ task_id) w1) ->
            (forall b, remove_object_error e b name = None) ->
            if PyStr.contains "input" (filename upload)
            then minio_unprocessed (fst (process_cleanup_task e task_id w1)) !! name = None
            else minio_unprocessed (fst (process_cleanup_task e task_id w1)) !! name
                 = Some (file upload))).
Proof.
  cbn zeta.
  assert (Hrun : forall w0,
             let '(w', log) := process_cleanup_task e task_id w0 in
             map da_object_name log = lrange ("files:" +:+ task_id) w0
             /\ Forall (attempt_as_coded e) log
             /\ forall f, In f (lrange ("files:" +:+ task_id) w0) ->
                          (forall b, remove_object_error e b f = None) ->
                          Cases.stored (bucket_for f) f w' = None
                          /\ forall b, b <> bucket_for f ->
                                       Cases.stored b f w' = Cases.stored b f w0).
  { intros w0. unfold process_cleanup_task.
    destruct (lrange ("files:" +:+ task_id) w0) as [|g files] eqn:Hl.
    - split; [reflexivity|]. split; [constructor|]. intros f [].
    - pose proof (delete_loop_spec e (g :: files) w0) as (Hnames & Hall & _).
      pose proof (delete_loop_removes_accepted e (g :: files) w0) as Hgone.
      pose proof (delete_loop_keeps e (g :: files) w0) as Hkept.
      destruct (delete_loop e (g :: files) w0) as [w1 log]. cbn [fst snd] in *.
      assert (Hsame : forall b name,
                 Cases.stored b name (redis_delete ("files:" +:+ task_id) w1)
                 = Cases.stored b name w1)
        by (intros [] name; reflexivity).
      split; [exact Hnames|]. split; [exact Hall|].
      intros f Hin Hok. split.
      + rewrite Hsame. apply Hgone; [exact Hin|apply Hok].
      + intros b Hb. rewrite Hsame. apply Hkept. left. exact Hb. }
  assert (Hcase : forall w0 f,
             In f (lrange ("files:" +:+ task_id) w0) ->
             (forall b, remove_object_error e b f = None) ->
             if PyStr.contains "input" f
             then minio_unprocessed (fst (process_cleanup_task e task_id w0)) !! f = None
                  /\ minio_processed (fst (process_cleanup_task e task_id w0)) !! f
                     = minio_processed w0 !! f
             else minio_processed (fst (process_cleanup_task e task_id w0)) !! f = None
                  /\ minio_unprocessed (fst (process_cleanup_task e task_id w0)) !! f
                     = minio_unprocessed w0 !! f).
  { intros w0 f Hin Hok. specialize (Hrun w0).
    destruct (process_cleanup_task e task_id w0) as [w' log]. cbn [fst].
    destruct Hrun as (_ & _ & Hf). destruct (Hf f Hin Hok) as [Hgone Hkept].
    unfold bucket_for in Hgone, Hkept.
    destruct (PyStr.contains "input" f).
    - split; [exact Hgone|]. exact (Hkept MINIO_BUCKET_PROCESSED ltac:(discriminate)).
    - split; [exact Hgone|]. exact (Hkept MINIO_BUCKET_UNPROCESSED ltac:(discriminate)). }
  pose proof (Hrun w) as Hw. pose proof (Hcase w) as Hcw.
  destruct (process_cleanup_task e task_id w) as [w' log]. cbn [fst] in Hcw.
  destruct Hw as (Hnames & Hall & _).
  split; [exact Hnames|]. split; [|split; [exact Hcw|split]].
  - eapply Forall_impl; [exact Hall|]. intros a [Hb _]. exact Hb.
  - intros job Hin Hjob Hok. specialize (Hcw _ Hin Hok).
    change (job +:+ ".wav") with (job +:+ String "." "wav") in Hcw.
    rewrite contains_across_separator in Hcw by reflexivity.
    rewrite Hjob in Hcw. exact (proj1 Hcw).
  - intros job e0 upload w0 Hjob Hput. cbn zeta.
    assert (Hup : minio_unprocessed (fst (Gateway.transcribe_audio e0 job upload w0))
                    !! (job +:+ "_" +:+ filename upload) = Some (file upload)).
    { unfold Gateway.transcribe_audio. rewrite Hput.
      cbn [fst send_task put_object minio_unprocessed]. apply lookup_insert_eq. }
    split; [exact Hup|]. intros Hin Hok.
    pose proof (Hcase _ _ Hin Hok) as Hc.
    rewrite input_object_name_contains in Hc by exact Hjob.
    destruct (PyStr.contains "input" (filename upload)).
    + exact (proj1 Hc).
    + rewrite (proj2 Hc). exact Hup.
Qed.

End BucketFacts.

(** C10 at a concrete run: the cleanup of job-9 with every delete
    accepted.  The input [job-9_input.wav] leaves the unprocessed bucket,
    the output [job-9.wav] the processed one. *)
Lemma cleanup_bucket_follows_name_witness :
  let w' := fst (CleanupWorker.process_cleanup_task Sample.env_ok "job-9"
                   Sample.cleanup_pending) in
  minio_unprocessed Sample.cleanup_pending !! "job-9_input.wav" = Some [Byte.x52]
  /\ minio_unprocessed w' !! "job-9_input.wav" = None
  /\ minio_processed Sample.cleanup_pending !! "job-9.wav" = Some [Byte.x49]
  /\ minio_processed w' !! "job-9.wav" = None.
Proof.
  cbn zeta.
  pose proof (cleanup_bucket_follows_name Sample.env_ok "job-9" Sample.cleanup_pending) as Hc.
  cbn zeta in Hc.
  destruct (CleanupWorker.process_cleanup_task Sample.env_ok "job-9" Sample.cleanup_pending)
    as [w' log].
  destruct Hc as (_ & _ & Hf & _). cbn [fst].
  split; [reflexivity|].
  split; [exact (proj1 (Hf "job-9_input.wav" ltac:(right; left; reflexivity)
                          ltac:(intros b; reflexivity)))|].
  split; [reflexivity|].
  exact (proj1 (Hf "job-9.wav" ltac:(left; reflexivity) ltac:(intros b; reflexivity))).
Defined.

(** The other half at a concrete run: job-1 uploaded [a.wav], and the
    dispatcher listed the input for cleanup.  The cleanup run sends its one
    delete to the processed bucket, and the upload stays. *)
Example cleanup_misses_plain_upload :
  let w1 := fst (Gateway.transcribe_audio Sample.env_ok "job-1" Sample.empty_audio empty_world) in
  let w2 := rpush "files:job-1" ["job-1_a.wav"] w1 in
  let '(w3, log) := CleanupWorker.process_cleanup_task Sample.env_ok "job-1" w2 in
  map CleanupWorker.da_bucket log = [MINIO_BUCKET_PROCESSED]
  /\ minio_unprocessed w3 !! "job-1_a.wav" = Some []
  /\ redis_lists w3 !! "files:job-1" = None.
Proof. vm_compute. repeat split. Qed.

(** ** Dispatcher *)

Section PipelineFacts.

Import Orchestrator.

Lemma read_field_inr posted key v :
  read_field posted key = inr v ->
  exists r body, posted = inr r /\ is_success r = true
                 /\ resp_json r = Some body /\ body !! key = Some v.
Proof.
  unfold read_field. destruct posted as [msg|r]; [intros [=]|].
  destruct (is_success r) eqn:Hs; cbn [negb]; [|intros [=]].
  destruct (resp_json r) as [body|] eqn:Hj; [|intros [=]].
  destruct (body !! key) as [v'|] eqn:Hk; intros [=]. subst v'.
  exists r, body. repeat split; assumption.
Qed.

Lemma read_field_inl posted key o :
  read_field posted key = inl o -> forall r, o <> Return r.
Proof.
  unfold read_field, on_http_status_error. destruct posted as [msg|resp].
  - intros [= <-] r; discriminate.
  - destruct (negb (is_success resp)).
    + destruct (resp_json resp); intros [= <-] r; discriminate.
    + destruct (resp_json resp) as [body|]; [|intros [= <-] r; discriminate].
      destruct (body !! key); [intros [=]|intros [= <-] r; discriminate].
Qed.

Lemma client_post_inr e service w w1 r :
  client_post e service w = (w1, inr r) ->
  connect_error e = None /\ read_error e = None /\ service w = (w1, r).
Proof.
  unfold client_post. destruct (connect_error e); [intros [=]|].
  destruct (service w) as [w2 r2]. destruct (read_error e); intros [=]. subst.
  repeat split.
Qed.

Lemma stt_success e request w :
  is_success (SttService.transcribe_audio e request w) = true ->
  exists audio out,
    minio_unprocessed w !! stt_input_object_name request = Some audio
    /\ whisper e audio = TritonOk out
    /\ SttService.transcribe_audio e request w
       = json_response {[ "text" := match out with first :: _ => first | [] => "" end ]}.
Proof.
  unfold SttService.transcribe_audio.
  destruct (minio_unprocessed w !! stt_input_object_name request) as [audio|];
    [|intros [=]].
  destruct (whisper e audio) as [out|msg] eqn:Hw; [|intros [=]].
  intros _. exists audio, out. repeat split. exact Hw.
Qed.

Lemma tts_success e request w w1 r :
  TtsService.synthesize_speech e request w = (w1, r) ->
  is_success r = true ->
  exists audio,
    chatterbox e (text_to_synthesize request) = TritonOk audio
    /\ put_object_error e = None
    /\ w1 = put_object MINIO_BUCKET_PROCESSED (tts_task_id request +:+ ".wav") audio w
    /\ r = json_response {[ "output_object_name" := tts_task_id request +:+ ".wav" ]}.
Proof.
  unfold TtsService.synthesize_speech.
  destruct (chatterbox e (text_to_synthesize request)) as [audio|msg];
    [|intros [= <- <-] [=]].
  destruct (put_object_error e); intros [= <- <-]; [intros [=]|intros _].
  exists audio. repeat split.
Qed.

(** What a returning run of the task body has done, by mode. *)
Lemma process_pipeline_Return e task_id mode input_data w w' r :
  process_pipeline e task_id mode input_data w = (w', Return r) ->
  (mode = "v2t" /\ exists name audio out,
      input_data !! "input_object_name" = Some name
      /\ minio_unprocessed w !! name = Some audio
      /\ whisper e audio = TritonOk out
      /\ r = {[ "transcribed_text" := match out with first :: _ => first | [] => "" end ]}
      /\ w' = _schedule_cleanup e task_id input_data r w)
  \/ (mode = "t2v" /\ exists text audio,
      input_data !! "text" = Some text
      /\ chatterbox e text = TritonOk audio
      /\ put_object_error e = None
      /\ r = {[ "output_object_name" := task_id +:+ ".wav" ]}
      /\ w' = _schedule_cleanup e task_id input_data r
                (put_object MINIO_BUCKET_PROCESSED (task_id +:+ ".wav") audio w)).
Proof.
  unfold process_pipeline.
  destruct (String.eqb mode (JobMode_value V2T)) eqn:Hv.
  - apply String.eqb_eq in Hv.
    destruct (input_data !! "input_object_name") as [name|]; [|intros [=]].
    destruct (client_post e _ w) as [w1 posted] eqn:Hpost.
    destruct (read_field posted "text") as [o|text] eqn:Hread.
    + intros [= <- ->]. exfalso. exact (read_field_inl _ _ _ Hread r eq_refl).
    + intros [= <- <-]. left. split; [exact Hv|].
      apply read_field_inr in Hread as (resp & body & -> & Hs & Hj & Hk).
      apply client_post_inr in Hpost as (_ & _ & [= <- <-]).
      apply stt_success in Hs as (audio & out & Hobj & Hw & Hresp).
      rewrite Hresp in Hj. cbn in Hj. injection Hj as <-.
      rewrite lookup_singleton_eq in Hk. injection Hk as <-.
      exists name, audio, out. repeat split; assumption.
  - destruct (String.eqb mode (JobMode_value T2V)) eqn:Ht; [|intros [=]].
    apply String.eqb_eq in Ht.
    destruct (input_data !! "text") as [text|]; [|intros [=]].
    destruct (client_post e _ w) as [w1 posted] eqn:Hpost.
    destruct (read_field posted "output_object_name") as [o|name] eqn:Hread.
    + intros [= <- ->]. exfalso. exact (read_field_inl _ _ _ Hread r eq_refl).
    + intros [= <- <-]. right. split; [exact Ht|].
      apply read_field_inr in Hread as (resp & body & -> & Hs & Hj & Hk).
      apply client_post_inr in Hpost as (_ & _ & Hsvc).
      destruct (tts_success _ _ _ _ _ Hsvc Hs) as (audio & Hc & Hput & -> & ->).
      cbn in Hj. injection Hj as <-.
      rewrite lookup_singleton_eq in Hk. injection Hk as <-.
      exists text, audio. repeat split; assumption.
Qed.

End PipelineFacts.

Section Frames.

Import Orchestrator.

Lemma client_post_stt e request w w1 posted :
  client_post e (fun w0 => (w0, SttService.transcribe_audio e request w0)) w = (w1, posted) ->
  w1 = w.
Proof.
  unfold client_post. destruct (connect_error e); [intros [= <- _]; reflexivity|].
  destruct (read_error e); intros [= <- _]; reflexivity.
Qed.

Lemma client_post_tts e request w w1 posted :
  client_post e (TtsService.synthesize_speech e request) w = (w1, posted) ->
  w1 = w
  \/ exists audio,
       w1 = put_object MINIO_BUCKET_PROCESSED (tts_task_id request +:+ ".wav") audio w.
Proof.
  unfold client_post, TtsService.synthesize_speech.
  destruct (connect_error e); [intros [= <- _]; left; reflexivity|].
  destruct (chatterbox e (text_to_synthesize request)) as [audio|msg].
  - destruct (put_object_error e).
    + destruct (read_error e); intros [= <- _]; left; reflexivity.
    + destruct (read_error e); intros [= <- _]; right; exists audio; reflexivity.
  - destruct (read_error e); intros [= <- _]; left; reflexivity.
Qed.

(** Scheduling cleanup writes to Redis only. *)
Lemma schedule_cleanup_frame e task_id input_data result_data w :
  let w' := _schedule_cleanup e task_id input_data result_data w in
  celery_backend w' = celery_backend w /\ celery_queue w' = celery_queue w
  /\ minio_unprocessed w' = minio_unprocessed w
  /\ minio_processed w' = minio_processed w.
Proof.
  cbn zeta. unfold _schedule_cleanup.
  destruct (files_to_delete input_data result_data); [repeat split|].
  destruct (rpush_error e); [repeat split|].
  destruct (setex_error e); repeat split.
Qed.

(** With Redis working and something to list, scheduling cleanup appends
    the files to [files:<id>] and sets [cleanup:<id>] with the configured
    time to live. *)
Lemma schedule_cleanup_records e task_id input_data result_data w :
  rpush_error e = None -> setex_error e = None ->
  files_to_delete input_data result_data <> [] ->
  let w' := _schedule_cleanup e task_id input_data result_data w in
  lrange ("files:" +:+ task_id) w'
  = (lrange ("files:" +:+ task_id) w ++ files_to_delete input_data result_data)%list
  /\ redis_ttl_keys w' !! ("cleanup:" +:+ task_id) = Some ("1", CLEANUP_TTL_SECONDS).
Proof.
  intros Hr Hs Hfiles. cbn zeta. unfold _schedule_cleanup.
  destruct (files_to_delete input_data result_data) as [|f files]; [congruence|].
  rewrite Hr, Hs. split.
  - unfold lrange at 1. cbn [setex rpush redis_lists].
    rewrite lookup_insert_eq. reflexivity.
  - cbn [setex redis_ttl_keys]. apply lookup_insert_eq.
Qed.

(** The task body never touches the result backend, the queue or the
    unprocessed bucket. *)
Lemma process_pipeline_frame e task_id mode input_data w w' o :
  process_pipeline e task_id mode input_data w = (w', o) ->
  celery_backend w' = celery_backend w /\ celery_queue w' = celery_queue w
  /\ minio_unprocessed w' = minio_unprocessed w.
Proof.
  unfold process_pipeline.
  destruct (String.eqb mode (JobMode_value V2T)).
  - destruct (input_data !! "input_object_name") as [name|];
      [|intros [= <- _]; repeat split].
    destruct (client_post e _ w) as [w1 posted] eqn:Hpost.
    apply client_post_stt in Hpost as ->.
    destruct (read_field posted "text"); intros [= <- _]; [repeat split|].
    pose proof (schedule_cleanup_frame e task_id input_data
                  {[ "transcribed_text" := s ]} w) as H.
    cbn zeta in H. destruct H as (? & ? & ? & ?). repeat split; assumption.
  - destruct (String.eqb mode (JobMode_value T2V)); [|intros [= <- _]; repeat split].
    destruct (input_data !! "text") as [text|]; [|intros [= <- _]; repeat split].
    destruct (client_post e _ w) as [w1 posted] eqn:Hpost.
    assert (Hw1 : celery_backend w1 = celery_backend w /\ celery_queue w1 = celery_queue w
                  /\ minio_unprocessed w1 = minio_unprocessed w).
    { apply client_post_tts in Hpost as [->|[audio ->]]; repeat split. }
    destruct Hw1 as (Hb & Hq & Hu).
    destruct (read_field posted "output_object_name"); intros [= <- _];
      [repeat split; assumption|].
    pose proof (schedule_cleanup_frame e task_id input_data
                  {[ "output_object_name" := s ]} w1) as H.
    cbn zeta in H. destruct H as (? & ? & ? & ?). repeat split; congruence.
Qed.

(** A run of the task body that does not return leaves Redis as it
    was: no file list, no trigger key. *)
Lemma process_pipeline_no_record e task_id mode input_data w w' o :
  process_pipeline e task_id mode input_data w = (w', o) ->
  (forall r, o <> Return r) ->
  redis_lists w' = redis_lists w /\ redis_ttl_keys w' = redis_ttl_keys w.
Proof.
  unfold process_pipeline.
  destruct (String.eqb mode (JobMode_value V2T)).
  - destruct (input_data !! "input_object_name") as [name|];
      [|intros [= <- _] _; repeat split].
    destruct (client_post e _ w) as [w1 posted] eqn:Hpost.
    apply client_post_stt in Hpost as ->.
    destruct (read_field posted "text"); intros [= <- <-] Hno; [repeat split|].
    exfalso. exact (Hno _ eq_refl).
  - destruct (String.eqb mode (JobMode_value T2V)); [|intros [= <- _] _; repeat split].
    destruct (input_data !! "text") as [text|]; [|intros [= <- _] _; repeat split].
    destruct (client_post e _ w) as [w1 posted] eqn:Hpost.
    destruct (read_field posted "output_object_name"); intros [= <- <-] Hno.
    + apply client_post_tts in Hpost as [->|[audio ->]]; repeat split.
    + exfalso. exact (Hno _ eq_refl).
Qed.

End Frames.

Section CleanupRecord.

Import Orchestrator.

Lemma returned_files_nonempty e task_id mode input_data w w' r :
  process_pipeline e task_id mode input_data w = (w', Return r) ->
  files_to_delete input_data r <> [].
Proof.
  intros H. apply process_pipeline_Return in H
    as [(_ & name & audio & out & Hin & _ & _ & -> & _)
       |(_ & text & audio & _ & _ & _ & -> & _)];
    unfold files_to_delete.
  - rewrite Hin. discriminate.
  - rewrite lookup_singleton_eq.
    destruct (input_data !! "input_object_name"); discriminate.
Qed.

(** A delivery whose task body ends in an exception leaves Redis as it
    was. *)
Lemma no_record_without_return e item w w' o :
  deliver e item w = (w', o) ->
  (forall r, o <> Return r) ->
  redis_lists w' = redis_lists w /\ redis_ttl_keys w' = redis_ttl_keys w.
Proof.
  unfold deliver.
  destruct (process_pipeline e _ _ _ _) as [w1 o1] eqn:Hp.
  intros [= <- <-] Hno.
  apply process_pipeline_no_record in Hp as [Hl Ht]; [|exact Hno].
  destruct o1 as [r|exc|exc]; [exfalso; exact (Hno r eq_refl)| |].
  - destruct (max_retries <? wi_retries item + 1)%nat;
      cbn [store_result send_task redis_lists redis_ttl_keys];
      rewrite Hl, Ht; split; reflexivity.
  - cbn [store_result redis_lists redis_ttl_keys].
    rewrite Hl, Ht; split; reflexivity.
Qed.

(** C3 (amended): with Redis accepting the two writes, every delivery
    whose task body returns records the cleanup entry, and does so
    before the SUCCESS state is stored: the list of the job's object
    names, which is never empty for a returning job, is appended to
    [files:<id>], and the trigger key [cleanup:<id>] is set with the
    configured time to live. *)
Theorem cleanup_record_on_success e item w w' r :
  rpush_error e = None -> setex_error e = None ->
  deliver e item w = (w', Return r) ->
  files_to_delete (wi_input item) r <> []
  /\ lrange ("files:" +:+ wi_task_id item) w'
     = (lrange ("files:" +:+ wi_task_id item) w
        ++ files_to_delete (wi_input item) r)%list
  /\ redis_ttl_keys w' !! ("cleanup:" +:+ wi_task_id item)
     = Some ("1", CLEANUP_TTL_SECONDS)
  /\ celery_backend w' !! wi_task_id item
     = Some {| meta_state := C_SUCCESS; meta_info := InfoDict r |}.
Proof.
  intros Hr Hs. unfold deliver.
  set (w0 := store_result (wi_task_id item) _ w).
  destruct (process_pipeline e (wi_task_id item) (wi_mode item) (wi_input item) w0)
    as [w1 o] eqn:Hp.
  intros [= <- ->].
  pose proof (returned_files_nonempty _ _ _ _ _ _ _ Hp) as Hfiles.
  split; [exact Hfiles|].
  assert (Hrec : lrange ("files:" +:+ wi_task_id item) w1
                 = (lrange ("files:" +:+ wi_task_id item) w
                    ++ files_to_delete (wi_input item) r)%list
                 /\ redis_ttl_keys w1 !! ("cleanup:" +:+ wi_task_id item)
                    = Some ("1", CLEANUP_TTL_SECONDS)).
  { apply process_pipeline_Return in Hp
      as [(_ & name & audio & out & _ & _ & _ & _ & ->)
         |(_ & text & audio & _ & _ & _ & _ & ->)].
    - exact (schedule_cleanup_records e _ _ _ w0 Hr Hs Hfiles).
    - exact (schedule_cleanup_records e _ _ _ _ Hr Hs Hfiles). }
  destruct Hrec as [Hl Ht].
  split; [exact Hl|]. split; [exact Ht|].
  cbn [store_result celery_backend]. apply lookup_insert_eq.
Qed.

End CleanupRecord.

Lemma cleanup_record_on_success_witness :
  rpush_error Sample.env_ok = None /\ setex_error Sample.env_ok = None
  /\ Orchestrator.deliver Sample.env_ok Sample.tts_item Sample.tts_submitted
     = (Sample.tts_done, Orchestrator.Return Sample.tts_result)
  /\ lrange ("files:" +:+ "job-2") Sample.tts_done
     = (lrange ("files:" +:+ "job-2") Sample.tts_submitted
        ++ Orchestrator.files_to_delete (wi_input Sample.tts_item) Sample.tts_result)%list
  /\ redis_ttl_keys Sample.tts_done !! ("cleanup:" +:+ "job-2")
     = Some ("1", CLEANUP_TTL_SECONDS).
Proof.
  assert (Hd : Orchestrator.deliver Sample.env_ok Sample.tts_item Sample.tts_submitted
               = (Sample.tts_done, Orchestrator.Return Sample.tts_result))
    by (vm_compute; reflexivity).
  split; [reflexivity|]. split; [reflexivity|]. split; [exact Hd|].
  destruct (cleanup_record_on_success Sample.env_ok Sample.tts_item Sample.tts_submitted
              Sample.tts_done Sample.tts_result eq_refl eq_refl Hd)
    as (_ & Hl & Ht & _).
  split; [exact Hl|exact Ht].
Defined.

(** C3 as stated fails: the transcription job-1, whose input object is in
    the store, fails on every delivery until Celery gives up; its final
    state is FAILURE, its input object is still stored, and Redis holds
    neither a file list nor a trigger key for it. *)
Lemma failed_job_has_no_cleanup_record :
  let w' := fst (Orchestrator.run_worker
                   [Sample.env_triton_down; Sample.env_triton_down;
                    Sample.env_triton_down; Sample.env_triton_down]
                   Sample.stt_submitted) in
  meta_state <$> (celery_backend w' !! "job-1") = Some C_FAILURE
  /\ celery_queue w' = []
  /\ is_Some (minio_unprocessed w' !! "job-1_input.wav")
  /\ redis_lists w' !! "files:job-1" = None
  /\ redis_ttl_keys w' !! "cleanup:job-1" = None.
Proof. vm_compute. repeat split. eexists. reflexivity. Qed.

Section Retries.

Import Orchestrator.

(** What one delivery leaves in the queue and in the result backend. *)
Lemma deliver_spec e item w w1 o :
  deliver e item w = (w1, o) ->
  celery_queue w1
  = (celery_queue w ++
     match o with
     | SelfRetry _ =>
         if (max_retries <? wi_retries item + 1)%nat then [] else [retried item]
     | _ => []
     end)%list
  /\ celery_backend w1 !! wi_task_id item
     = Some match o with
            | Return r => {| meta_state := C_SUCCESS; meta_info := InfoDict r |}
            | SelfRetry x =>
                if (max_retries <? wi_retries item + 1)%nat
                then {| meta_state := C_FAILURE; meta_info := InfoExc x |}
                else {| meta_state := C_RETRY; meta_info := InfoExc x |}
            | Escaped x => {| meta_state := C_FAILURE; meta_info := InfoExc x |}
            end
  /\ exists w0 w', process_pipeline e (wi_task_id item) (wi_mode item) (wi_input item) w0
                   = (w', o).
Proof.
  unfold deliver.
  set (w0 := store_result (wi_task_id item) _ w).
  destruct (process_pipeline e (wi_task_id item) (wi_mode item) (wi_input item) w0)
    as [w' o'] eqn:Hp.
  intros [= <- <-].
  pose proof (process_pipeline_frame _ _ _ _ _ _ _ Hp) as (_ & Hq & _).
  split; [|split; [|exists w0, w'; exact Hp]].
  - destruct o' as [r|x|x]; [| destruct (max_retries <? wi_retries item + 1)%nat |];
      cbn [store_result send_task celery_queue]; rewrite Hq;
      subst w0; cbn [store_result celery_queue];
      rewrite ?app_nil_r; reflexivity.
  - destruct o' as [r|x|x]; [| destruct (max_retries <? wi_retries item + 1)%nat |];
      cbn [store_result send_task celery_backend]; apply lookup_insert_eq.
Qed.

(** Apart from a transport failure, whose text is whatever [httpx]
    puts there, every exception the task body ends with has a message. *)
Lemma failure_message_nonempty e task_id mode input_data w w' o x :
  process_pipeline e task_id mode input_data w = (w', o) ->
  o = SelfRetry x \/ o = Escaped x ->
  connect_error e = None -> read_error e = None ->
  x <> EmptyString.
Proof.
  intros Hp Ho Hc Hr.
  assert (Hfield : forall service w0 w1 posted key o',
             client_post e service w0 = (w1, posted) ->
             read_field posted key = inl o' ->
             o' = SelfRetry x \/ o' = Escaped x -> x <> EmptyString).
  { intros service w0 w1 posted key o' Hpost Hread Ho'.
    unfold client_post in Hpost. rewrite Hc, Hr in Hpost.
    destruct (service w0) as [w2 resp]. injection Hpost as _ <-.
    unfold read_field, on_http_status_error, json_decode_error in Hread.
    destruct (negb (is_success resp)).
    - destruct (resp_json resp); injection Hread as <-;
        destruct Ho' as [[= <-]|[= <-]]; discriminate.
    - destruct (resp_json resp) as [body|].
      + destruct (body !! key); [discriminate|].
        injection Hread as <-. destruct Ho' as [[= <-]|[= <-]]. discriminate.
      + injection Hread as <-. destruct Ho' as [[= <-]|[= <-]]. discriminate. }
  unfold process_pipeline in Hp.
  destruct (String.eqb mode (JobMode_value V2T)).
  - destruct (input_data !! "input_object_name") as [name|].
    + destruct (client_post e _ w) as [w1 posted] eqn:Hpost.
      destruct (read_field posted "text") as [o'|v] eqn:Hread; injection Hp as _ <-.
      * exact (Hfield _ _ _ _ _ _ Hpost Hread Ho).
      * destruct Ho; discriminate.
    + injection Hp as _ <-. destruct Ho as [[= <-]|[=]]. discriminate.
  - destruct (String.eqb mode (JobMode_value T2V)).
    + destruct (input_data !! "text") as [text|].
      * destruct (client_post e _ w) as [w1 posted] eqn:Hpost.
        destruct (read_field posted "output_object_name") as [o'|v] eqn:Hread;
          injection Hp as _ <-.
        -- exact (Hfield _ _ _ _ _ _ Hpost Hread Ho).
        -- destruct Ho; discriminate.
      * injection Hp as _ <-. destruct Ho as [[= <-]|[=]]. discriminate.
    + injection Hp as _ <-. destruct Ho as [[= <-]|[=]]. discriminate.
Qed.

Lemma run_worker_single e envs w item :
  celery_queue w = [item] ->
  run_worker (e :: envs) w
  = (fst (run_worker envs (fst (deliver e item (set_queue [] w)))),
     snd (deliver e item (set_queue [] w))
     :: snd (run_worker envs (fst (deliver e item (set_queue [] w))))).
Proof.
  intros Hq. cbn [run_worker]. unfold worker_step. rewrite Hq.
  destruct (deliver e item (set_queue [] w)) as [w1 o].
  cbn [fst snd]. destruct (run_worker envs w1). reflexivity.
Qed.

Lemma run_worker_idle envs w :
  celery_queue w = [] -> run_worker envs w = (w, []).
Proof.
  intros Hq. destruct envs; [reflexivity|].
  cbn [run_worker]. unfold worker_step. rewrite Hq. reflexivity.
Qed.

(** A delivery that ends in [self.retry] below the limit puts the
    message back, alone, with one more retry on its count. *)
Lemma retry_requeues e item w x :
  (wi_retries item < max_retries)%nat ->
  snd (deliver e item (set_queue [] w)) = SelfRetry x ->
  celery_queue (fst (deliver e item (set_queue [] w))) = [retried item].
Proof.
  intros Hlt Ho.
  destruct (deliver e item (set_queue [] w)) as [w1 o] eqn:Hd.
  cbn [fst snd] in *. subst o.
  apply deliver_spec in Hd as (Hq & _ & _).
  rewrite Hq. cbn [set_queue celery_queue app].
  destruct (Nat.ltb_spec max_retries (wi_retries item + 1)); [lia|reflexivity].
Qed.

(** The delivery with the retry count at the limit is the last one,
    however it ends. *)
Lemma last_delivery e envs item w :
  celery_queue w = [item] -> wi_retries item = max_retries ->
  let o := snd (deliver e item (set_queue [] w)) in
  snd (run_worker (e :: envs) w) = [o]
  /\ celery_queue (fst (run_worker (e :: envs) w)) = []
  /\ celery_backend (fst (run_worker (e :: envs) w)) !! wi_task_id item
     = Some match o with
            | Return r => {| meta_state := C_SUCCESS; meta_info := InfoDict r |}
            | SelfRetry x | Escaped x => {| meta_state := C_FAILURE; meta_info := InfoExc x |}
            end.
Proof.
  intros Hq Hret. cbn zeta. rewrite (run_worker_single e envs w item Hq).
  destruct (deliver e item (set_queue [] w)) as [w1 o] eqn:Hd. cbn [fst snd].
  apply deliver_spec in Hd as (Hq1 & Hb1 & _).
  rewrite Hret in Hq1, Hb1.
  assert (Hempty : celery_queue w1 = []).
  { rewrite Hq1. cbn [set_queue celery_queue app]. destruct o; reflexivity. }
  rewrite (run_worker_idle envs w1 Hempty). cbn [fst snd].
  split; [reflexivity|]. split; [exact Hempty|].
  rewrite Hb1. destruct o; reflexivity.
Qed.

End Retries.

Section RetryBudget.

Import Orchestrator.

Lemma cons_eq_inv {A} (a b : A) (l l' : list A) :
  a :: l = b :: l' -> a = b /\ l = l'.
Proof. intros [= -> ->]. split; reflexivity. Qed.

(** C4 (amended): [max_retries = 3] counts retries, not attempts.  For a
    job alone on the queue whose first three attempts end in
    [self.retry], a fourth attempt is made and it is the last one: the
    message is not sent again whatever happens, the stored state is
    SUCCESS if the fourth attempt returns and FAILURE carrying that
    attempt's exception otherwise, and that exception's message is not
    empty unless it is a transport error's. *)
Theorem fourth_attempt_is_last e1 e2 e3 e4 rest w item x1 x2 x3 :
  celery_queue w = [item] -> wi_retries item = 0 ->
  let run := run_worker (e1 :: e2 :: e3 :: e4 :: rest) w in
  firstn 3 (snd run) = [SelfRetry x1; SelfRetry x2; SelfRetry x3] ->
  exists o4,
    snd run = [SelfRetry x1; SelfRetry x2; SelfRetry x3; o4]
    /\ celery_queue (fst run) = []
    /\ celery_backend (fst run) !! wi_task_id item
       = Some match o4 with
              | Return r => {| meta_state := C_SUCCESS; meta_info := InfoDict r |}
              | SelfRetry x | Escaped x =>
                  {| meta_state := C_FAILURE; meta_info := InfoExc x |}
              end
    /\ (forall x, o4 = SelfRetry x \/ o4 = Escaped x ->
                  connect_error e4 = None -> read_error e4 = None ->
                  x <> EmptyString).
Proof.
  intros Hq Hr0. cbn zeta.
  rewrite (run_worker_single e1 _ w item Hq). cbn [fst snd firstn].
  intros Htr. apply cons_eq_inv in Htr as [Ho1 Htr].
  pose proof (retry_requeues e1 item w x1 ltac:(rewrite Hr0; unfold max_retries; lia) Ho1)
    as Hq1.
  set (w1 := fst (deliver e1 item (set_queue [] w))) in *.
  rewrite (run_worker_single e2 _ w1 _ Hq1) in Htr |- *. cbn [fst snd firstn] in Htr |- *.
  apply cons_eq_inv in Htr as [Ho2 Htr].
  pose proof (retry_requeues e2 (retried item) w1 x2
                ltac:(cbn [retried wi_retries]; rewrite Hr0; unfold max_retries; lia) Ho2)
    as Hq2.
  set (w2 := fst (deliver e2 (retried item) (set_queue [] w1))) in *.
  rewrite (run_worker_single e3 _ w2 _ Hq2) in Htr |- *. cbn [fst snd firstn] in Htr |- *.
  apply cons_eq_inv in Htr as [Ho3 _].
  pose proof (retry_requeues e3 (retried (retried item)) w2 x3
                ltac:(cbn [retried wi_retries]; rewrite Hr0; unfold max_retries; lia) Ho3)
    as Hq3.
  set (w3 := fst (deliver e3 (retried (retried item)) (set_queue [] w2))) in *.
  pose proof (last_delivery e4 rest (retried (retried (retried item))) w3 Hq3
                ltac:(cbn [retried wi_retries]; rewrite Hr0; reflexivity))
    as (Htrace & Hqueue & Hmeta).
  cbn zeta in Htrace, Hmeta.
  exists (snd (deliver e4 (retried (retried (retried item))) (set_queue [] w3))).
  rewrite Ho1, Ho2, Ho3, Htrace.
  split; [reflexivity|]. split; [exact Hqueue|]. split; [exact Hmeta|].
  intros x Hx Hc Hr.
  destruct (deliver e4 (retried (retried (retried item))) (set_queue [] w3))
    as [w4 o4] eqn:Hd.
  apply deliver_spec in Hd as (_ & _ & w0 & w' & Hp). cbn [snd] in Hx.
  exact (failure_message_nonempty _ _ _ _ _ _ _ _ Hp Hx Hc Hr).
Qed.

End RetryBudget.

Lemma fourth_attempt_is_last_witness :
  celery_queue Sample.tts_submitted = [Sample.tts_item]
  /\ wi_retries Sample.tts_item = 0
  /\ exists o4,
      snd (Orchestrator.run_worker
             [Sample.env_down; Sample.env_down; Sample.env_down; Sample.env_triton_down]
             Sample.tts_submitted)
      = [Orchestrator.SelfRetry "connection refused";
         Orchestrator.SelfRetry "connection refused";
         Orchestrator.SelfRetry "connection refused"; o4]
      /\ celery_queue
           (fst (Orchestrator.run_worker
                   [Sample.env_down; Sample.env_down; Sample.env_down; Sample.env_triton_down]
                   Sample.tts_submitted)) = [].
Proof.
  split; [reflexivity|]. split; [reflexivity|].
  destruct (fourth_attempt_is_last
              Sample.env_down Sample.env_down Sample.env_down Sample.env_triton_down []
              Sample.tts_submitted Sample.tts_item
              "connection refused" "connection refused" "connection refused"
              eq_refl eq_refl)
    as (o4 & Htrace & Hqueue & _).
  - vm_compute. reflexivity.
  - exists o4. split; [exact Htrace|exact Hqueue].
Defined.

(** C4 as stated fails: job-2 meets an unreachable backend on its first
    three attempts; a fourth attempt is made, finds the backend, and the
    final state is SUCCESS. *)
Lemma fourth_attempt_after_three_failures :
  let run := Orchestrator.run_worker
               [Sample.env_down; Sample.env_down; Sample.env_down; Sample.env_ok]
               Sample.tts_submitted in
  firstn 3 (snd run)
  = [Orchestrator.SelfRetry "connection refused";
     Orchestrator.SelfRetry "connection refused";
     Orchestrator.SelfRetry "connection refused"]
  /\ length (snd run) = 4
  /\ meta_state <$> (celery_backend (fst run) !! "job-2") = Some C_SUCCESS.
Proof. vm_compute. repeat split. Qed.

Section Redelivery.

Import Orchestrator.

Lemma process_pipeline_Return_transport e task_id mode input_data w w' r :
  process_pipeline e task_id mode input_data w = (w', Return r) ->
  connect_error e = None /\ read_error e = None.
Proof.
  unfold process_pipeline.
  destruct (String.eqb mode (JobMode_value V2T)).
  - destruct (input_data !! "input_object_name") as [name|]; [|intros [=]].
    destruct (client_post e _ w) as [w1 posted] eqn:Hpost.
    destruct (read_field posted "text") as [o|text] eqn:Hread.
    + intros [= <- ->]. exfalso. exact (read_field_inl _ _ _ Hread r eq_refl).
    + intros _. apply read_field_inr in Hread as (resp & body & -> & _).
      apply client_post_inr in Hpost as (Hc & Hr & _). split; assumption.
  - destruct (String.eqb mode (JobMode_value T2V)); [|intros [=]].
    destruct (input_data !! "text") as [text|]; [|intros [=]].
    destruct (client_post e _ w) as [w1 posted] eqn:Hpost.
    destruct (read_field posted "output_object_name") as [o|name] eqn:Hread.
    + intros [= <- ->]. exfalso. exact (read_field_inl _ _ _ Hread r eq_refl).
    + intros _. apply read_field_inr in Hread as (resp & body & -> & _).
      apply client_post_inr in Hpost as (Hc & Hr & _). split; assumption.
Qed.

(** The transcription branch returns once the request goes through, the
    object is there and Whisper answers. *)
Lemma process_pipeline_v2t_returns e task_id input_data w name audio out :
  input_data !! "input_object_name" = Some name ->
  connect_error e = None -> read_error e = None ->
  minio_unprocessed w !! name = Some audio ->
  whisper e audio = TritonOk out ->
  let r : gmap string string :=
    {[ "transcribed_text" := match out with first :: _ => first | [] => "" end ]} in
  process_pipeline e task_id "v2t" input_data w
  = (_schedule_cleanup e task_id input_data r w, Return r).
Proof.
  intros Hin Hc Hr Hobj Hw. cbn zeta. unfold process_pipeline.
  cbn [JobMode_value]. rewrite String.eqb_refl, Hin.
  unfold client_post, SttService.transcribe_audio. rewrite Hc, Hr.
  cbn [stt_input_object_name]. rewrite Hobj, Hw.
  unfold read_field. cbn [is_success json_response resp_status resp_json negb].
  cbn. rewrite lookup_singleton_eq. reflexivity.
Qed.

(** The synthesis branch returns once the request goes through,
    Chatterbox answers and the upload is accepted. *)
Lemma process_pipeline_t2v_returns e task_id input_data w text audio :
  input_data !! "text" = Some text ->
  connect_error e = None -> read_error e = None ->
  chatterbox e text = TritonOk audio ->
  put_object_error e = None ->
  let r : gmap string string := {[ "output_object_name" := task_id +:+ ".wav" ]} in
  process_pipeline e task_id "t2v" input_data w
  = (_schedule_cleanup e task_id input_data r
       (put_object MINIO_BUCKET_PROCESSED (task_id +:+ ".wav") audio w), Return r).
Proof.
  intros Hin Hc Hr Hch Hput. cbn zeta. unfold process_pipeline.
  cbn [JobMode_value]. change (String.eqb "t2v" "v2t") with false.
  rewrite String.eqb_refl, Hin.
  unfold client_post, TtsService.synthesize_speech. rewrite Hc, Hr.
  cbn [text_to_synthesize tts_task_id]. rewrite Hch, Hput.
  unfold read_field. cbn [is_success json_response resp_status resp_json negb].
  cbn. rewrite lookup_singleton_eq. reflexivity.
Qed.

Lemma deliver_Return_inv e item w w1 r :
  deliver e item w = (w1, Return r) ->
  connect_error e = None /\ read_error e = None
  /\ celery_backend w1
     = <[wi_task_id item := {| meta_state := C_SUCCESS; meta_info := InfoDict r |}]>
         (<[wi_task_id item := {| meta_state := C_STARTED; meta_info := InfoNone |}]>
            (celery_backend w))
  /\ minio_unprocessed w1 = minio_unprocessed w
  /\ ((wi_mode item = "v2t"
       /\ minio_processed w1 = minio_processed w
       /\ exists name audio out,
            wi_input item !! "input_object_name" = Some name
            /\ minio_unprocessed w !! name = Some audio
            /\ whisper e audio = TritonOk out
            /\ r = {[ "transcribed_text"
                      := match out with first :: _ => first | [] => "" end ]})
      \/ (wi_mode item = "t2v"
          /\ exists text audio,
               wi_input item !! "text" = Some text
               /\ chatterbox e text = TritonOk audio
               /\ put_object_error e = None
               /\ r = {[ "output_object_name" := wi_task_id item +:+ ".wav" ]}
               /\ minio_processed w1
                  = <[wi_task_id item +:+ ".wav" := audio]> (minio_processed w))).
Proof.
  unfold deliver.
  destruct (process_pipeline e _ _ _ _) as [wp o] eqn:Hp.
  intros [= <- ->].
  pose proof (process_pipeline_Return_transport _ _ _ _ _ _ _ Hp) as [Hc Hr].
  pose proof (process_pipeline_frame _ _ _ _ _ _ _ Hp) as (Hb & _ & Hu).
  split; [exact Hc|]. split; [exact Hr|].
  split; [cbn [store_result celery_backend]; rewrite Hb; reflexivity|].
  split; [cbn [store_result minio_unprocessed]; rewrite Hu; reflexivity|].
  apply process_pipeline_Return in Hp
    as [(Hmode & name & audio & out & Hin & Hobj & Hw & Hres & ->)
       |(Hmode & text & audio & Hin & Hch & Hput & Hres & ->)].
  - left. split; [exact Hmode|]. split.
    + cbn [store_result minio_processed].
      pose proof (schedule_cleanup_frame e (wi_task_id item) (wi_input item) r
                    (store_result (wi_task_id item)
                       {| meta_state := C_STARTED; meta_info := InfoNone |} w)) as Hf.
      cbn zeta in Hf. destruct Hf as (_ & _ & _ & ->). reflexivity.
    + exists name, audio, out. repeat split; assumption.
  - right. split; [exact Hmode|]. exists text, audio.
    split; [exact Hin|]. split; [exact Hch|]. split; [exact Hput|].
    split; [exact Hres|].
    cbn [store_result minio_processed].
    pose proof (schedule_cleanup_frame e (wi_task_id item) (wi_input item) r
                  (put_object MINIO_BUCKET_PROCESSED (wi_task_id item +:+ ".wav") audio
                     (store_result (wi_task_id item)
                        {| meta_state := C_STARTED; meta_info := InfoNone |} w))) as Hf.
    cbn zeta in Hf. destruct Hf as (_ & _ & _ & ->). reflexivity.
Qed.

Lemma deliver_v2t_returns e item w name audio out :
  wi_mode item = "v2t" ->
  wi_input item !! "input_object_name" = Some name ->
  connect_error e = None -> read_error e = None ->
  minio_unprocessed w !! name = Some audio ->
  whisper e audio = TritonOk out ->
  exists w1,
    deliver e item w
    = (w1, Return {[ "transcribed_text"
                     := match out with first :: _ => first | [] => "" end ]}).
Proof.
  intros Hmode Hin Hc Hr Hobj Hw. unfold deliver. rewrite Hmode.
  rewrite (process_pipeline_v2t_returns e (wi_task_id item) (wi_input item)
             (store_result (wi_task_id item)
                {| meta_state := C_STARTED; meta_info := InfoNone |} w)
             name audio out Hin Hc Hr Hobj Hw).
  eexists. reflexivity.
Qed.

Lemma deliver_t2v_returns e item w text audio :
  wi_mode item = "t2v" ->
  wi_input item !! "text" = Some text ->
  connect_error e = None -> read_error e = None ->
  chatterbox e text = TritonOk audio ->
  put_object_error e = None ->
  exists w1,
    deliver e item w
    = (w1, Return {[ "output_object_name" := wi_task_id item +:+ ".wav" ]}).
Proof.
  intros Hmode Hin Hc Hr Hch Hput. unfold deliver. rewrite Hmode.
  rewrite (process_pipeline_t2v_returns e (wi_task_id item) (wi_input item)
             (store_result (wi_task_id item)
                {| meta_state := C_STARTED; meta_info := InfoNone |} w)
             text audio Hin Hc Hr Hch Hput).
  eexists. reflexivity.
Qed.




End Redelivery.


(** The state the crashed run of the witness left: the audio is stored,
    the job reads as started, and Redis knows nothing of the job. *)
Example state_after_crash :
  let wc := Crash.cut_short Sample.env_ok Sample.tts_item Crash.ServiceCalled
              Sample.tts_submitted in
  minio_processed wc !! "job-2.wav" = Some [Byte.x52; Byte.x49; Byte.x46; Byte.x46]
  /\ meta_state <$> (celery_backend wc !! "job-2") = Some C_STARTED
  /\ redis_lists wc !! "files:job-2" = None
  /\ redis_ttl_keys wc !! "cleanup:job-2" = None.
Proof. vm_compute. repeat split. Qed.


(** The object store after the second run of the witness: still the one
    object [job-2.wav], now holding the second audio.  The Redis list
    [files:job-2] is another matter: [rpush] appends, so the name is listed
    once per run. *)
Example redelivery_overwrites_audio :
  let w2 := fst (Orchestrator.deliver Sample.env_ok_again Sample.tts_item Sample.tts_done) in
  map fst (map_to_list (minio_processed w2)) = ["job-2.wav"]
  /\ minio_processed w2 !! "job-2.wav"
     = Some [Byte.x52; Byte.x49; Byte.x46; Byte.x46; Byte.x00]
  /\ lrange "files:job-2" Sample.tts_done = ["job-2.wav"]
  /\ lrange "files:job-2" w2 = ["job-2.wav"; "job-2.wav"].
Proof. vm_compute. repeat split. Qed.

(** ** Client polling *)

Section Polling.

Import Client.

Variable what base_url : string.
Variable presigned_get_object : Bucket -> string -> nat -> string.
Variable task_id : string.
Variables start_time timeout : Z.

(** The client's view of an answered request has the gateway's status
    and error message. *)
Lemma client_view w r :
  Gateway.get_task_result presigned_get_object task_id w = Ok200 r ->
  exists res,
    get_task_result base_url presigned_get_object None task_id w = inr res
    /\ status res = trr_status r
    /\ result_error_message res = error_message r.
Proof.
  intros Hg. unfold get_task_result. rewrite Hg.
  destruct (transcribed_text r); eexists; repeat split.
Qed.

(** Turns that show PENDING inside the budget are skipped over. *)
Lemma poll_skips_pending early ticks :
  Forall (tick_shows presigned_get_object task_id start_time timeout PENDING) early ->
  poll what base_url presigned_get_object task_id start_time timeout (early ++ ticks)
  = poll what base_url presigned_get_object task_id start_time timeout ticks.
Proof.
  induction 1 as [|t early (Hnow & Hreq & r & Hg & Hst) _ IH]; [reflexivity|].
  cbn [app poll]. apply Z.ltb_lt in Hnow. rewrite Hnow, Hreq.
  destruct (client_view _ _ Hg) as (res & -> & Hs & _).
  rewrite Hs, Hst. exact IH.
Qed.

(** Once a delivery of the job has returned, the job reads as SUCCESS. *)
Lemma lookup_after_return e item w w1 r :
  wi_task_id item = task_id ->
  Orchestrator.deliver e item w = (w1, Orchestrator.Return r) ->
  exists res,
    get_task_result base_url presigned_get_object None task_id w1 = inr res
    /\ status res = SUCCESS.
Proof.
  intros Hid Hd. apply deliver_spec in Hd as (_ & Hb & _). rewrite Hid in Hb.
  assert (Hg : exists resp,
             Gateway.get_task_result presigned_get_object task_id w1 = Ok200 resp
             /\ trr_status resp = SUCCESS).
  { unfold Gateway.get_task_result, Gateway.AsyncResult. rewrite Hb.
    cbn. eexists. split; reflexivity. }
  destruct Hg as (resp & Hg & Hst).
  destruct (client_view _ _ Hg) as (res & Hres & Hs & _).
  exists res. split; [exact Hres|congruence].
Qed.

(** A turn inside the budget whose lookup raises ends the loop with
    that exception. *)
Lemma poll_turn_raises t ticks err :
  (now t - start_time < timeout)%Z ->
  get_task_result base_url presigned_get_object (request_error t) task_id (world t) = inl err ->
  poll what base_url presigned_get_object task_id start_time timeout (t :: ticks)
  = Some (inl err).
Proof.
  intros Hnow Hget. cbn [poll]. apply Z.ltb_lt in Hnow. rewrite Hnow, Hget. reflexivity.
Qed.

(** While no turn brings a final state the loop returns no result: it
    ends in an exception, at the latest when the clock passes the budget. *)
Lemma poll_without_final_state early late rest :
  Forall (Cases.unanswered presigned_get_object task_id start_time timeout) early ->
  (timeout <= now late - start_time)%Z ->
  exists err,
    poll what base_url presigned_get_object task_id start_time timeout (early ++ late :: rest)
    = Some (inl err).
Proof.
  intros Hearly Hlate. induction Hearly as [|t early (Hnow & Hturn) _ IH].
  - cbn [app poll]. apply Z.ltb_ge in Hlate. rewrite Hlate. eexists. reflexivity.
  - cbn [app].
    destruct (get_task_result base_url presigned_get_object (request_error t) task_id
                (world t)) as [err|res] eqn:Hget.
    + exists err. apply poll_turn_raises; assumption.
    + cbn [poll]. apply Z.ltb_lt in Hnow. rewrite Hnow, Hget.
      unfold get_task_result in Hget.
      destruct (request_error t) as [msg|]; [discriminate|].
      destruct Hturn as [[x Hx]|[Herr|(r & Hg & Hst)]]; [discriminate| |].
      * destruct (Gateway.get_task_result presigned_get_object task_id (world t));
          [discriminate|discriminate].
      * rewrite Hg in Hget.
        assert (Hs : status res = PENDING)
          by (destruct (transcribed_text r); injection Hget as <-; exact Hst).
        rewrite Hs. exact IH.
Qed.

(** C8 (amended): a poll in which no turn inside the caller's budget
    brings a final state returns no result and ends in an exception.  It is
    [TaskTimeoutError] when every request was answered, with PENDING, until
    the clock passed the budget.  A turn whose request fails ends the poll
    at once with [VoiceFlowError "Failed to get task result: ..."], and one
    the gateway answers with an error status ends it with [APIError]: no
    timeout, though no final state was seen.  An answer FAILED raises
    [VoiceFlowError "<what> failed: ..."], again not [TaskTimeoutError].
    The client only reads: when the job is still on the queue as the client
    gives up and the worker's delivery of it returns, the job is off the
    queue and a new poll returns a result with status SUCCESS. *)
Theorem poll_timeout_is_not_failure early late rest :
  Forall (Cases.unanswered presigned_get_object task_id start_time timeout) early ->
  (timeout <= now late - start_time)%Z ->
  let outcome :=
    poll what base_url presigned_get_object task_id start_time timeout
      (early ++ late :: rest) in
  (exists err, outcome = Some (inl err))
  /\ (Forall (tick_shows presigned_get_object task_id start_time timeout PENDING) early ->
      outcome = Some (inl (TaskTimeoutError what task_id timeout)))
  /\ (forall before t after,
        early = (before ++ t :: after)%list ->
        Forall (tick_shows presigned_get_object task_id start_time timeout PENDING) before ->
        (forall msg,
            request_error t = Some msg ->
            outcome = Some (inl (VoiceFlowError ("Failed to get task result: " +:+ msg))))
        /\ (forall code text,
              request_error t = None ->
              Gateway.get_task_result presigned_get_object task_id (world t)
              = HttpError code text ->
              outcome = Some (inl (APIError code text))))
  /\ (forall before t rest',
        Forall (tick_shows presigned_get_object task_id start_time timeout PENDING) before ->
        tick_shows presigned_get_object task_id start_time timeout FAILED t ->
        exists msg,
          poll what base_url presigned_get_object task_id start_time timeout
            (before ++ t :: rest')
          = Some (inl (VoiceFlowError (what +:+ " failed: " +:+ msg)))
          /\ VoiceFlowError (what +:+ " failed: " +:+ msg)
             <> TaskTimeoutError what task_id timeout)
  /\ (forall e item queue w1 r t' rest' start_time' timeout',
        celery_queue (world late) = item :: queue ->
        wi_task_id item = task_id ->
        Orchestrator.worker_step e (world late) = Some (w1, Orchestrator.Return r) ->
        (now t' - start_time' < timeout')%Z ->
        request_error t' = None ->
        world t' = w1 ->
        celery_queue w1 = queue
        /\ exists res,
             poll what base_url presigned_get_object task_id start_time' timeout' (t' :: rest')
             = Some (inr res)
             /\ status res = SUCCESS).
Proof.
  intros Hearly Hlate. cbn zeta.
  split; [exact (poll_without_final_state early late rest Hearly Hlate)|].
  split; [|split; [|split]].
  - intros Hpending. rewrite (poll_skips_pending early _ Hpending). cbn [poll].
    apply Z.ltb_ge in Hlate. rewrite Hlate. reflexivity.
  - intros before t after -> Hbefore.
    apply Forall_app in Hearly as [_ Ht]. apply Forall_cons in Ht as [(Hnow & _) _].
    rewrite <- app_assoc. cbn [app].
    rewrite (poll_skips_pending before _ Hbefore). split.
    + intros msg Hreq. apply poll_turn_raises; [exact Hnow|].
      unfold get_task_result. rewrite Hreq. reflexivity.
    + intros code text Hreq Hg. apply poll_turn_raises; [exact Hnow|].
      unfold get_task_result. rewrite Hreq, Hg. reflexivity.
  - intros before t rest' Hbefore (Hnow & Hreq & r & Hg & Hst).
    rewrite (poll_skips_pending before _ Hbefore). cbn [poll].
    apply Z.ltb_lt in Hnow. rewrite Hnow, Hreq.
    destruct (client_view _ _ Hg) as (res & -> & Hs & _).
    rewrite Hs, Hst. eexists. split; [reflexivity|discriminate].
  - intros e item queue w1 r t' rest' start_time' timeout' Hq Hid Hstep Hnow Hreq Hw.
    unfold Orchestrator.worker_step in Hstep. rewrite Hq in Hstep.
    injection Hstep as Hd.
    pose proof (deliver_spec _ _ _ _ _ Hd) as (Hqueue & _).
    cbn [Orchestrator.set_queue celery_queue] in Hqueue.
    split; [rewrite Hqueue; apply app_nil_r|].
    destruct (lookup_after_return e item _ w1 r Hid Hd) as (res & Hres & Hs).
    exists res. split; [|exact Hs].
    cbn [poll]. apply Z.ltb_lt in Hnow. rewrite Hnow, Hreq, Hw, Hres, Hs. reflexivity.
Qed.

End Polling.

(** C8 at a concrete poll: job-2 waits on the queue, the client looks
    twice inside its budget of 100 and gives up at 120. *)
Lemma poll_timeout_is_not_failure_witness :
  Forall (Cases.unanswered Sample.presign "job-2" 0 100)
         [Sample.waiting 0; Sample.waiting 50]
  /\ (100 <= Client.now (Sample.waiting 120) - 0)%Z
  /\ Client._poll_synthesis_result "http://localhost:8000" Sample.presign "job-2" 0 100
       ([Sample.waiting 0; Sample.waiting 50] ++ [Sample.waiting 120])
     = Some (inl (Client.TaskTimeoutError "Synthesis" "job-2" 100)).
Proof.
  assert (Hpending : Forall (Client.tick_shows Sample.presign "job-2" 0 100 PENDING)
                            [Sample.waiting 0; Sample.waiting 50]).
  { repeat constructor; cbn; try lia;
      eexists; (split; [vm_compute; reflexivity|reflexivity]). }
  assert (Hearly : Forall (Cases.unanswered Sample.presign "job-2" 0 100)
                          [Sample.waiting 0; Sample.waiting 50]).
  { eapply Forall_impl; [exact Hpending|].
    intros t (Hnow & _ & Hr). split; [exact Hnow|]. right. right. exact Hr. }
  assert (Hlate : (100 <= Client.now (Sample.waiting 120) - 0)%Z) by (cbn; lia).
  split; [exact Hearly|]. split; [exact Hlate|].
  exact (proj1 (proj2 (poll_timeout_is_not_failure "Synthesis" "http://localhost:8000"
                         Sample.presign "job-2" 0 100
                         [Sample.waiting 0; Sample.waiting 50] (Sample.waiting 120) []
                         Hearly Hlate)) Hpending).
Defined.

(** C8 as stated fails: job-2 waits on the queue during the whole poll,
    so no final state appears inside the budget of 100; the second request
    fails on the network, and the poll ends there with a plain
    [VoiceFlowError], not with [TaskTimeoutError]. *)
Lemma poll_failed_request_is_not_timeout :
  let ticks := [Sample.waiting 0; Cases.broken_turn 10; Sample.waiting 120] in
  Forall (fun t => Gateway.get_task_result Sample.presign "job-2" (Client.world t)
                   = Ok200 (Gateway.response "job-2" PENDING None None None)) ticks
  /\ Client._poll_synthesis_result "http://localhost:8000" Sample.presign "job-2" 0 100 ticks
     = Some (inl (Client.VoiceFlowError "Failed to get task result: connection reset"))
  /\ Client._poll_synthesis_result "http://localhost:8000" Sample.presign "job-2" 0 100 ticks
     <> Some (inl (Client.TaskTimeoutError "Synthesis" "job-2" 100)).
Proof.
  cbn zeta. split; [repeat constructor|]. split; [vm_compute; reflexivity|].
  vm_compute. discriminate.
Qed.

(** After the timeout of the witness, the job is processed; a lookup then
    shows SUCCESS with the audio URL. *)
Example lookup_after_timeout :
  Client.get_task_result "http://localhost:8000" Sample.presign None "job-2" Sample.tts_done
  = inr (Client.SynthesisResult "job-2" SUCCESS
           (Some "http://localhost:8000/processed/job-2.wav?X-Amz-Expires=900") None).
Proof. vm_compute. reflexivity. Qed.

Lemma get_task_result_result_xor_error_witness :
  Gateway.get_task_result Sample.presign "job-2" Sample.tts_done
  = Ok200 {| trr_task_id := "job-2"; trr_status := SUCCESS;
             transcribed_text := None;
             audio_url := Some "/processed/job-2.wav?X-Amz-Expires=900";
             error_message := None |}
  /\ ~ ((is_Some (@None string) \/ is_Some (Some "/processed/job-2.wav?X-Amz-Expires=900"))
        /\ is_Some (@None string)).
Proof.
  assert (Hg : Gateway.get_task_result Sample.presign "job-2" Sample.tts_done
               = Ok200 {| trr_task_id := "job-2"; trr_status := SUCCESS;
                          transcribed_text := None;
                          audio_url := Some "/processed/job-2.wav?X-Amz-Expires=900";
                          error_message := None |})
    by (vm_compute; reflexivity).
  split; [exact Hg|].
  exact (proj2 (proj2 (get_task_result_result_xor_error Sample.presign "job-2"
                         Sample.tts_done _ Hg))).
Defined.

(** A task that failed with an exception: the handler calls [get] on the
    exception instance, and the request ends in a server error instead of
    a FAILED task state. *)
Example lookup_of_failed_task :
  Gateway.get_task_result Sample.presign "job-3" Sample.failed_store
  = HttpError 500 "Internal Server Error".
Proof. reflexivity. Qed.

(** * Further properties of the code *)

(** ** File names from audio URLs *)

Section FilenameFacts.

Import Utils.

Lemma append_assoc a b c : (a +:+ b) +:+ c = a +:+ (b +:+ c).
Proof.
  induction a as [|x a IH]; [reflexivity|].
  change ((String x a +:+ b) +:+ c) with (String x ((a +:+ b) +:+ c)).
  rewrite IH. reflexivity.
Qed.

Lemma lacks_app c a b :
  PyStr.lacks c (a +:+ b) = PyStr.lacks c a && PyStr.lacks c b.
Proof.
  induction a as [|x a IH]; [reflexivity|].
  change (String x a +:+ b) with (String x (a +:+ b)).
  cbn [PyStr.lacks]. rewrite IH. apply andb_assoc.
Qed.

Lemma contains_char c s :
  PyStr.contains (String c EmptyString) s = negb (PyStr.lacks c s).
Proof.
  induction s as [|x s IH]; [reflexivity|].
  cbn [PyStr.contains PyStr.lacks String.prefix].
  destruct (ascii_dec c x) as [->|Hne].
  - rewrite Ascii.eqb_refl. destruct s; reflexivity.
  - rewrite IH. destruct (Ascii.eqb_spec x c) as [->|_]; [congruence|reflexivity].
Qed.

Lemma before_first_lacks c s : PyStr.lacks c (before_first c s) = true.
Proof.
  induction s as [|x s IH]; [reflexivity|].
  cbn [before_first]. destruct (Ascii.eqb x c) eqn:Hx; [reflexivity|].
  cbn [PyStr.lacks]. rewrite Hx, IH. reflexivity.
Qed.

Lemma before_first_keeps c d s :
  PyStr.lacks d s = true -> PyStr.lacks d (before_first c s) = true.
Proof.
  induction s as [|x s IH]; [reflexivity|].
  cbn [before_first PyStr.lacks]. intros H. apply andb_true_iff in H as [Hx Hs].
  destruct (Ascii.eqb x c); [reflexivity|].
  cbn [PyStr.lacks]. rewrite Hx, (IH Hs). reflexivity.
Qed.

Lemma before_first_absent c s :
  PyStr.lacks c s = true -> before_first c s = s.
Proof.
  induction s as [|x s IH]; [reflexivity|].
  cbn [before_first PyStr.lacks]. intros H. apply andb_true_iff in H as [Hx Hs].
  apply negb_true_iff in Hx. rewrite Hx, (IH Hs). reflexivity.
Qed.

Lemma before_first_app c a b :
  PyStr.lacks c a = true -> before_first c (a +:+ String c b) = a.
Proof.
  induction a as [|x a IH].
  - intros _. change (EmptyString +:+ String c b) with (String c b).
    cbn [before_first]. rewrite Ascii.eqb_refl. reflexivity.
  - change (String x a +:+ String c b) with (String x (a +:+ String c b)).
    cbn [before_first PyStr.lacks]. intros H. apply andb_true_iff in H as [Hx Hs].
    apply negb_true_iff in Hx. rewrite Hx, (IH Hs). reflexivity.
Qed.

Lemma after_last_lacks c s : PyStr.lacks c (after_last c s) = true.
Proof.
  induction s as [|x s IH]; [reflexivity|].
  cbn [after_last]. destruct (PyStr.lacks c s) eqn:Hs; cbn [negb]; [|exact IH].
  destruct (Ascii.eqb x c) eqn:Hx; [exact Hs|].
  cbn [PyStr.lacks]. rewrite Hx, Hs. reflexivity.
Qed.

Lemma after_last_keeps c d s :
  PyStr.lacks d s = true -> PyStr.lacks d (after_last c s) = true.
Proof.
  induction s as [|x s IH]; [reflexivity|].
  cbn [after_last PyStr.lacks]. intros H. apply andb_true_iff in H as [Hx Hs].
  destruct (negb (PyStr.lacks c s)); [exact (IH Hs)|].
  destruct (Ascii.eqb x c); [exact Hs|].
  cbn [PyStr.lacks]. rewrite Hx, Hs. reflexivity.
Qed.

Lemma after_last_app c a b :
  PyStr.lacks c b = true -> after_last c (a +:+ String c b) = b.
Proof.
  intros Hb. induction a as [|x a IH].
  - change (EmptyString +:+ String c b) with (String c b).
    cbn [after_last]. rewrite Hb, Ascii.eqb_refl. reflexivity.
  - change (String x a +:+ String c b) with (String x (a +:+ String c b)).
    cbn [after_last]. rewrite lacks_app. cbn [PyStr.lacks].
    rewrite Ascii.eqb_refl. cbn [negb andb]. rewrite andb_false_r. exact IH.
Qed.

(** X1: whatever the URL, the extracted file name contains no slash and
    no question mark, and it has a dot in it (the extension [.wav] is
    added when the last path segment has none). *)
Theorem extract_filename_is_a_file_name audio_url :
  PyStr.lacks "/" (extract_filename_from_url audio_url) = true
  /\ PyStr.lacks "?" (extract_filename_from_url audio_url) = true
  /\ PyStr.contains "." (extract_filename_from_url audio_url) = true.
Proof.
  unfold extract_filename_from_url.
  set (name := after_last "/" (before_first "?" audio_url)).
  assert (Hslash : PyStr.lacks "/" name = true) by apply after_last_lacks.
  assert (Hq : PyStr.lacks "?" name = true)
    by apply after_last_keeps, before_first_lacks.
  destruct (PyStr.contains "." name) eqn:Hdot; cbn [negb].
  - repeat split; assumption.
  - rewrite !lacks_app, Hslash, Hq. rewrite contains_char, lacks_app.
    rewrite andb_false_r. repeat split.
Qed.

(** X2: from a URL whose path ends in [/<name>], with or without a query
    string after it, the very [<name>] is extracted, provided the name has
    an extension and no slash or question mark and the part before it has
    no question mark. *)
Theorem extract_filename_recovers_name front name query :
  PyStr.lacks "?" front = true ->
  PyStr.lacks "?" name = true ->
  PyStr.lacks "/" name = true ->
  PyStr.contains "." name = true ->
  extract_filename_from_url (front +:+ "/" +:+ name +:+ "?" +:+ query) = name
  /\ extract_filename_from_url (front +:+ "/" +:+ name) = name.
Proof.
  intros Hfront Hname Hslash Hdot.
  assert (Hpath : PyStr.lacks "?" (front +:+ String "/" name) = true).
  { rewrite lacks_app. cbn [PyStr.lacks]. rewrite Hfront, Hname. reflexivity. }
  unfold extract_filename_from_url. split.
  - replace (front +:+ "/" +:+ name +:+ "?" +:+ query)
      with ((front +:+ String "/" name) +:+ String "?" query).
    + rewrite (before_first_app _ _ _ Hpath), (after_last_app _ _ _ Hslash), Hdot.
      reflexivity.
    + rewrite append_assoc. reflexivity.
  - change (front +:+ "/" +:+ name) with (front +:+ String "/" name).
    rewrite (before_first_absent _ _ Hpath), (after_last_app _ _ _ Hslash), Hdot.
    reflexivity.
Qed.

End FilenameFacts.

Lemma extract_filename_recovers_name_witness :
  PyStr.lacks "?" "http://localhost:8000/processed" = true
  /\ Utils.extract_filename_from_url
       ("http://localhost:8000/processed" +:+ "/" +:+ "job-2.wav" +:+ "?" +:+ "X-Amz-Expires=900")
     = "job-2.wav".
Proof.
  split; [reflexivity|].
  exact (proj1 (extract_filename_recovers_name "http://localhost:8000/processed" "job-2.wav"
                  "X-Amz-Expires=900" eq_refl eq_refl eq_refl eq_refl)).
Defined.

(** ** Submission, processing and lookup together *)

Section StripFacts.

Import PyStr.

Lemma first_char_shorter s cp r :
  first_char s = Some (cp, r) -> (String.length r < String.length s)%nat.
Proof.
  destruct s as [|c1 [|c2 [|c3 r3]]]; cbn [first_char].
  - intros [=].
  - destruct (_ <? _)%N; intros [= <- <-]; cbn; lia.
  - destruct (_ <? _)%N; [intros [= <- <-]; cbn; lia|].
    destruct (_ && _); [intros [= <- <-]; cbn; lia|intros [=]].
  - destruct (_ <? _)%N; [intros [= <- <-]; cbn; lia|].
    destruct (_ && _); [intros [= <- <-]; cbn; lia|].
    destruct (_ && _); [intros [= <- <-]; cbn; lia|intros [=]].
Qed.

Lemma first_char_app p q cp r :
  first_char p = Some (cp, r) -> first_char (p +:+ q) = Some (cp, r +:+ q).
Proof.
  destruct p as [|c1 [|c2 [|c3 r3]]]; cbn [first_char].
  - intros [=].
  - change (String c1 "" +:+ q) with (String c1 q). cbn [first_char].
    destruct (_ <? _)%N; intros [= <- <-]; reflexivity.
  - change (String c1 (String c2 "") +:+ q) with (String c1 (String c2 q)).
    cbn [first_char].
    destruct (_ <? _)%N; [intros [= <- <-]; reflexivity|].
    destruct (_ && _); [intros [= <- <-]; reflexivity|intros [=]].
  - change (String c1 (String c2 (String c3 r3)) +:+ q)
      with (String c1 (String c2 (String c3 (r3 +:+ q)))).
    cbn [first_char].
    destruct (_ <? _)%N; [intros [= <- <-]; reflexivity|].
    destruct (_ && _); [intros [= <- <-]; reflexivity|].
    destruct (_ && _); [intros [= <- <-]; reflexivity|intros [=]].
Qed.

Lemma lstrip_from_enough n :
  forall m s, (String.length s <= n)%nat -> (String.length s <= m)%nat ->
              lstrip_from n s = lstrip_from m s.
Proof.
  induction n as [|n IH]; intros m s Hn Hm.
  - destruct s; [|cbn in Hn; lia]. destruct m; reflexivity.
  - destruct m as [|m].
    + destruct s; [reflexivity|cbn in Hm; lia].
    + cbn [lstrip_from]. destruct (first_char s) as [[cp r]|] eqn:Hf; [|reflexivity].
      destruct (is_space cp); [|reflexivity].
      apply first_char_shorter in Hf. apply IH; lia.
Qed.

(** One turn of the loop. *)
Lemma lstrip_eq s :
  lstrip s = match first_char s with
             | Some (cp, rest) => if is_space cp then lstrip rest else s
             | None => s
             end.
Proof.
  unfold lstrip. destruct s as [|c s]; [reflexivity|].
  change (String.length (String c s)) with (S (String.length s)).
  cbn [lstrip_from]. destruct (first_char (String c s)) as [[cp r]|] eqn:Hf; [|reflexivity].
  destruct (is_space cp); [|reflexivity].
  apply first_char_shorter in Hf. cbn in Hf. apply lstrip_from_enough; lia.
Qed.

(** What [lstrip] returns does not start with white space. *)
Lemma lstrip_head s :
  match first_char (lstrip s) with
  | Some (cp, _) => is_space cp = false
  | None => True
  end.
Proof.
  remember (String.length s) as n eqn:Hn.
  assert (Hle : (String.length s <= n)%nat) by lia. clear Hn.
  revert s Hle. induction n as [|n IH]; intros s Hle.
  - destruct s; [exact I|cbn in Hle; lia].
  - rewrite lstrip_eq. destruct (first_char s) as [[cp r]|] eqn:Hf.
    + destruct (is_space cp) eqn:Hsp.
      * apply IH. apply first_char_shorter in Hf. lia.
      * rewrite Hf. exact Hsp.
    + rewrite Hf. exact I.
Qed.

Lemma lstrip_fixed s :
  match first_char s with
  | Some (cp, _) => is_space cp = false
  | None => True
  end ->
  lstrip s = s.
Proof.
  intros H. rewrite lstrip_eq. destruct (first_char s) as [[cp r]|]; [|reflexivity].
  rewrite H. reflexivity.
Qed.

Lemma blank_app p : forall q, blank p = true -> blank q = true -> blank (p +:+ q) = true.
Proof.
  remember (String.length p) as n eqn:Hn.
  assert (Hle : (String.length p <= n)%nat) by lia. clear Hn.
  revert p Hle. induction n as [|n IH]; intros p Hle q Hp Hq.
  - destruct p; [exact Hq|cbn in Hle; lia].
  - destruct p as [|c p]; [exact Hq|].
    unfold blank in *. rewrite lstrip_eq in Hp. rewrite lstrip_eq.
    destruct (first_char (String c p)) as [[cp r]|] eqn:Hf; [|discriminate].
    rewrite (first_char_app _ q _ _ Hf).
    destruct (is_space cp); [|discriminate].
    apply first_char_shorter in Hf. apply IH; [lia|exact Hp|exact Hq].
Qed.

(** [rstrip] cuts off a tail of white space. *)
Lemma rstrip_spec s : exists q, s = rstrip s +:+ q /\ blank q = true.
Proof.
  induction s as [|c s (q & Hs & Hq)].
  - exists EmptyString. split; reflexivity.
  - cbn [rstrip]. destruct (blank (String c s)) eqn:Hb.
    + exists (String c s). split; [reflexivity|exact Hb].
    + exists q. split; [|exact Hq].
      change (String c (rstrip s) +:+ q) with (String c (rstrip s +:+ q)).
      rewrite <- Hs. reflexivity.
Qed.

Lemma rstrip_not_blank s : rstrip s <> EmptyString -> blank (rstrip s) = false.
Proof.
  intros Hne. destruct (blank (rstrip s)) eqn:Hb; [|reflexivity].
  destruct (rstrip_spec s) as (q & Hs & Hq).
  pose proof (blank_app _ _ Hb Hq) as Hall. rewrite <- Hs in Hall.
  destruct s as [|c s]; [contradiction Hne; reflexivity|].
  cbn [rstrip] in Hne. rewrite Hall in Hne. contradiction Hne. reflexivity.
Qed.

Lemma rstrip_idempotent s : rstrip (rstrip s) = rstrip s.
Proof.
  induction s as [|c s IH]; [reflexivity|].
  pose proof (rstrip_not_blank (String c s)) as Hnb.
  cbn [rstrip] in *. destruct (blank (String c s)); [reflexivity|].
  cbn [rstrip]. rewrite Hnb by discriminate. rewrite IH. reflexivity.
Qed.

(** What [strip] returns has no white space left at either end. *)
Lemma strip_is_stripped s :
  PyStr.lstrip (PyStr.strip s) = PyStr.strip s
  /\ PyStr.rstrip (PyStr.strip s) = PyStr.strip s.
Proof.
  unfold strip. split; [|apply rstrip_idempotent].
  apply lstrip_fixed.
  pose proof (lstrip_head s) as Hhead.
  destruct (rstrip_spec (lstrip s)) as (q & Hs & _).
  destruct (first_char (rstrip (lstrip s))) as [[cp r]|] eqn:Hf; [|exact I].
  apply (first_char_app _ q) in Hf. rewrite <- Hs in Hf. rewrite Hf in Hhead.
  exact Hhead.
Qed.

Lemma falsy_false s : PyStr.falsy s = false <-> s <> EmptyString.
Proof. destruct s; cbn; split; congruence. Qed.

(** Characters outside ASCII count: a no-break space (U+00A0), an em
    space (U+2003) and an ideographic space (U+3000) are stripped like the
    ASCII blank. *)
Example strip_unicode_space :
  let nbsp := String (ascii_of_nat 194) (String (ascii_of_nat 160) EmptyString) in
  let em := String (ascii_of_nat 226) (String (ascii_of_nat 128) (String (ascii_of_nat 131) EmptyString)) in
  let ideo := String (ascii_of_nat 227) (String (ascii_of_nat 128) (String (ascii_of_nat 128) EmptyString)) in
  strip nbsp = EmptyString
  /\ strip (em +:+ " hello world" +:+ nbsp +:+ ideo) = "hello world"
  /\ strip (nbsp +:+ em +:+ ideo +:+ " ") = EmptyString.
Proof. vm_compute. repeat split. Qed.

End StripFacts.

Section Submission.

Variable presigned_get_object : Bucket -> string -> nat -> string.

(** X3: [synthesize_text] accepts a text exactly when it is not blank.
    A blank text is answered with 400 and changes nothing; any other text
    adds one synthesis job to the tail of the queue, and the text that job
    carries is the submitted one with the white space at both ends removed:
    not empty, and with none left to remove. *)
Theorem synthesize_text_enqueues_stripped task_id text w :
  let '(w', r) := Gateway.synthesize_text task_id text w in
  if PyStr.falsy (PyStr.strip text) then
    w' = w /\ r = HttpError 400 "Text content is required"
  else
    r = Ok200 {| sr_task_id := task_id; sr_status := PENDING |}
    /\ exists stripped,
         celery_queue w'
         = (celery_queue w ++
            [{| wi_task_id := task_id; wi_mode := "t2v";
                wi_input := {[ "text" := stripped ]}; wi_retries := 0 |}])%list
         /\ stripped = PyStr.strip text
         /\ stripped <> EmptyString
         /\ PyStr.lstrip stripped = stripped
         /\ PyStr.rstrip stripped = stripped.
Proof.
  unfold Gateway.synthesize_text.
  destruct (PyStr.falsy (PyStr.strip text)) eqn:Hblank.
  - split; reflexivity.
  - split; [reflexivity|]. exists (PyStr.strip text).
    split; [reflexivity|]. split; [reflexivity|].
    split; [apply falsy_false, Hblank|]. apply strip_is_stripped.
Qed.

(** X4: a transcription from submission to lookup.  When the upload is
    accepted, the STT service can be reached and Whisper answers, one
    delivery of the job that [transcribe_audio] put on an empty queue ends
    the job: the queue is empty again and [get_task_result] answers SUCCESS
    with the first string of Whisper's output for the uploaded bytes (the
    empty string when the output is empty) and no audio URL. *)
Theorem transcription_end_to_end e task_id audio_file w out :
  celery_queue w = [] ->
  put_object_error e = None ->
  connect_error e = None -> read_error e = None ->
  whisper e (file audio_file) = TritonOk out ->
  let w1 := fst (Gateway.transcribe_audio e task_id audio_file w) in
  exists w2 o,
    Orchestrator.worker_step e w1 = Some (w2, o)
    /\ celery_queue w2 = []
    /\ Gateway.get_task_result presigned_get_object task_id w2
       = Ok200 {| trr_task_id := task_id; trr_status := SUCCESS;
                  transcribed_text := Some match out with first :: _ => first | [] => "" end;
                  audio_url := None; error_message := None |}.
Proof.
  intros Hq Hput Hc Hr Hw. cbn zeta.
  unfold Gateway.transcribe_audio. rewrite Hput. cbn [fst].
  unfold Orchestrator.worker_step.
  cbn [send_task put_object celery_queue]. rewrite Hq. cbn [app].
  set (item := Build_WorkItem _ _ _ _).
  set (w0 := Orchestrator.set_queue [] _).
  destruct (deliver_v2t_returns e item w0 (task_id +:+ "_" +:+ filename audio_file)
              (file audio_file) out eq_refl (lookup_singleton_eq _ _) Hc Hr
              (lookup_insert_eq _ _ _) Hw) as [w2 Hd].
  exists w2, (Orchestrator.Return
                {[ "transcribed_text" := match out with first :: _ => first | [] => "" end ]}).
  split; [rewrite Hd; reflexivity|].
  apply deliver_spec in Hd as (Hq2 & Hb2 & _).
  split; [rewrite Hq2; reflexivity|].
  unfold Gateway.get_task_result, Gateway.AsyncResult.
  change (wi_task_id item) with task_id in Hb2. rewrite Hb2. cbn.
  rewrite lookup_singleton_eq.
  rewrite lookup_singleton_ne by done. reflexivity.
Qed.

(** X5: a synthesis from submission to lookup.  When the text is not
    blank, the TTS service can be reached, Chatterbox answers and the
    upload is accepted, one delivery of the job that [synthesize_text] put
    on an empty queue ends the job: the processed bucket holds under
    [<id>.wav] exactly the audio Chatterbox produced for the stripped text,
    and [get_task_result] answers SUCCESS with the URL signed for that
    object, cut after the MinIO endpoint, and no transcription. *)
Theorem synthesis_end_to_end e task_id text w audio :
  celery_queue w = [] ->
  PyStr.strip text <> EmptyString ->
  connect_error e = None -> read_error e = None ->
  chatterbox e (PyStr.strip text) = TritonOk audio ->
  put_object_error e = None ->
  let w1 := fst (Gateway.synthesize_text task_id text w) in
  exists w2 o,
    Orchestrator.worker_step e w1 = Some (w2, o)
    /\ celery_queue w2 = []
    /\ minio_processed w2 !! (task_id +:+ ".wav") = Some audio
    /\ Gateway.get_task_result presigned_get_object task_id w2
       = Ok200 {| trr_task_id := task_id; trr_status := SUCCESS;
                  transcribed_text := None;
                  audio_url :=
                    Some (PyStr.split1_last MINIO_ENDPOINT
                            (presigned_get_object MINIO_BUCKET_PROCESSED
                               (task_id +:+ ".wav") 900));
                  error_message := None |}.
Proof.
  intros Hq Htext Hc Hr Hch Hput. cbn zeta.
  unfold Gateway.synthesize_text.
  apply falsy_false in Htext. rewrite Htext. cbn [fst].
  unfold Orchestrator.worker_step.
  cbn [send_task celery_queue]. rewrite Hq. cbn [app].
  set (item := Build_WorkItem _ _ _ _).
  set (w0 := Orchestrator.set_queue [] _).
  destruct (deliver_t2v_returns e item w0 (PyStr.strip text) audio eq_refl
              (lookup_singleton_eq _ _) Hc Hr Hch Hput) as [w2 Hd].
  change (wi_task_id item) with task_id in Hd.
  exists w2, (Orchestrator.Return {[ "output_object_name" := task_id +:+ ".wav" ]}).
  split; [rewrite Hd; reflexivity|].
  pose proof (deliver_spec _ _ _ _ _ Hd) as (Hq2 & Hb2 & _).
  split; [rewrite Hq2; reflexivity|].
  apply deliver_Return_inv in Hd as (_ & _ & _ & _ & Hmode).
  change (wi_task_id item) with task_id in Hb2, Hmode.
  destruct Hmode as [(Hv & _)|(_ & text' & audio' & Hin & Hch' & _ & _ & Hp)];
    [discriminate|].
  cbn [item wi_input] in Hin. rewrite lookup_singleton_eq in Hin.
  injection Hin as <-. rewrite Hch in Hch'. injection Hch' as <-.
  split; [rewrite Hp; apply lookup_insert_eq|].
  unfold Gateway.get_task_result, Gateway.AsyncResult. rewrite Hb2. cbn.
  rewrite lookup_singleton_eq.
  rewrite lookup_singleton_ne by done. reflexivity.
Qed.

End Submission.

Lemma transcription_end_to_end_witness :
  celery_queue empty_world = []
  /\ whisper Sample.env_ok (file Sample.speech) = TritonOk ["hello world"]
  /\ exists w2 o,
      Orchestrator.worker_step Sample.env_ok Sample.stt_submitted = Some (w2, o)
      /\ celery_queue w2 = []
      /\ Gateway.get_task_result Sample.presign "job-1" w2
         = Ok200 {| trr_task_id := "job-1"; trr_status := SUCCESS;
                    transcribed_text := Some "hello world";
                    audio_url := None; error_message := None |}.
Proof.
  split; [reflexivity|]. split; [reflexivity|].
  exact (transcription_end_to_end Sample.presign Sample.env_ok "job-1" Sample.speech
           empty_world ["hello world"] eq_refl eq_refl eq_refl eq_refl eq_refl).
Defined.

Lemma synthesis_end_to_end_witness :
  PyStr.strip " hello " <> EmptyString
  /\ exists w2 o,
      Orchestrator.worker_step Sample.env_ok
        (fst (Gateway.synthesize_text "job-2" " hello " empty_world)) = Some (w2, o)
      /\ celery_queue w2 = []
      /\ minio_processed w2 !! ("job-2" +:+ ".wav")
         = Some [Byte.x52; Byte.x49; Byte.x46; Byte.x46]
      /\ Gateway.get_task_result Sample.presign "job-2" w2
         = Ok200 {| trr_task_id := "job-2"; trr_status := SUCCESS;
                    transcribed_text := None;
                    audio_url :=
                      Some (PyStr.split1_last MINIO_ENDPOINT
                              (Sample.presign MINIO_BUCKET_PROCESSED ("job-2" +:+ ".wav") 900));
                    error_message := None |}.
Proof.
  assert (Htext : PyStr.strip " hello " <> EmptyString) by (vm_compute; discriminate).
  split; [exact Htext|].
  exact (synthesis_end_to_end Sample.presign Sample.env_ok "job-2" " hello " empty_world
           [Byte.x52; Byte.x49; Byte.x46; Byte.x46]
           eq_refl Htext eq_refl eq_refl eq_refl eq_refl).
Defined.

(** White space outside ASCII is white space to the gateway as well: a
    text made of a no-break space (U+00A0) and an em space (U+2003) is
    refused, and around a word both are stripped before the job is queued. *)
Example synthesize_text_unicode_blank :
  let nbsp := String (ascii_of_nat 194) (String (ascii_of_nat 160) EmptyString) in
  let em :=
    String (ascii_of_nat 226) (String (ascii_of_nat 128) (String (ascii_of_nat 131) EmptyString)) in
  Gateway.synthesize_text "job-8" (nbsp +:+ em) empty_world
  = (empty_world, HttpError 400 "Text content is required")
  /\ map wi_input (celery_queue
                     (fst (Gateway.synthesize_text "job-8" (nbsp +:+ "hello" +:+ em)
                             empty_world)))
     = [{[ "text" := "hello" ]}].
Proof. vm_compute. split; reflexivity. Qed.

(** ** What a lookup shows of retries and failures *)

Section LookupFacts.

Import Orchestrator.

Variable presigned_get_object : Bucket -> string -> nat -> string.

(** X6: a failed attempt that is going to be retried does not show.
    After a delivery that ended in [self.retry] with retries left, the
    message is back at the tail of the queue with its count raised by one,
    and [get_task_result] answers PENDING without any error message. *)
Theorem retry_is_not_visible e item w w1 exc :
  deliver e item w = (w1, SelfRetry exc) ->
  (wi_retries item < max_retries)%nat ->
  celery_queue w1 = (celery_queue w ++ [retried item])%list
  /\ Gateway.get_task_result presigned_get_object (wi_task_id item) w1
     = Ok200 {| trr_task_id := wi_task_id item; trr_status := PENDING;
                transcribed_text := None; audio_url := None; error_message := None |}.
Proof.
  intros Hd Hlt. apply deliver_spec in Hd as (Hq & Hb & _).
  destruct (Nat.ltb_spec max_retries (wi_retries item + 1)) as [Hge|_]; [lia|].
  split; [exact Hq|].
  unfold Gateway.get_task_result, Gateway.AsyncResult. rewrite Hb. reflexivity.
Qed.

(** X7: a job the dispatcher gave up on is never reported as FAILED.
    Whether the task body's exception escaped or [self.retry] ran out of
    retries, the state stored is FAILURE with the exception; the lookup
    handler then calls [get] on that exception, so [get_task_result] ends in
    a server error, and a client polling inside its budget gets [APIError]
    with status 500 instead of the failure message. *)
Theorem failed_job_lookup_is_server_error e item w w1 o exc what base_url
    start_time timeout t rest :
  deliver e item w = (w1, o) ->
  o = Escaped exc \/ (o = SelfRetry exc /\ (max_retries <= wi_retries item)%nat) ->
  celery_backend w1 !! wi_task_id item
  = Some {| meta_state := C_FAILURE; meta_info := InfoExc exc |}
  /\ Gateway.get_task_result presigned_get_object (wi_task_id item) w1
     = HttpError 500 "Internal Server Error"
  /\ ((Client.now t - start_time < timeout)%Z ->
      Client.request_error t = None ->
      Client.world t = w1 ->
      Client.poll what base_url presigned_get_object (wi_task_id item)
        start_time timeout (t :: rest)
      = Some (inl (Client.APIError 500 "Internal Server Error"))).
Proof.
  intros Hd Ho. apply deliver_spec in Hd as (_ & Hb & _).
  assert (Hmeta : celery_backend w1 !! wi_task_id item
                  = Some {| meta_state := C_FAILURE; meta_info := InfoExc exc |}).
  { destruct Ho as [->|[-> Hge]]; [exact Hb|].
    destruct (Nat.ltb_spec max_retries (wi_retries item + 1)) as [_|Hlt]; [exact Hb|lia]. }
  assert (Hg : Gateway.get_task_result presigned_get_object (wi_task_id item) w1
               = HttpError 500 "Internal Server Error").
  { unfold Gateway.get_task_result, Gateway.AsyncResult. rewrite Hmeta. reflexivity. }
  split; [exact Hmeta|]. split; [exact Hg|].
  intros Hnow Hreq Hw. cbn [Client.poll].
  apply Z.ltb_lt in Hnow. rewrite Hnow.
  unfold Client.get_task_result. rewrite Hreq, Hw, Hg. reflexivity.
Qed.

(** X8: a transcription job whose input object is not in the unprocessed
    bucket fails at its first delivery, without any retry.  The STT service
    dies in its [finally] block and answers with a plain-text 500; reading
    that body as JSON inside the orchestrator's [except] handler raises, the
    exception escapes past [self.retry], and the job is stored as FAILURE
    and not sent again, whatever its retry count. *)
Theorem missing_input_fails_without_retry e item w name :
  wi_mode item = "v2t" ->
  wi_input item !! "input_object_name" = Some name ->
  minio_unprocessed w !! name = None ->
  connect_error e = None -> read_error e = None ->
  snd (deliver e item w) = Escaped json_decode_error
  /\ celery_queue (fst (deliver e item w)) = celery_queue w
  /\ celery_backend (fst (deliver e item w)) !! wi_task_id item
     = Some {| meta_state := C_FAILURE; meta_info := InfoExc json_decode_error |}.
Proof.
  intros Hmode Hin Hobj Hc Hr.
  assert (Hp : forall w0, minio_unprocessed w0 = minio_unprocessed w ->
             process_pipeline e (wi_task_id item) (wi_mode item) (wi_input item) w0
             = (w0, Escaped json_decode_error)).
  { intros w0 Hw0. unfold process_pipeline. rewrite Hmode.
    cbn [JobMode_value]. rewrite String.eqb_refl, Hin.
    unfold client_post, SttService.transcribe_audio. rewrite Hc, Hr.
    cbn [stt_input_object_name]. rewrite Hw0, Hobj. reflexivity. }
  destruct (deliver e item w) as [w1 o] eqn:Hd. cbn [fst snd].
  pose proof (deliver_spec _ _ _ _ _ Hd) as (Hq & Hb & _).
  unfold deliver in Hd. rewrite Hp in Hd by reflexivity.
  injection Hd as _ <-.
  split; [reflexivity|]. split; [rewrite Hq; apply app_nil_r|exact Hb].
Qed.

End LookupFacts.

Lemma retry_is_not_visible_witness :
  Orchestrator.deliver Sample.env_down Sample.tts_item Sample.tts_submitted
  = (fst (Orchestrator.deliver Sample.env_down Sample.tts_item Sample.tts_submitted),
     Orchestrator.SelfRetry "connection refused")
  /\ (wi_retries Sample.tts_item < max_retries)%nat
  /\ Gateway.get_task_result Sample.presign (wi_task_id Sample.tts_item)
       (fst (Orchestrator.deliver Sample.env_down Sample.tts_item Sample.tts_submitted))
     = Ok200 {| trr_task_id := wi_task_id Sample.tts_item; trr_status := PENDING;
                transcribed_text := None; audio_url := None; error_message := None |}.
Proof.
  assert (Hd : Orchestrator.deliver Sample.env_down Sample.tts_item Sample.tts_submitted
               = (fst (Orchestrator.deliver Sample.env_down Sample.tts_item
                         Sample.tts_submitted),
                  Orchestrator.SelfRetry "connection refused"))
    by (vm_compute; reflexivity).
  assert (Hlt : (wi_retries Sample.tts_item < max_retries)%nat)
    by (cbn; unfold max_retries; lia).
  split; [exact Hd|]. split; [exact Hlt|].
  exact (proj2 (retry_is_not_visible Sample.presign Sample.env_down Sample.tts_item
                  Sample.tts_submitted _ "connection refused" Hd Hlt)).
Defined.

Lemma failed_job_lookup_is_server_error_witness :
  Orchestrator.deliver Sample.env_ok Cases.orphan_item empty_world
  = (fst (Orchestrator.deliver Sample.env_ok Cases.orphan_item empty_world),
     Orchestrator.Escaped Orchestrator.json_decode_error)
  /\ Gateway.get_task_result Sample.presign (wi_task_id Cases.orphan_item)
       (fst (Orchestrator.deliver Sample.env_ok Cases.orphan_item empty_world))
     = HttpError 500 "Internal Server Error".
Proof.
  assert (Hd : Orchestrator.deliver Sample.env_ok Cases.orphan_item empty_world
               = (fst (Orchestrator.deliver Sample.env_ok Cases.orphan_item empty_world),
                  Orchestrator.Escaped Orchestrator.json_decode_error))
    by (vm_compute; reflexivity).
  split; [exact Hd|].
  exact (proj1 (proj2 (failed_job_lookup_is_server_error Sample.presign Sample.env_ok
                         Cases.orphan_item empty_world _ _ Orchestrator.json_decode_error
                         "Transcription" "http://localhost:8000" 0 100
                         (Sample.waiting 0) [] Hd (or_introl eq_refl)))).
Defined.

Lemma missing_input_fails_without_retry_witness :
  minio_unprocessed empty_world !! "job-4_lost.wav" = None
  /\ snd (Orchestrator.deliver Sample.env_ok Cases.orphan_item empty_world)
     = Orchestrator.Escaped Orchestrator.json_decode_error
  /\ celery_queue (fst (Orchestrator.deliver Sample.env_ok Cases.orphan_item empty_world))
     = celery_queue empty_world.
Proof.
  split; [reflexivity|].
  destruct (missing_input_fails_without_retry Sample.env_ok Cases.orphan_item empty_world
              "job-4_lost.wav" eq_refl eq_refl eq_refl eq_refl eq_refl)
    as (Ho & Hq & _).
  split; [exact Ho|exact Hq].
Defined.

Section RejectedRequests.

Import Orchestrator.

Lemma rejected_body e task_id mode input_data exc w :
  Cases.rejected mode input_data exc ->
  process_pipeline e task_id mode input_data w = (w, SelfRetry exc).
Proof.
  intros [(-> & Hin & ->)|[(-> & Hin & ->)|(Hv & Ht & ->)]]; unfold process_pipeline.
  - cbn [JobMode_value]. rewrite String.eqb_refl, Hin. reflexivity.
  - cbn [JobMode_value]. change (String.eqb "t2v" "v2t") with false.
    rewrite String.eqb_refl, Hin. reflexivity.
  - apply String.eqb_neq in Hv, Ht. cbn [JobMode_value]. rewrite Hv, Ht. reflexivity.
Qed.

Lemma rejected_delivery e item exc w :
  Cases.rejected (wi_mode item) (wi_input item) exc ->
  snd (deliver e item w) = SelfRetry exc.
Proof.
  intros Hrej. unfold deliver.
  rewrite (rejected_body e _ _ _ exc _ Hrej). reflexivity.
Qed.

(** X9: a call the task body turns away itself (unknown mode, missing
    input key) is treated like a transient failure.  Whatever the state of
    the backends, the job alone on the queue is delivered four times, each
    delivery ends in [self.retry] with the same [ValueError], and only then
    is it stored as FAILURE with that message. *)
Theorem rejected_request_uses_all_retries e1 e2 e3 e4 rest w item exc :
  celery_queue w = [item] -> wi_retries item = 0 ->
  Cases.rejected (wi_mode item) (wi_input item) exc ->
  let run := run_worker (e1 :: e2 :: e3 :: e4 :: rest) w in
  snd run = [SelfRetry exc; SelfRetry exc; SelfRetry exc; SelfRetry exc]
  /\ celery_queue (fst run) = []
  /\ celery_backend (fst run) !! wi_task_id item
     = Some {| meta_state := C_FAILURE; meta_info := InfoExc exc |}.
Proof.
  intros Hq Hr0 Hrej. cbn zeta.
  assert (Hlt : forall n, (n < 3)%nat ->
            forall it, wi_retries it = n -> (wi_retries it < max_retries)%nat)
    by (intros n Hn it ->; exact Hn).
  rewrite (run_worker_single e1 _ w item Hq). cbn [fst snd].
  pose proof (rejected_delivery e1 item exc (set_queue [] w) Hrej) as Ho1.
  pose proof (retry_requeues e1 item w exc (Hlt 0%nat ltac:(lia) item Hr0) Ho1) as Hq1.
  set (w1 := fst (deliver e1 item (set_queue [] w))) in *.
  rewrite (run_worker_single e2 _ w1 _ Hq1). cbn [fst snd].
  pose proof (rejected_delivery e2 (retried item) exc (set_queue [] w1) Hrej) as Ho2.
  pose proof (retry_requeues e2 (retried item) w1 exc
                (Hlt 1%nat ltac:(lia) (retried item)
                   ltac:(cbn [retried wi_retries]; congruence)) Ho2)
    as Hq2.
  set (w2 := fst (deliver e2 (retried item) (set_queue [] w1))) in *.
  rewrite (run_worker_single e3 _ w2 _ Hq2). cbn [fst snd].
  pose proof (rejected_delivery e3 (retried (retried item)) exc (set_queue [] w2) Hrej)
    as Ho3.
  pose proof (retry_requeues e3 (retried (retried item)) w2 exc
                (Hlt 2%nat ltac:(lia) (retried (retried item))
                   ltac:(cbn [retried wi_retries]; congruence)) Ho3)
    as Hq3.
  set (w3 := fst (deliver e3 (retried (retried item)) (set_queue [] w2))) in *.
  pose proof (last_delivery e4 rest (retried (retried (retried item))) w3 Hq3
                ltac:(cbn [retried wi_retries]; rewrite Hr0; reflexivity))
    as (Htrace & Hqueue & Hmeta).
  cbn zeta in Htrace, Hmeta.
  pose proof (rejected_delivery e4 (retried (retried (retried item))) exc
                (set_queue [] w3) Hrej) as Ho4.
  rewrite Ho4 in Htrace, Hmeta.
  rewrite Ho1, Ho2, Ho3, Htrace.
  split; [reflexivity|]. split; [exact Hqueue|exact Hmeta].
Qed.

End RejectedRequests.

Lemma rejected_request_uses_all_retries_witness :
  celery_queue Cases.odd_queue = [Cases.odd_item]
  /\ Cases.rejected (wi_mode Cases.odd_item) (wi_input Cases.odd_item) "Unsupported mode: v2v"
  /\ snd (Orchestrator.run_worker
            [Sample.env_ok; Sample.env_ok; Sample.env_down; Sample.env_ok] Cases.odd_queue)
     = [Orchestrator.SelfRetry "Unsupported mode: v2v";
        Orchestrator.SelfRetry "Unsupported mode: v2v";
        Orchestrator.SelfRetry "Unsupported mode: v2v";
        Orchestrator.SelfRetry "Unsupported mode: v2v"].
Proof.
  assert (Hrej : Cases.rejected (wi_mode Cases.odd_item) (wi_input Cases.odd_item)
                   "Unsupported mode: v2v").
  { right. right. repeat split; discriminate. }
  split; [reflexivity|]. split; [exact Hrej|].
  exact (proj1 (rejected_request_uses_all_retries
                  Sample.env_ok Sample.env_ok Sample.env_down Sample.env_ok []
                  Cases.odd_queue Cases.odd_item "Unsupported mode: v2v"
                  eq_refl eq_refl Hrej)).
Defined.

(** ** Redis failures while scheduling cleanup *)

Section RedisFailures.

Import Orchestrator.

Lemma schedule_cleanup_fields e e' task_id input_data r w :
  let a := _schedule_cleanup e task_id input_data r w in
  let b := _schedule_cleanup e' task_id input_data r w in
  celery_backend a = celery_backend b /\ celery_queue a = celery_queue b
  /\ minio_unprocessed a = minio_unprocessed b /\ minio_processed a = minio_processed b.
Proof.
  cbn zeta.
  pose proof (schedule_cleanup_frame e task_id input_data r w) as Ha.
  pose proof (schedule_cleanup_frame e' task_id input_data r w) as Hb.
  cbn zeta in Ha, Hb. destruct Ha as (-> & -> & -> & ->), Hb as (-> & -> & -> & ->).
  repeat split.
Qed.

Lemma pipeline_ignores_redis rp sx e task_id mode input_data w :
  let a := process_pipeline e task_id mode input_data w in
  let b := process_pipeline (Cases.with_redis_errors rp sx e) task_id mode input_data w in
  snd b = snd a
  /\ celery_backend (fst b) = celery_backend (fst a)
  /\ celery_queue (fst b) = celery_queue (fst a)
  /\ minio_unprocessed (fst b) = minio_unprocessed (fst a)
  /\ minio_processed (fst b) = minio_processed (fst a).
Proof.
  cbn zeta. unfold process_pipeline.
  destruct (String.eqb mode (JobMode_value V2T)).
  - destruct (input_data !! "input_object_name") as [name|]; [|repeat split].
    unfold client_post, SttService.transcribe_audio.
    cbn [Cases.with_redis_errors connect_error read_error whisper].
    destruct (connect_error e); [repeat split|].
    destruct (read_error e).
    + cbn. repeat split.
    + destruct (read_field _ "text") as [o|v]; [repeat split|].
      cbn [fst snd]. split; [reflexivity|].
      apply (schedule_cleanup_fields (Cases.with_redis_errors rp sx e) e).
  - destruct (String.eqb mode (JobMode_value T2V)); [|repeat split].
    destruct (input_data !! "text") as [text|]; [|repeat split].
    unfold client_post, TtsService.synthesize_speech.
    cbn [Cases.with_redis_errors connect_error read_error chatterbox put_object_error].
    destruct (connect_error e); [repeat split|].
    destruct (chatterbox e _) as [audio|msg].
    + destruct (put_object_error e).
      * destruct (read_error e); [repeat split|].
        destruct (read_field _ "output_object_name") as [o|v]; [repeat split|].
        cbn [fst snd]. split; [reflexivity|].
        apply (schedule_cleanup_fields (Cases.with_redis_errors rp sx e) e).
      * destruct (read_error e); [repeat split|].
        destruct (read_field _ "output_object_name") as [o|v]; [repeat split|].
        cbn [fst snd]. split; [reflexivity|].
        apply (schedule_cleanup_fields (Cases.with_redis_errors rp sx e) e).
    + destruct (read_error e); [repeat split|].
      destruct (read_field _ "output_object_name") as [o|v]; [repeat split|].
      cbn [fst snd]. split; [reflexivity|].
      apply (schedule_cleanup_fields (Cases.with_redis_errors rp sx e) e).
Qed.

(** X10: a failure of Redis while the cleanup is scheduled never fails
    the job.  Replace the outcome of the two Redis writes by anything: the
    delivery ends the same way, and it leaves the same task store, the same
    queue and the same objects in both buckets. *)
Theorem redis_failure_never_fails_job rp sx e item w :
  let a := deliver e item w in
  let b := deliver (Cases.with_redis_errors rp sx e) item w in
  snd b = snd a
  /\ celery_backend (fst b) = celery_backend (fst a)
  /\ celery_queue (fst b) = celery_queue (fst a)
  /\ minio_unprocessed (fst b) = minio_unprocessed (fst a)
  /\ minio_processed (fst b) = minio_processed (fst a).
Proof.
  cbn zeta. unfold deliver.
  pose proof (pipeline_ignores_redis rp sx e (wi_task_id item) (wi_mode item) (wi_input item)
                (store_result (wi_task_id item)
                   {| meta_state := C_STARTED; meta_info := InfoNone |} w)) as H.
  cbn zeta in H.
  destruct (process_pipeline (Cases.with_redis_errors rp sx e) _ _ _ _) as [wb ob].
  destruct (process_pipeline e _ _ _ _) as [wa oa].
  cbn [fst snd] in *. destruct H as (-> & Hb & Hq & Hu & Hp).
  split; [reflexivity|].
  destruct oa as [r|x|x]; [| destruct (max_retries <? wi_retries item + 1)%nat |];
    cbn [store_result send_task celery_backend celery_queue minio_unprocessed
           minio_processed];
    rewrite ?Hb, ?Hq, ?Hu, ?Hp; repeat split.
Qed.

(** X11: when Redis takes the file list but refuses the trigger key, a
    successful delivery leaves the list [files:<id>] longer by the job's
    objects and the trigger keys exactly as they were: the list is recorded
    with nothing set to expire for it. *)
Theorem refused_trigger_leaves_list e item w w' r msg :
  rpush_error e = None -> setex_error e = Some msg ->
  deliver e item w = (w', Return r) ->
  files_to_delete (wi_input item) r <> []
  /\ lrange ("files:" +:+ wi_task_id item) w'
     = (lrange ("files:" +:+ wi_task_id item) w ++ files_to_delete (wi_input item) r)%list
  /\ redis_ttl_keys w' = redis_ttl_keys w.
Proof.
  intros Hr Hs. unfold deliver.
  set (w0 := store_result (wi_task_id item) _ w).
  destruct (process_pipeline e (wi_task_id item) (wi_mode item) (wi_input item) w0)
    as [w1 o] eqn:Hp.
  intros [= <- ->].
  pose proof (returned_files_nonempty _ _ _ _ _ _ _ Hp) as Hfiles.
  split; [exact Hfiles|].
  assert (Hsched : forall wa,
             lrange ("files:" +:+ wi_task_id item) wa = lrange ("files:" +:+ wi_task_id item) w ->
             redis_ttl_keys wa = redis_ttl_keys w ->
             let wb := _schedule_cleanup e (wi_task_id item) (wi_input item) r wa in
             lrange ("files:" +:+ wi_task_id item) wb
             = (lrange ("files:" +:+ wi_task_id item) w
                ++ files_to_delete (wi_input item) r)%list
             /\ redis_ttl_keys wb = redis_ttl_keys w).
  { intros wa Hl Ht. cbn zeta. unfold _schedule_cleanup.
    destruct (files_to_delete (wi_input item) r) as [|f files]; [congruence|].
    rewrite Hr, Hs. split; [|exact Ht].
    unfold lrange at 1. cbn [rpush redis_lists]. rewrite lookup_insert_eq.
    cbn [default]. rewrite Hl. reflexivity. }
  apply process_pipeline_Return in Hp
    as [(_ & name & audio & out & _ & _ & _ & _ & ->)
       |(_ & text & audio & _ & _ & _ & _ & ->)];
    cbn [store_result redis_ttl_keys];
    apply Hsched; reflexivity.
Qed.

End RedisFailures.

Lemma refused_trigger_leaves_list_witness :
  rpush_error Cases.env_no_setex = None
  /\ setex_error Cases.env_no_setex = Some "READONLY"
  /\ lrange ("files:" +:+ "job-2")
       (fst (Orchestrator.deliver Cases.env_no_setex Sample.tts_item Sample.tts_submitted))
     = (lrange ("files:" +:+ "job-2") Sample.tts_submitted
        ++ Orchestrator.files_to_delete (wi_input Sample.tts_item) Sample.tts_result)%list
  /\ redis_ttl_keys
       (fst (Orchestrator.deliver Cases.env_no_setex Sample.tts_item Sample.tts_submitted))
     = redis_ttl_keys Sample.tts_submitted.
Proof.
  assert (Hd : Orchestrator.deliver Cases.env_no_setex Sample.tts_item Sample.tts_submitted
               = (fst (Orchestrator.deliver Cases.env_no_setex Sample.tts_item
                         Sample.tts_submitted),
                  Orchestrator.Return Sample.tts_result))
    by (vm_compute; reflexivity).
  split; [reflexivity|]. split; [reflexivity|].
  destruct (refused_trigger_leaves_list Cases.env_no_setex Sample.tts_item
              Sample.tts_submitted _ Sample.tts_result "READONLY" eq_refl eq_refl Hd)
    as (_ & Hl & Ht).
  split; [exact Hl|exact Ht].
Defined.

(** ** One delivery among other jobs *)

Section Isolation.

Import Orchestrator.

Lemma schedule_cleanup_redis_frame e task_id input_data r w :
  let w' := _schedule_cleanup e task_id input_data r w in
  (forall key, key <> "files:" +:+ task_id -> redis_lists w' !! key = redis_lists w !! key)
  /\ (forall key, key <> "cleanup:" +:+ task_id ->
                  redis_ttl_keys w' !! key = redis_ttl_keys w !! key).
Proof.
  cbn zeta. unfold _schedule_cleanup.
  destruct (files_to_delete input_data r); [split; reflexivity|].
  destruct (rpush_error e); [split; reflexivity|].
  destruct (setex_error e); cbn [setex rpush redis_lists redis_ttl_keys]; split;
    intros key Hkey; rewrite ?lookup_insert_ne by congruence; reflexivity.
Qed.

(** Where the task body can write: the object [<id>.wav] of the processed
    bucket and the two Redis keys of the job. *)
Lemma process_pipeline_footprint e task_id mode input_data w w' o :
  process_pipeline e task_id mode input_data w = (w', o) ->
  (forall name, name <> task_id +:+ ".wav" ->
                minio_processed w' !! name = minio_processed w !! name)
  /\ (forall key, key <> "files:" +:+ task_id -> redis_lists w' !! key = redis_lists w !! key)
  /\ (forall key, key <> "cleanup:" +:+ task_id ->
                  redis_ttl_keys w' !! key = redis_ttl_keys w !! key).
Proof.
  assert (Hsched : forall r wa,
             (forall name, name <> task_id +:+ ".wav" ->
                           minio_processed wa !! name = minio_processed w !! name) ->
             redis_lists wa = redis_lists w -> redis_ttl_keys wa = redis_ttl_keys w ->
             let wb := _schedule_cleanup e task_id input_data r wa in
             (forall name, name <> task_id +:+ ".wav" ->
                           minio_processed wb !! name = minio_processed w !! name)
             /\ (forall key, key <> "files:" +:+ task_id ->
                             redis_lists wb !! key = redis_lists w !! key)
             /\ (forall key, key <> "cleanup:" +:+ task_id ->
                             redis_ttl_keys wb !! key = redis_ttl_keys w !! key)).
  { intros r wa Hp Hl Ht. cbn zeta.
    pose proof (schedule_cleanup_frame e task_id input_data r wa) as Hf.
    pose proof (schedule_cleanup_redis_frame e task_id input_data r wa) as Hr.
    cbn zeta in Hf, Hr. destruct Hf as (_ & _ & _ & Hpf), Hr as (Hrl & Hrt).
    rewrite Hpf, <- Hl, <- Ht. repeat split; assumption. }
  assert (Hput : forall audio name, name <> task_id +:+ ".wav" ->
             minio_processed (put_object MINIO_BUCKET_PROCESSED (task_id +:+ ".wav") audio w)
               !! name = minio_processed w !! name).
  { intros audio name Hname. cbn [put_object minio_processed].
    rewrite lookup_insert_ne by congruence. reflexivity. }
  unfold process_pipeline.
  destruct (String.eqb mode (JobMode_value V2T)).
  - destruct (input_data !! "input_object_name") as [name|];
      [|intros [= <- _]; repeat split].
    destruct (client_post e _ w) as [w1 posted] eqn:Hpost.
    apply client_post_stt in Hpost as ->.
    destruct (read_field posted "text"); intros [= <- _]; [repeat split|].
    apply Hsched; reflexivity.
  - destruct (String.eqb mode (JobMode_value T2V)); [|intros [= <- _]; repeat split].
    destruct (input_data !! "text") as [text|]; [|intros [= <- _]; repeat split].
    destruct (client_post e _ w) as [w1 posted] eqn:Hpost.
    apply client_post_tts in Hpost as [->|[audio ->]];
      destruct (read_field posted "output_object_name"); intros [= <- _].
    + repeat split.
    + apply Hsched; reflexivity.
    + split; [apply Hput|split; reflexivity].
    + apply Hsched; [apply Hput|reflexivity|reflexivity].
Qed.

Lemma delivery_touches_only_its_job_backend e item w task_id :
  task_id <> wi_task_id item ->
  celery_backend (fst (deliver e item w)) !! task_id = celery_backend w !! task_id.
Proof.
  intros Hne. unfold deliver.
  destruct (process_pipeline e _ _ _ _) as [wp o] eqn:Hp.
  pose proof (process_pipeline_frame _ _ _ _ _ _ _ Hp) as (Hb & _ & _).
  cbn [fst].
  destruct o as [r|x|x]; [| destruct (max_retries <? wi_retries item + 1)%nat |];
    cbn [send_task store_result celery_backend]; rewrite Hb;
    cbn [store_result celery_backend];
    rewrite !lookup_insert_ne by congruence; reflexivity.
Qed.

(** X12: a delivery writes only what belongs to its own job.  The task
    states of all other ids, the whole unprocessed bucket, every processed
    object other than [<id>.wav] and every Redis key other than
    [files:<id>] and [cleanup:<id>] are after the delivery what they were
    before it, however the delivery ends. *)
Theorem delivery_touches_only_its_job e item w :
  let w1 := fst (deliver e item w) in
  (forall task_id, task_id <> wi_task_id item ->
                   celery_backend w1 !! task_id = celery_backend w !! task_id)
  /\ minio_unprocessed w1 = minio_unprocessed w
  /\ (forall name, name <> wi_task_id item +:+ ".wav" ->
                   minio_processed w1 !! name = minio_processed w !! name)
  /\ (forall key, key <> "files:" +:+ wi_task_id item ->
                  redis_lists w1 !! key = redis_lists w !! key)
  /\ (forall key, key <> "cleanup:" +:+ wi_task_id item ->
                  redis_ttl_keys w1 !! key = redis_ttl_keys w !! key).
Proof.
  cbn zeta. unfold deliver.
  set (w0 := store_result (wi_task_id item) _ w).
  destruct (process_pipeline e (wi_task_id item) (wi_mode item) (wi_input item) w0)
    as [wp o] eqn:Hp.
  pose proof (process_pipeline_frame _ _ _ _ _ _ _ Hp) as (Hb & _ & Hu).
  pose proof (process_pipeline_footprint _ _ _ _ _ _ _ Hp) as (Hpr & Hl & Ht).
  cbn [fst].
  assert (Hfields : forall wf m,
             (wf = store_result (wi_task_id item) m wp
              \/ wf = send_task (retried item) (store_result (wi_task_id item) m wp)) ->
             (forall task_id, task_id <> wi_task_id item ->
                              celery_backend wf !! task_id = celery_backend w !! task_id)
             /\ minio_unprocessed wf = minio_unprocessed w
             /\ minio_processed wf = minio_processed wp
             /\ redis_lists wf = redis_lists wp
             /\ redis_ttl_keys wf = redis_ttl_keys wp).
  { intros wf m [-> | ->];
      cbn [send_task store_result celery_backend minio_unprocessed minio_processed
             redis_lists redis_ttl_keys];
      (split; [intros task_id Hne; rewrite Hb; subst w0; cbn [store_result celery_backend];
               rewrite !lookup_insert_ne by congruence; reflexivity|]);
      (split; [rewrite Hu; reflexivity|]); repeat split. }
  match goal with
  | |- context [celery_backend ?wf !! _] =>
      assert (Hwf : exists m, wf = store_result (wi_task_id item) m wp
                              \/ wf = send_task (retried item)
                                        (store_result (wi_task_id item) m wp))
  end.
  { destruct o as [r|x|x]; [| destruct (max_retries <? wi_retries item + 1)%nat |];
      eexists; (left; reflexivity) || (right; reflexivity). }
  destruct Hwf as [m Hwf].
  destruct (Hfields _ m Hwf) as (Hfb & Hfu & Hfp & Hfl & Hft).
  split; [exact Hfb|]. split; [exact Hfu|].
  rewrite Hfp, Hfl, Hft. repeat split; assumption.
Qed.

End Isolation.

(** ** The worker on a queue of jobs *)

Section BacklogFacts.

Import Orchestrator Backlog.

Lemma work_left_app q1 q2 : work_left (q1 ++ q2) = (work_left q1 + work_left q2)%nat.
Proof.
  unfold work_left. rewrite map_app, list_sum_app. reflexivity.
Qed.

(** A delivery uses up at least one of the attempts the queue still
    holds. *)
Lemma delivery_uses_an_attempt e item rest w :
  (work_left (celery_queue (fst (deliver e item (set_queue rest w))))
   < work_left (item :: rest))%nat.
Proof.
  destruct (deliver e item (set_queue rest w)) as [w1 o] eqn:Hd. cbn [fst].
  apply deliver_spec in Hd as (Hq & _ & _). rewrite Hq.
  cbn [set_queue celery_queue]. rewrite work_left_app.
  change (work_left (item :: rest)) with (attempts_left item + work_left rest)%nat.
  assert (Hextra : forall extra,
             (extra = [] \/ (extra = [retried item] /\ (wi_retries item < max_retries)%nat)) ->
             (work_left extra < attempts_left item)%nat).
  { intros extra [->|[-> Hlt]].
    - change (work_left []) with 0%nat. unfold attempts_left. lia.
    - change (work_left [retried item]) with (attempts_left (retried item) + 0)%nat.
      unfold attempts_left. cbn [retried wi_retries]. lia. }
  match goal with
  | |- (_ + work_left ?extra < _)%nat =>
      assert (Hlt : (work_left extra < attempts_left item)%nat);
      [|revert Hlt; generalize (work_left extra); intros n Hlt; lia]
  end.
  apply Hextra.
  destruct o as [r|x|x]; [left; reflexivity| |left; reflexivity].
  destruct (Nat.ltb_spec max_retries (wi_retries item + 1)) as [Hge|Hlt];
    [left; reflexivity|right; split; [reflexivity|lia]].
Qed.

Lemma work_left_cons item q :
  work_left (item :: q) = (attempts_left item + work_left q)%nat.
Proof. reflexivity. Qed.

Lemma work_left_nil q : work_left q = 0%nat -> q = [].
Proof.
  destruct q as [|item q]; [reflexivity|].
  rewrite work_left_cons. unfold attempts_left.
  intros H. exfalso. lia.
Qed.

Lemma run_worker_cons e envs item rest w :
  celery_queue w = item :: rest ->
  run_worker (e :: envs) w
  = (fst (run_worker envs (fst (deliver e item (set_queue rest w)))),
     snd (deliver e item (set_queue rest w))
     :: snd (run_worker envs (fst (deliver e item (set_queue rest w))))).
Proof.
  intros Hq. cbn [run_worker]. unfold worker_step. rewrite Hq.
  destruct (deliver e item (set_queue rest w)) as [w1 o].
  cbn [fst snd]. destruct (run_worker envs w1). reflexivity.
Qed.

(** X13: the worker's work is bounded by the queue it starts from.  The
    number of deliveries it makes, however they end and however long it
    runs, is at most the number of attempts the queued messages still hold
    (one plus the retries left, for each), which is at most four times the
    length of the queue. *)
Theorem deliveries_are_bounded envs w :
  (length (snd (run_worker envs w)) <= work_left (celery_queue w))%nat
  /\ (work_left (celery_queue w) <= (max_retries + 1) * length (celery_queue w))%nat.
Proof.
  split.
  - revert w. induction envs as [|e envs IH]; intros w; [cbn; lia|].
    destruct (celery_queue w) as [|item rest] eqn:Hq.
    + rewrite (run_worker_idle _ _ Hq). cbn. lia.
    + rewrite (run_worker_cons e envs item rest w Hq). cbn [snd length].
      specialize (IH (fst (deliver e item (set_queue rest w)))).
      pose proof (delivery_uses_an_attempt e item rest w). lia.
  - induction (celery_queue w) as [|item q IH]; [cbn; lia|].
    rewrite work_left_cons. cbn [length]. unfold attempts_left. lia.
Qed.

(** X14: given as many deliveries as the queue holds attempts, the worker
    empties the queue, and every job that had a message on it is then in
    a final state: SUCCESS or FAILURE is stored for it, so a lookup no
    longer answers PENDING. *)
Theorem queue_drains_to_final_states
    (presigned_get_object : Bucket -> string -> nat -> string) envs w :
  (work_left (celery_queue w) <= length envs)%nat ->
  let w' := fst (run_worker envs w) in
  celery_queue w' = []
  /\ forall task_id,
       In task_id (queued_ids w) ->
       Gateway.ready (Gateway.AsyncResult task_id w') = true
       /\ forall r, Gateway.get_task_result presigned_get_object task_id w' = Ok200 r ->
                    trr_status r <> PENDING.
Proof.
  intros Hwork. cbn zeta.
  assert (Hdrain : forall envs w, (work_left (celery_queue w) <= length envs)%nat ->
                                  celery_queue (fst (run_worker envs w)) = []).
  { clear. induction envs as [|e envs IH]; intros w Hwork.
    - cbn. apply work_left_nil. cbn in Hwork. lia.
    - destruct (celery_queue w) as [|item rest] eqn:Hq.
      + rewrite (run_worker_idle _ _ Hq). exact Hq.
      + rewrite (run_worker_cons e envs item rest w Hq). cbn [fst].
        apply IH. pose proof (delivery_uses_an_attempt e item rest w).
        cbn [length] in Hwork. lia. }
  assert (Hsettle : forall envs w task_id,
             In task_id (queued_ids w)
             \/ Gateway.ready (Gateway.AsyncResult task_id w) = true ->
             In task_id (queued_ids (fst (run_worker envs w)))
             \/ Gateway.ready (Gateway.AsyncResult task_id (fst (run_worker envs w))) = true).
  { clear. induction envs as [|e envs IH]; intros w task_id H; [exact H|].
    destruct (celery_queue w) as [|item rest] eqn:Hq.
    - rewrite (run_worker_idle _ _ Hq). exact H.
    - rewrite (run_worker_cons e envs item rest w Hq). cbn [fst]. apply IH.
      destruct (deliver e item (set_queue rest w)) as [w1 o] eqn:Hd. cbn [fst].
      pose proof (delivery_touches_only_its_job_backend e item (set_queue rest w)) as Hother.
      rewrite Hd in Hother. cbn [fst] in Hother.
      apply deliver_spec in Hd as (Hq1 & Hb1 & _).
      cbn [set_queue celery_queue] in Hq1.
      destruct (String.string_dec task_id (wi_task_id item)) as [->|Hne].
      + destruct o as [r|x|x].
        * right. unfold Gateway.ready, Gateway.AsyncResult. rewrite Hb1. reflexivity.
        * destruct (max_retries <? wi_retries item + 1)%nat.
          -- right. unfold Gateway.ready, Gateway.AsyncResult. rewrite Hb1. reflexivity.
          -- left. unfold queued_ids. rewrite Hq1, map_app.
             apply in_or_app. right. left. reflexivity.
        * right. unfold Gateway.ready, Gateway.AsyncResult. rewrite Hb1. reflexivity.
      + destruct H as [Hin|Hready].
        * left. unfold queued_ids in *. rewrite Hq in Hin. cbn [map] in Hin.
          destruct Hin as [Heq|Hin]; [congruence|].
          rewrite Hq1, map_app. apply in_or_app. left. exact Hin.
        * right. unfold Gateway.AsyncResult in *.
          rewrite (Hother task_id Hne). cbn [set_queue celery_backend]. exact Hready. }
  split; [exact (Hdrain envs w Hwork)|].
  intros task_id Hin.
  destruct (Hsettle envs w task_id (or_introl Hin)) as [Hstill|Hready].
  - unfold queued_ids in Hstill. rewrite (Hdrain envs w Hwork) in Hstill. destruct Hstill.
  - split; [exact Hready|].
    intros r. unfold Gateway.get_task_result. rewrite Hready. cbn [negb].
    destruct (Gateway.failed _).
    + destruct (meta_info _); intros [= <-]; discriminate.
    + destruct (negb (Gateway.successful _)); [intros [= <-]; discriminate|].
      destruct (meta_info _); intros [= <-]; discriminate.
Qed.

End BacklogFacts.

Lemma queue_drains_to_final_states_witness :
  (Backlog.work_left (celery_queue Sample.tts_submitted)
   <= length [Sample.env_down; Sample.env_down; Sample.env_down; Sample.env_ok])%nat
  /\ celery_queue
       (fst (Orchestrator.run_worker
               [Sample.env_down; Sample.env_down; Sample.env_down; Sample.env_ok]
               Sample.tts_submitted)) = [].
Proof.
  assert (Hwork : (Backlog.work_left (celery_queue Sample.tts_submitted)
                   <= length [Sample.env_down; Sample.env_down; Sample.env_down;
                              Sample.env_ok])%nat)
    by (vm_compute; lia).
  split; [exact Hwork|].
  exact (proj1 (queue_drains_to_final_states Sample.presign
                  [Sample.env_down; Sample.env_down; Sample.env_down; Sample.env_ok]
                  Sample.tts_submitted Hwork)).
Defined.

(** ** The cleanup worker on real states *)

Section CleanupRuns.

Import CleanupWorker CleanupListener.

(** With every delete working, each listed name is gone from the bucket
    the worker picks for it. *)
Lemma delete_loop_removes e files :
  Cases.deletes_work e ->
  forall w f, In f files ->
              Cases.stored (bucket_for f) f (fst (delete_loop e files w)) = None.
Proof.
  intros Hok. induction files as [|g files IH]; intros w f Hin; [destruct Hin|].
  cbn [delete_loop]. rewrite Hok.
  destruct (delete_loop e files (remove_object (bucket_for g) g w)) as [w1 log] eqn:Hloop.
  cbn [fst]. destruct Hin as [->|Hin].
  - pose proof (delete_loop_stored e files (remove_object (bucket_for f) f w)
                  (bucket_for f) f) as [_ Hnone].
    rewrite Hloop in Hnone. cbn [fst] in Hnone. apply Hnone.
    apply remove_object_gone.
  - specialize (IH (remove_object (bucket_for g) g w) f Hin).
    rewrite Hloop in IH. exact IH.
Qed.

(** X15: a cleanup run only deletes, and only what is on the job's list.
    It leaves the task store, the queue, the trigger keys and every other
    Redis list alone; an object whose name is not on the list is after the
    run what it was before, in either bucket; and no object appears that
    was not there. *)
Theorem cleanup_only_deletes_listed e task_id w :
  let w' := fst (process_cleanup_task e task_id w) in
  celery_backend w' = celery_backend w
  /\ celery_queue w' = celery_queue w
  /\ redis_ttl_keys w' = redis_ttl_keys w
  /\ (forall key, key <> "files:" +:+ task_id -> redis_lists w' !! key = redis_lists w !! key)
  /\ (forall b name, ~ In name (lrange ("files:" +:+ task_id) w) ->
                     Cases.stored b name w' = Cases.stored b name w)
  /\ (forall b name, Cases.stored b name w = None -> Cases.stored b name w' = None).
Proof.
  cbn zeta. unfold process_cleanup_task.
  destruct (lrange ("files:" +:+ task_id) w) as [|f files] eqn:Hl.
  - cbn [fst]. repeat split; intros; assumption.
  - pose proof (delete_loop_other_fields e (f :: files) w) as (Hb & Hq & Hrl & Ht).
    pose proof (delete_loop_stored e (f :: files) w) as Hst.
    destruct (delete_loop e (f :: files) w) as [w1 log]. cbn [fst] in *.
    assert (Hsame : forall b name,
               Cases.stored b name (redis_delete ("files:" +:+ task_id) w1)
               = Cases.stored b name w1)
      by (intros [] name; reflexivity).
    cbn [redis_delete celery_backend celery_queue redis_ttl_keys redis_lists].
    split; [exact Hb|]. split; [exact Hq|]. split; [exact Ht|].
    split; [intros key Hkey; rewrite lookup_delete_ne by congruence;
            rewrite Hrl; reflexivity|].
    split; intros b name H; rewrite Hsame; apply (Hst b name); exact H.
Qed.

Lemma cleanup_removes_listed_in_loop e task_id w f :
  Cases.deletes_work e ->
  In f (lrange ("files:" +:+ task_id) w) ->
  Cases.stored (bucket_for f) f (fst (process_cleanup_task e task_id w)) = None.
Proof.
  intros Hok Hin. unfold process_cleanup_task.
  destruct (lrange ("files:" +:+ task_id) w) as [|g files] eqn:Hl; [destruct Hin|].
  pose proof (delete_loop_removes e (g :: files) Hok w f Hin) as Hgone.
  destruct (delete_loop e (g :: files) w) as [w1 log]. cbn [fst] in *.
  destruct (bucket_for f); exact Hgone.
Qed.

(** X16: when no delete fails, a cleanup run leaves none of the listed
    names in the bucket the worker picks for it (the unprocessed bucket for
    a name containing "input", the processed one otherwise). *)
Theorem cleanup_removes_listed e task_id w f :
  Cases.deletes_work e ->
  In f (lrange ("files:" +:+ task_id) w) ->
  Cases.stored (bucket_for f) f (fst (process_cleanup_task e task_id w)) = None.
Proof.
  intros Hok Hin. unfold process_cleanup_task.
  destruct (lrange ("files:" +:+ task_id) w) as [|g files] eqn:Hl; [destruct Hin|].
  pose proof (delete_loop_removes e (g :: files) Hok w f Hin) as Hgone.
  destruct (delete_loop e (g :: files) w) as [w1 log]. cbn [fst] in *.
  destruct (bucket_for f); exact Hgone.
Qed.

(** X17: an expiry notification that arrives a second time does nothing.
    After the worker has handled the expiry of [cleanup:<id>], handling the
    same message again makes no delete attempt and leaves the state as it
    is. *)
Theorem repeated_expiry_is_ignored e e' task_id w :
  redis_lists w !! ("files:" +:+ task_id) <> Some [] ->
  let message := {| msg_type := "message"; msg_data := "cleanup:" +:+ task_id |} in
  let w1 := fst (on_message e message w) in
  on_message e' message w1 = (w1, []).
Proof.
  intros Hredis. cbn zeta.
  assert (Hcall : forall e0 w0,
             on_message e0 {| msg_type := "message"; msg_data := "cleanup:" +:+ task_id |} w0
             = process_cleanup_task e0 task_id w0).
  { intros e0 w0. unfold on_message. cbn [msg_type msg_data].
    rewrite String.eqb_refl, startswith_cleanup. unfold PyStr.split1_snd.
    rewrite after_first_cleanup. reflexivity. }
  rewrite !Hcall.
  assert (Hgone : lrange ("files:" +:+ task_id) (fst (process_cleanup_task e task_id w)) = []).
  { unfold process_cleanup_task.
    destruct (lrange ("files:" +:+ task_id) w) as [|f files] eqn:Hl.
    - cbn [fst]. exact Hl.
    - destruct (delete_loop e (f :: files) w) as [w1 log]. cbn [fst].
      unfold lrange. cbn [redis_delete redis_lists]. rewrite lookup_delete_eq. reflexivity. }
  unfold process_cleanup_task at 1. rewrite Hgone. reflexivity.
Qed.

(** X18: the listener reacts to nothing but expired [cleanup:] keys.
    Messages of another type (the subscription confirmation) and expiries
    of keys that do not start with [cleanup:] cause no delete attempt and
    no change of state, however many of them arrive. *)
Theorem listener_ignores_other_messages e messages w :
  Forall (fun m => msg_type m <> "message"
                   \/ PyStr.startswith "cleanup:" (msg_data m) = false) messages ->
  listen_for_cleanup_events e messages w = (w, []).
Proof.
  induction 1 as [|m messages Hm _ IH]; [reflexivity|].
  cbn [listen_for_cleanup_events].
  assert (Hskip : on_message e m w = (w, [])).
  { unfold on_message. destruct (String.eqb_spec (msg_type m) "message") as [Ht|Ht].
    - destruct Hm as [Hm|Hm]; [congruence|]. rewrite Hm. reflexivity.
    - reflexivity. }
  rewrite Hskip, IH. reflexivity.
Qed.

End CleanupRuns.

Lemma cleanup_removes_listed_witness :
  Cases.deletes_work Sample.env_ok
  /\ In "job-9.wav" (lrange ("files:" +:+ "job-9") Sample.cleanup_pending)
  /\ Cases.stored (CleanupWorker.bucket_for "job-9.wav") "job-9.wav"
       (fst (CleanupWorker.process_cleanup_task Sample.env_ok "job-9" Sample.cleanup_pending))
     = None.
Proof.
  assert (Hok : Cases.deletes_work Sample.env_ok) by (intros b name; reflexivity).
  assert (Hin : In "job-9.wav" (lrange ("files:" +:+ "job-9") Sample.cleanup_pending))
    by (vm_compute; left; reflexivity).
  split; [exact Hok|]. split; [exact Hin|].
  exact (cleanup_removes_listed Sample.env_ok "job-9" Sample.cleanup_pending "job-9.wav"
           Hok Hin).
Defined.

Lemma repeated_expiry_is_ignored_witness :
  redis_lists Sample.cleanup_pending !! ("files:" +:+ "job-9") <> Some []
  /\ CleanupWorker.on_message Sample.env_ok
       {| CleanupWorker.msg_type := "message";
          CleanupWorker.msg_data := "cleanup:" +:+ "job-9" |}
       (fst (CleanupWorker.on_message Sample.env_no_delete
               {| CleanupWorker.msg_type := "message";
                  CleanupWorker.msg_data := "cleanup:" +:+ "job-9" |}
               Sample.cleanup_pending))
     = (fst (CleanupWorker.on_message Sample.env_no_delete
               {| CleanupWorker.msg_type := "message";
                  CleanupWorker.msg_data := "cleanup:" +:+ "job-9" |}
               Sample.cleanup_pending), []).
Proof.
  assert (H : redis_lists Sample.cleanup_pending !! ("files:" +:+ "job-9") <> Some [])
    by (vm_compute; discriminate).
  split; [exact H|].
  exact (repeated_expiry_is_ignored Sample.env_no_delete Sample.env_ok "job-9"
           Sample.cleanup_pending H).
Defined.

Lemma listener_ignores_other_messages_witness :
  CleanupListener.listen_for_cleanup_events Sample.env_ok
    [{| CleanupWorker.msg_type := "subscribe"; CleanupWorker.msg_data := "cleanup:job-9" |};
     {| CleanupWorker.msg_type := "message"; CleanupWorker.msg_data := "files:job-9" |}]
    Sample.cleanup_pending
  = (Sample.cleanup_pending, []).
Proof.
  apply (listener_ignores_other_messages Sample.env_ok).
  constructor; [left; discriminate|].
  constructor; [right; reflexivity|]. constructor.
Defined.

(** ** From the recorded list to the deleted object *)

Section CleanupRoundTrip.

Import Orchestrator CleanupWorker.

Variable presigned_get_object : Bucket -> string -> nat -> string.

Lemma deliver_records_files e item w w' r :
  rpush_error e = None -> setex_error e = None ->
  deliver e item w = (w', Return r) ->
  lrange ("files:" +:+ wi_task_id item) w'
  = (lrange ("files:" +:+ wi_task_id item) w ++ files_to_delete (wi_input item) r)%list.
Proof.
  intros Hr Hs. unfold deliver.
  set (w0 := store_result (wi_task_id item) _ w).
  destruct (process_pipeline e (wi_task_id item) (wi_mode item) (wi_input item) w0)
    as [w1 o] eqn:Hp.
  intros [= <- ->].
  pose proof (returned_files_nonempty _ _ _ _ _ _ _ Hp) as Hfiles.
  apply process_pipeline_Return in Hp
    as [(_ & name & audio & out & _ & _ & _ & _ & ->)
       |(_ & text & audio & _ & _ & _ & _ & ->)].
  - exact (proj1 (schedule_cleanup_records e _ _ _ w0 Hr Hs Hfiles)).
  - exact (proj1 (schedule_cleanup_records e _ _ _ _ Hr Hs Hfiles)).
Qed.

Lemma process_cleanup_task_backend e task_id w :
  celery_backend (fst (process_cleanup_task e task_id w)) = celery_backend w.
Proof.
  unfold process_cleanup_task.
  destruct (lrange ("files:" +:+ task_id) w) as [|f files]; [reflexivity|].
  pose proof (delete_loop_other_fields e (f :: files) w) as (Hb & _).
  destruct (delete_loop e (f :: files) w) as [w1 log]. exact Hb.
Qed.

(** X19: the audio URL outlives the audio.  Take a synthesis job
    processed with Redis working, on a state with no earlier file list for
    it and an id free of "input".  When its trigger key expires and the
    deletes work, the cleanup worker removes [<id>.wav] from the processed
    bucket; the task store still says SUCCESS, and [get_task_result] goes on
    signing and handing out a URL for the object that is gone. *)
Theorem audio_url_outlives_object e e' item w w1 r :
  deliver e item w = (w1, Return r) ->
  wi_mode item = "t2v" ->
  wi_input item !! "input_object_name" = None ->
  rpush_error e = None -> setex_error e = None ->
  redis_lists w !! ("files:" +:+ wi_task_id item) = None ->
  PyStr.contains "input" (wi_task_id item) = false ->
  Cases.deletes_work e' ->
  let message := {| msg_type := "message"; msg_data := "cleanup:" +:+ wi_task_id item |} in
  let w2 := fst (on_message e' message w1) in
  lrange ("files:" +:+ wi_task_id item) w1 = [wi_task_id item +:+ ".wav"]
  /\ minio_processed w2 !! (wi_task_id item +:+ ".wav") = None
  /\ Gateway.get_task_result presigned_get_object (wi_task_id item) w2
     = Ok200 {| trr_task_id := wi_task_id item; trr_status := SUCCESS;
                transcribed_text := None;
                audio_url :=
                  Some (PyStr.split1_last MINIO_ENDPOINT
                          (presigned_get_object MINIO_BUCKET_PROCESSED
                             (wi_task_id item +:+ ".wav") 900));
                error_message := None |}.
Proof.
  intros Hd Hmode Hnoin Hr Hs Hfresh Hid Hok. cbn zeta.
  pose proof (deliver_records_files _ _ _ _ _ Hr Hs Hd) as Hl.
  pose proof (deliver_spec _ _ _ _ _ Hd) as (_ & Hb & _).
  apply deliver_Return_inv in Hd as (_ & _ & _ & _ & Hcase).
  destruct Hcase as [(Hv & _)|(_ & text & audio & _ & _ & _ & -> & _)]; [congruence|].
  assert (Hfiles : lrange ("files:" +:+ wi_task_id item) w1 = [wi_task_id item +:+ ".wav"]).
  { rewrite Hl. unfold lrange at 1. rewrite Hfresh. cbn [default app].
    unfold files_to_delete. rewrite Hnoin, lookup_singleton_eq. reflexivity. }
  assert (Hbucket : bucket_for (wi_task_id item +:+ ".wav") = MINIO_BUCKET_PROCESSED).
  { apply bucket_for_processed_iff.
    change (wi_task_id item +:+ ".wav") with (wi_task_id item +:+ String "." "wav").
    rewrite contains_across_separator by reflexivity. rewrite Hid. reflexivity. }
  rewrite on_cleanup_message.
  split; [exact Hfiles|]. split.
  - pose proof (cleanup_removes_listed_in_loop e' (wi_task_id item) w1
                  (wi_task_id item +:+ ".wav") Hok) as Hgone.
    rewrite Hfiles, Hbucket in Hgone. apply Hgone. left. reflexivity.
  - unfold Gateway.get_task_result, Gateway.AsyncResult.
    rewrite process_cleanup_task_backend, Hb. cbn.
    rewrite lookup_singleton_eq.
    rewrite lookup_singleton_ne by done. reflexivity.
Qed.

(** X20: the cleanup worker never deletes an object of the unprocessed
    bucket whose name does not contain "input": whatever job's list a
    cleanup run works through and whatever is on it, such an object is after
    the run what it was before. *)
Theorem unprocessed_object_outside_cleanup e task_id w name :
  PyStr.contains "input" name = false ->
  minio_unprocessed (fst (process_cleanup_task e task_id w)) !! name
  = minio_unprocessed w !! name.
Proof.
  intros Hname.
  assert (Hloop : forall files w0,
             minio_unprocessed (fst (delete_loop e files w0)) !! name
             = minio_unprocessed w0 !! name).
  { induction files as [|f files IH]; intros w0; [reflexivity|].
    cbn [delete_loop].
    destruct (remove_object_error e (bucket_for f) f).
    - specialize (IH w0). destruct (delete_loop e files w0) as [wl log]. exact IH.
    - specialize (IH (remove_object (bucket_for f) f w0)).
      destruct (delete_loop e files _) as [wl log]. cbn [fst] in *. rewrite IH.
      unfold bucket_for. destruct (PyStr.contains "input" f) eqn:Hf; [|reflexivity].
      cbn [remove_object minio_unprocessed].
      apply lookup_delete_ne. intros ->. congruence. }
  unfold process_cleanup_task.
  destruct (lrange ("files:" +:+ task_id) w) as [|f files]; [reflexivity|].
  specialize (Hloop (f :: files) w).
  destruct (delete_loop e (f :: files) w) as [w1 log]. exact Hloop.
Qed.

End CleanupRoundTrip.

Lemma audio_url_outlives_object_witness :
  Orchestrator.deliver Sample.env_ok Sample.tts_item Sample.tts_submitted
  = (Sample.tts_done, Orchestrator.Return Sample.tts_result)
  /\ Cases.deletes_work Sample.env_ok
  /\ minio_processed
       (fst (CleanupWorker.on_message Sample.env_ok
               {| CleanupWorker.msg_type := "message";
                  CleanupWorker.msg_data := "cleanup:" +:+ wi_task_id Sample.tts_item |}
               Sample.tts_done))
       !! (wi_task_id Sample.tts_item +:+ ".wav") = None.
Proof.
  assert (Hd : Orchestrator.deliver Sample.env_ok Sample.tts_item Sample.tts_submitted
               = (Sample.tts_done, Orchestrator.Return Sample.tts_result))
    by (vm_compute; reflexivity).
  assert (Hok : Cases.deletes_work Sample.env_ok) by (intros b name; reflexivity).
  split; [exact Hd|]. split; [exact Hok|].
  exact (proj1 (proj2 (audio_url_outlives_object Sample.presign Sample.env_ok Sample.env_ok
                         Sample.tts_item Sample.tts_submitted Sample.tts_done
                         Sample.tts_result Hd eq_refl eq_refl eq_refl eq_refl eq_refl
                         eq_refl Hok))).
Defined.

Lemma unprocessed_object_outside_cleanup_witness :
  PyStr.contains "input" "job-1_a.wav" = false
  /\ minio_unprocessed
       (fst (CleanupWorker.process_cleanup_task Sample.env_ok "job-9" Sample.cleanup_pending))
       !! "job-1_a.wav"
     = minio_unprocessed Sample.cleanup_pending !! "job-1_a.wav".
Proof.
  split; [reflexivity|].
  exact (unprocessed_object_outside_cleanup Sample.env_ok "job-9" Sample.cleanup_pending
           "job-1_a.wav" eq_refl).
Defined.

(** ** The client library *)

Section ClientFacts.

Import Client ClientOps.

Variable base_url : string.
Variable presigned_get_object : Bucket -> string -> nat -> string.

(** The lookup handler has one error status. *)
Lemma get_task_result_error_status task_id w code detail :
  Gateway.get_task_result presigned_get_object task_id w = HttpError code detail ->
  code = 500%nat.
Proof.
  unfold Gateway.get_task_result.
  destruct (negb (Gateway.ready _)); [intros [=]|].
  destruct (Gateway.failed _).
  - destruct (meta_info _); intros [=]; subst; reflexivity.
  - destruct (negb (Gateway.successful _)); [intros [=]|].
    destruct (meta_info _); intros [=]; subst; reflexivity.
Qed.

Lemma poll_api_error_status what task_id start_time timeout ticks code body :
  poll what base_url presigned_get_object task_id start_time timeout ticks
  = Some (inl (APIError code body)) ->
  code = 500%nat.
Proof.
  induction ticks as [|t ticks IH]; [intros [=]|].
  cbn [poll]. destruct (now t - start_time <? timeout)%Z; [|intros [=]].
  unfold get_task_result.
  destruct (request_error t); [intros [=]|].
  destruct (Gateway.get_task_result presigned_get_object task_id (world t))
    as [data|c d] eqn:Hg.
  - destruct (transcribed_text data); cbn [status];
      (destruct (trr_status data); [exact IH|intros [=]|intros [=]]).
  - intros [= <- _]. exact (get_task_result_error_status _ _ _ _ Hg).
Qed.

(** X21: the client's own check on the text makes the gateway's check
    unreachable through [synthesize].  A blank text is refused with
    "Text cannot be empty" before any request is made, the state untouched;
    and whatever the text, as long as the two conversions raise no
    [APIError] of their own, [synthesize] never ends in an [APIError] with
    status 400. *)
Theorem synthesize_never_sees_gateway_validation request_error new_id text output_format
    convert save start_time poll_timeout ticks w :
  (forall r code body, convert r <> inl (APIError code body)) ->
  (forall r code body, save r <> inl (APIError code body)) ->
  let run := synthesize base_url presigned_get_object request_error new_id text
               output_format convert save start_time poll_timeout ticks w in
  (PyStr.strip text = EmptyString ->
   run = (w, Some (inl (VoiceFlowError "Text cannot be empty"))))
  /\ forall body, snd run <> Some (inl (APIError 400 body)).
Proof.
  intros Hconvert Hsave. cbn zeta. unfold synthesize. split.
  - intros ->. reflexivity.
  - intros body.
    destruct (PyStr.falsy (PyStr.strip text)) eqn:Hblank; [discriminate|].
    unfold _submit_synthesis.
    destruct request_error; [discriminate|].
    unfold Gateway.synthesize_text. rewrite Hblank. cbn [sr_task_id].
    destruct (_poll_synthesis_result _ _ _ _ _ _) as [[err|result]|] eqn:Hpoll;
      cbn [snd]; [| |discriminate].
    + intros [= ->]. apply poll_api_error_status in Hpoll. discriminate.
    + destruct output_format; intros H.
      * discriminate H.
      * injection H as H. exact (Hconvert _ _ _ H).
      * injection H as H. exact (Hsave _ _ _ H).
Qed.

(** X22: audio sent as bytes without a file name is uploaded as
    [audio.wav].  [_submit_transcription] then returns the new id, the
    bytes are stored in the unprocessed bucket under [<id>_audio.wav], and
    with an id free of "input" that is a name for which the cleanup worker
    picks the processed bucket. *)
Theorem unnamed_upload_is_audio_wav e new_id audio_file given_name w :
  put_object_error e = None ->
  given_name = None \/ given_name = Some EmptyString ->
  PyStr.contains "input" new_id = false ->
  let '(w1, r) := _submit_transcription e None new_id audio_file given_name w in
  r = inr new_id
  /\ minio_unprocessed w1 !! (new_id +:+ "_audio.wav") = Some audio_file
  /\ CleanupWorker.bucket_for (new_id +:+ "_audio.wav") = MINIO_BUCKET_PROCESSED.
Proof.
  intros Hput Hname Hid. unfold _submit_transcription.
  assert (Hf : match given_name with
               | Some f => if PyStr.falsy f then "audio.wav" else f
               | None => "audio.wav"
               end = "audio.wav") by (destruct Hname as [->| ->]; reflexivity).
  rewrite Hf. unfold Gateway.transcribe_audio. rewrite Hput.
  cbn [filename file sr_task_id].
  split; [reflexivity|]. split.
  - cbn [send_task put_object minio_unprocessed]. apply lookup_insert_eq.
  - apply bucket_for_processed_iff.
    change (new_id +:+ "_audio.wav") with (new_id +:+ "_" +:+ "audio.wav").
    rewrite input_object_name_contains by exact Hid. reflexivity.
Qed.

End ClientFacts.

Lemma synthesize_never_sees_gateway_validation_witness :
  ClientOps.synthesize "http://localhost:8000" Sample.presign None "job-8" "   "
    ClientOps.URL (fun r => inr r) (fun r => inr r) 0 100 [] empty_world
  = (empty_world, Some (inl (Client.VoiceFlowError "Text cannot be empty"))).
Proof.
  apply (synthesize_never_sees_gateway_validation "http://localhost:8000" Sample.presign
           None "job-8" "   " ClientOps.URL (fun r => inr r) (fun r => inr r) 0 100 []
           empty_world);
    [intros r code body; discriminate|intros r code body; discriminate|reflexivity].
Defined.

Lemma unnamed_upload_is_audio_wav_witness :
  put_object_error Sample.env_ok = None
  /\ PyStr.contains "input" "job-1" = false
  /\ snd (ClientOps._submit_transcription Sample.env_ok None "job-1" [Byte.x52] None
            empty_world) = inr "job-1"
  /\ CleanupWorker.bucket_for ("job-1" +:+ "_audio.wav") = MINIO_BUCKET_PROCESSED.
Proof.
  split; [reflexivity|]. split; [reflexivity|].
  pose proof (unnamed_upload_is_audio_wav Sample.env_ok "job-1" [Byte.x52] None empty_world
                eq_refl (or_introl eq_refl) eq_refl) as H.
  destruct (ClientOps._submit_transcription Sample.env_ok None "job-1" [Byte.x52] None
              empty_world) as [w1 r].
  destruct H as (Hr & _ & Hb). split; [exact Hr|exact Hb].
Defined.

Section SavedName.

Import Utils.

(** X23: the name under which a synthesis is saved by default is the name
    of its object.  For a finished synthesis job and URLs signed the way
    MinIO signs them, the client's [get_task_result] turns the gateway's
    relative URL into [<base_url>/processed/<id>.wav?<signature>], and
    [extract_filename_from_url], which [_save_to_file] applies to it when no
    path is given, yields [<id>.wav], provided the base URL has no question
    mark and the id neither a question mark nor a slash. *)
Theorem saved_name_is_object_name base_url query task_id w :
  celery_backend w !! task_id
  = Some {| meta_state := C_SUCCESS;
            meta_info := InfoDict {[ "output_object_name" := task_id +:+ ".wav" ]} |} ->
  PyStr.lacks "?" base_url = true ->
  PyStr.lacks "/" task_id = true ->
  PyStr.lacks "?" task_id = true ->
  let url := base_url +:+ "/processed/" +:+ (task_id +:+ ".wav") +:+ "?" +:+ query in
  Client.get_task_result base_url (Cases.minio_presign query) None task_id w
  = inr (Client.SynthesisResult task_id SUCCESS (Some url) None)
  /\ extract_filename_from_url url = task_id +:+ ".wav".
Proof.
  intros Hb Hbase Hslash Hq. cbn zeta. split.
  - unfold Client.get_task_result, Gateway.get_task_result, Gateway.AsyncResult.
    rewrite Hb. cbn.
    rewrite lookup_singleton_eq.
    rewrite lookup_singleton_ne by done. reflexivity.
  - set (name := task_id +:+ ".wav").
    assert (Hname_slash : PyStr.lacks "/" name = true)
      by (unfold name; rewrite lacks_app, Hslash; reflexivity).
    assert (Hname_q : PyStr.lacks "?" name = true)
      by (unfold name; rewrite lacks_app, Hq; reflexivity).
    assert (Hdot : PyStr.contains "." name = true).
    { unfold name. rewrite contains_char, lacks_app.
      rewrite andb_false_r. reflexivity. }
    set (front := base_url +:+ "/processed" +:+ String "/" name).
    assert (Hfront : PyStr.lacks "?" front = true).
    { unfold front. rewrite lacks_app, Hbase.
      change ("/processed" +:+ String "/" name) with ("/processed/" +:+ name).
      rewrite lacks_app, Hname_q. reflexivity. }
    replace (base_url +:+ "/processed/" +:+ name +:+ "?" +:+ query)
      with (front +:+ String "?" query)
      by (unfold front; rewrite append_assoc; reflexivity).
    unfold extract_filename_from_url.
    rewrite (before_first_app _ _ _ Hfront).
    replace front with ((base_url +:+ "/processed") +:+ String "/" name)
      by (unfold front; rewrite append_assoc; reflexivity).
    rewrite (after_last_app _ _ _ Hname_slash), Hdot. reflexivity.
Qed.

End SavedName.

Lemma saved_name_is_object_name_witness :
  celery_backend Cases.done_store !! "job-7"
  = Some {| meta_state := C_SUCCESS;
            meta_info := InfoDict {[ "output_object_name" := "job-7" +:+ ".wav" ]} |}
  /\ Utils.extract_filename_from_url
       ("http://localhost:8000" +:+ "/processed/" +:+ ("job-7" +:+ ".wav") +:+ "?" +:+ "sig=1")
     = "job-7" +:+ ".wav".
Proof.
  assert (Hb : celery_backend Cases.done_store !! "job-7"
               = Some {| meta_state := C_SUCCESS;
                         meta_info := InfoDict {[ "output_object_name"
                                                  := "job-7" +:+ ".wav" ]} |})
    by (vm_compute; reflexivity).
  split; [exact Hb|].
  exact (proj2 (saved_name_is_object_name "http://localhost:8000" "sig=1" "job-7"
                  Cases.done_store Hb eq_refl eq_refl eq_refl)).
Defined.

(** ** The demo UI's poller *)

Section DemoPolling.

Import DemoUi.

Variable presigned_get_object : Bucket -> string -> nat -> string.

Lemma demo_poll_skips task_id start_time timeout early ticks :
  Forall (Cases.unanswered presigned_get_object task_id start_time timeout) early ->
  poll_task_result presigned_get_object task_id start_time timeout (early ++ ticks)
  = poll_task_result presigned_get_object task_id start_time timeout ticks.
Proof.
  induction 1 as [|t early (Hnow & Hcase) _ IH]; [reflexivity|].
  cbn [app poll_task_result]. apply Z.ltb_lt in Hnow. rewrite Hnow.
  destruct Hcase as [[msg Hreq]|[Herr|(r & Hg & Hst)]].
  - rewrite Hreq. exact IH.
  - destruct (Client.request_error t); [exact IH|].
    destruct (Gateway.get_task_result _ _ _); [discriminate|exact IH].
  - destruct (Client.request_error t); [exact IH|].
    rewrite Hg, Hst. exact IH.
Qed.

(** X24: the demo UI reports a timeout as a failure.  When no poll inside
    the budget brings a final state (the request fails, the gateway answers
    with an error status, or it answers PENDING) and the clock then passes
    the budget, [poll_task_result] returns a dict with status FAILED and the
    message "Timeout": the status member is the one a job reported FAILED
    has. *)
Theorem demo_poll_reports_timeout_as_failed task_id start_time timeout early late rest :
  Forall (Cases.unanswered presigned_get_object task_id start_time timeout) early ->
  (timeout <= Client.now late - start_time)%Z ->
  exists result,
    poll_task_result presigned_get_object task_id start_time timeout (early ++ late :: rest)
    = Some result
    /\ result !! "status" = Some (Some "FAILED")
    /\ result !! "error_message" = Some (Some "Timeout")
    /\ forall r, trr_status r = FAILED -> to_json r !! "status" = result !! "status".
Proof.
  intros Hearly Hlate. rewrite (demo_poll_skips _ _ _ _ _ Hearly).
  cbn [poll_task_result]. apply Z.ltb_ge in Hlate. rewrite Hlate.
  eexists. split; [reflexivity|].
  split; [reflexivity|]. split; [reflexivity|].
  intros r Hr. unfold to_json. rewrite Hr. reflexivity.
Qed.

End DemoPolling.

Lemma demo_poll_reports_timeout_as_failed_witness :
  Forall (Cases.unanswered Sample.presign "job-3" 0 60)
         [Cases.failed_turn 0; Cases.failed_turn 30]
  /\ (60 <= Client.now (Cases.failed_turn 60) - 0)%Z
  /\ exists result,
      DemoUi.poll_task_result Sample.presign "job-3" 0 60
        ([Cases.failed_turn 0; Cases.failed_turn 30] ++ [Cases.failed_turn 60])
      = Some result
      /\ result !! "error_message" = Some (Some "Timeout").
Proof.
  assert (Hearly : Forall (Cases.unanswered Sample.presign "job-3" 0 60)
                          [Cases.failed_turn 0; Cases.failed_turn 30]).
  { constructor; [|constructor; [|constructor]];
      (split; [cbn; lia|right; left; reflexivity]). }
  assert (Hlate : (60 <= Client.now (Cases.failed_turn 60) - 0)%Z) by (cbn; lia).
  split; [exact Hearly|]. split; [exact Hlate|].
  destruct (demo_poll_reports_timeout_as_failed Sample.presign "job-3" 0 60
              [Cases.failed_turn 0; Cases.failed_turn 30] (Cases.failed_turn 60) []
              Hearly Hlate) as (result & Hres & _ & Hmsg & _).
  exists result. split; [exact Hres|exact Hmsg].
Defined.

(** ** Failures of the synthesis backend *)

Section SynthesisFailures.

Import Orchestrator.

(** X25: what the TTS service reports reaches the task.  When Chatterbox
    fails, or the upload of its audio is refused, the service answers with
    an error whose detail names the cause; the delivery then ends in
    [self.retry] with "HTTP Error: " followed by that detail, and nothing
    has been written to the processed bucket. *)
Theorem synthesis_error_detail_reaches_task e item w text detail :
  wi_mode item = "t2v" ->
  wi_input item !! "text" = Some text ->
  connect_error e = None -> read_error e = None ->
  (exists msg, chatterbox e text = TritonError msg
               /\ detail = "Triton inference failed: " +:+ msg)
  \/ (exists audio msg, chatterbox e text = TritonOk audio
                        /\ put_object_error e = Some msg
                        /\ detail = "Failed to upload audio: " +:+ msg) ->
  snd (deliver e item w) = SelfRetry ("HTTP Error: " +:+ detail)
  /\ minio_processed (fst (deliver e item w)) = minio_processed w.
Proof.
  intros Hmode Hin Hc Hr Hcase.
  assert (Hp : forall w0,
             process_pipeline e (wi_task_id item) (wi_mode item) (wi_input item) w0
             = (w0, SelfRetry ("HTTP Error: " +:+ detail))).
  { intros w0. unfold process_pipeline. rewrite Hmode. cbn [JobMode_value].
    change (String.eqb "t2v" "v2t") with false. rewrite String.eqb_refl, Hin.
    unfold client_post, TtsService.synthesize_speech. rewrite Hc, Hr.
    cbn [text_to_synthesize tts_task_id].
    destruct Hcase as [(msg & Hch & ->)|(audio & msg & Hch & Hput & ->)].
    - rewrite Hch. unfold read_field, on_http_status_error. cbn.
      rewrite lookup_singleton_eq. reflexivity.
    - rewrite Hch, Hput. unfold read_field, on_http_status_error. cbn.
      rewrite lookup_singleton_eq. reflexivity. }
  unfold deliver. rewrite Hp. cbn [fst snd]. split; [reflexivity|].
  destruct (max_retries <? wi_retries item + 1)%nat; reflexivity.
Qed.

(** X26: a lost answer leaves the audio behind.  When the TTS service
    did its work but the orchestrator's request ends in a transport error,
    the delivery ends in [self.retry] with that error, the audio is already
    stored under [<id>.wav], and no cleanup entry has been recorded for
    it. *)
Theorem lost_response_leaves_audio e item w text audio msg :
  wi_mode item = "t2v" ->
  wi_input item !! "text" = Some text ->
  connect_error e = None -> read_error e = Some msg ->
  chatterbox e text = TritonOk audio ->
  put_object_error e = None ->
  snd (deliver e item w) = SelfRetry msg
  /\ minio_processed (fst (deliver e item w)) !! (wi_task_id item +:+ ".wav") = Some audio
  /\ redis_lists (fst (deliver e item w)) = redis_lists w
  /\ redis_ttl_keys (fst (deliver e item w)) = redis_ttl_keys w.
Proof.
  intros Hmode Hin Hc Hr Hch Hput.
  assert (Hp : forall w0,
             process_pipeline e (wi_task_id item) (wi_mode item) (wi_input item) w0
             = (put_object MINIO_BUCKET_PROCESSED (wi_task_id item +:+ ".wav") audio w0,
                SelfRetry msg)).
  { intros w0. unfold process_pipeline. rewrite Hmode. cbn [JobMode_value].
    change (String.eqb "t2v" "v2t") with false. rewrite String.eqb_refl, Hin.
    unfold client_post, TtsService.synthesize_speech. rewrite Hc, Hr.
    cbn [text_to_synthesize tts_task_id]. rewrite Hch, Hput. reflexivity. }
  unfold deliver. rewrite Hp. cbn [fst snd]. split; [reflexivity|].
  destruct (max_retries <? wi_retries item + 1)%nat;
    cbn [send_task store_result put_object minio_processed redis_lists redis_ttl_keys];
    (split; [apply lookup_insert_eq|split; reflexivity]).
Qed.

End SynthesisFailures.

Lemma synthesis_error_detail_reaches_task_witness :
  chatterbox Sample.env_triton_down "hello" = TritonError "model unavailable"
  /\ snd (Orchestrator.deliver Sample.env_triton_down Sample.tts_item Sample.tts_submitted)
     = Orchestrator.SelfRetry
         ("HTTP Error: " +:+ ("Triton inference failed: " +:+ "model unavailable")).
Proof.
  split; [reflexivity|].
  exact (proj1 (synthesis_error_detail_reaches_task Sample.env_triton_down Sample.tts_item
                  Sample.tts_submitted "hello"
                  ("Triton inference failed: " +:+ "model unavailable")
                  eq_refl eq_refl eq_refl eq_refl
                  (or_introl (ex_intro _ "model unavailable" (conj eq_refl eq_refl))))).
Defined.

Lemma lost_response_leaves_audio_witness :
  read_error Cases.env_lost_response = Some "read timed out"
  /\ snd (Orchestrator.deliver Cases.env_lost_response Sample.tts_item Sample.tts_submitted)
     = Orchestrator.SelfRetry "read timed out"
  /\ minio_processed
       (fst (Orchestrator.deliver Cases.env_lost_response Sample.tts_item
               Sample.tts_submitted))
       !! (wi_task_id Sample.tts_item +:+ ".wav")
     = Some [Byte.x52; Byte.x49; Byte.x46; Byte.x46].
Proof.
  split; [reflexivity|].
  destruct (lost_response_leaves_audio Cases.env_lost_response Sample.tts_item
              Sample.tts_submitted "hello" [Byte.x52; Byte.x49; Byte.x46; Byte.x46]
              "read timed out" eq_refl eq_refl eq_refl eq_refl eq_refl eq_refl)
    as (Ho & Hobj & _).
  split; [exact Ho|exact Hobj].
Defined.

(** ** The first turn that decides *)

Section DecisiveTurn.

Import Client.

Variable what base_url : string.
Variable presigned_get_object : Bucket -> string -> nat -> string.
Variable task_id : string.
Variables start_time timeout : Z.

(** X27: the client's polling loop ends at the first turn that is not a
    PENDING answer, whatever would come later.  After any number of PENDING
    turns, a turn inside the budget whose request fails on the network ends
    the loop with the error "Failed to get task result: ..."; a turn that
    shows SUCCESS ends it with that result. *)
Theorem poll_ends_at_first_decisive_turn early t rest :
  Forall (tick_shows presigned_get_object task_id start_time timeout PENDING) early ->
  (now t - start_time < timeout)%Z ->
  (forall msg, request_error t = Some msg ->
     poll what base_url presigned_get_object task_id start_time timeout (early ++ t :: rest)
     = Some (inl (VoiceFlowError ("Failed to get task result: " +:+ msg))))
  /\ (tick_shows presigned_get_object task_id start_time timeout SUCCESS t ->
      exists res,
        poll what base_url presigned_get_object task_id start_time timeout
          (early ++ t :: rest) = Some (inr res)
        /\ status res = SUCCESS
        /\ get_task_result base_url presigned_get_object None task_id (world t) = inr res).
Proof.
  intros Hearly Hnow.
  rewrite (poll_skips_pending what base_url presigned_get_object task_id start_time timeout
             early (t :: rest) Hearly).
  cbn [poll]. apply Z.ltb_lt in Hnow. rewrite Hnow. split.
  - intros msg Hreq. unfold get_task_result. rewrite Hreq. reflexivity.
  - intros (_ & Hreq & r & Hg & Hst). rewrite Hreq.
    destruct (client_view base_url presigned_get_object task_id _ _ Hg)
      as (res & Hres & Hs & _).
    rewrite Hres, Hs, Hst. exists res. repeat split. congruence.
Qed.

End DecisiveTurn.

Lemma poll_ends_at_first_decisive_turn_witness :
  Forall (Client.tick_shows Sample.presign "job-2" 0 100 PENDING) [Sample.waiting 0]
  /\ (Client.now (Cases.broken_turn 10) - 0 < 100)%Z
  /\ Client.poll "Synthesis" "http://localhost:8000" Sample.presign "job-2" 0 100
       ([Sample.waiting 0] ++ Cases.broken_turn 10 :: [Sample.waiting 20])
     = Some (inl (Client.VoiceFlowError
                    ("Failed to get task result: " +:+ "connection reset"))).
Proof.
  assert (Hearly : Forall (Client.tick_shows Sample.presign "job-2" 0 100 PENDING)
                          [Sample.waiting 0]).
  { repeat constructor; cbn; try lia;
      eexists; (split; [vm_compute; reflexivity|reflexivity]). }
  assert (Hnow : (Client.now (Cases.broken_turn 10) - 0 < 100)%Z) by (cbn; lia).
  split; [exact Hearly|]. split; [exact Hnow|].
  exact (proj1 (poll_ends_at_first_decisive_turn "Synthesis" "http://localhost:8000"
                  Sample.presign "job-2" 0 100 [Sample.waiting 0] (Cases.broken_turn 10)
                  [Sample.waiting 20] Hearly Hnow) "connection reset" eq_refl).
Defined.
